(** * hasty-ruby-coypu: loaders and output store, verified against the source

    A shallow embedding of [application.py], [commons.py],
    [loaders/chrome_bookmarks.py] and [loaders/tabs_outliner_db.py], and of
    the flag of the argument parser of [hasty_ruby_coypu.py].

    Conventions of the embedding.
    - A Python function that may raise returns [res A]: [Ok a] or
      [Raise e], [e] an exception of the taxonomy [exn] below; [try/except]
      is a [match] on that result and follows the class hierarchy of the
      source ([UnexpectedInputError] is a [ValueError], not the converse).
    - A Python [str] is a Rocq [string] holding its UTF-8 encoding, so that
      [str.encode('utf-8')] is the identity on the bytes; a [str] that has
      no UTF-8 encoding (a lone surrogate) is outside the embedding.
      Character classes are the ASCII ones: the decimal digits and the
      blanks beyond ASCII, which [int], the pattern [\d] and [uuid.UUID]
      also take, are not recognised, so that [int_of_str] and
      [_NODE_GUID_RE_fullmatch] agree with the code on the strings of ASCII
      characters and refuse the others.
    - A Python [int] is a [Z]; a Python [float] is a binary64 [spec_float].
    - A [dict] produced by the JSON parser is an association list in
      insertion order.
    - The text of an error message is kept where the code builds it from
      strings; a placeholder filled with the rendering of another Python
      value stays [{}] (its argument is still evaluated, since evaluating
      it can raise).
    - Left out: the handlers of [SIGINT] ([DetainSigint],
      [ProcessSigintAsInterruption]), what is printed, the parsing of the
      command line, the bound that recent interpreters put on the number
      of digits [int] converts from a [str], and the limit on the depth of
      the recursion. *)

From Stdlib Require Import ZArith List String Ascii Strings.Byte Bool Lia SpecFloat.
From stdpp Require Import base tactics option list strings pretty gmap.

Import ListNotations.
Local Open Scope string_scope.
Local Open Scope list_scope.
Local Open Scope Z_scope.

(** ** Python exceptions and results *)

Inductive stage : Type :=
  | db_connecting | db_verifying | db_building | db_filling | db_disconnecting.

Inductive exn : Type :=
  (* builtins *)
  | AssertionError
  | AttributeError
  | IndexError
  | KeyError (key : string)
  | OverflowError
  | TypeError
  | ValueError
  | UnicodeDecodeError
  (* sqlite3 *)
  | OperationalError
  | IntegrityError
  (* commons *)
  | FileAccessError (msg : string)
  | DatabaseAccessError (msg : string)
  | UnexpectedInputError (msg : string)
  (* loaders/chrome_bookmarks.py: [_ErrorDuringTreeTraversal(nums=...)] *)
  | _ErrorDuringTreeTraversal (nums : list Z).

Inductive res (A : Type) : Type :=
  | Ok (a : A)
  | Raise (e : exn).
Arguments Ok {A} a.
Arguments Raise {A} e.

#[global] Instance res_ret : MRet res := fun A a => Ok a.
#[global] Instance res_bind : MBind res := fun A B f m =>
  match m with
  | Ok a => f a
  | Raise e => Raise e
  end.

(** [assert c] *)
Definition py_assert (c : bool) : res unit :=
  if c then Ok tt else Raise AssertionError.

Definition is_ok {A} (r : res A) : bool :=
  match r with Ok _ => true | Raise _ => false end.

(** ** Bytes *)

Definition byte_of_Z (z : Z) : byte :=
  match Byte.of_N (Z.to_N (z mod 256)) with
  | Some b => b
  | None => Byte.x00
  end.

Definition Z_of_byte (b : byte) : Z := Z.of_N (Byte.to_N b).

(** [int.to_bytes(n, 'little', signed=False)] *)
Fixpoint le_bytes (n : nat) (i : Z) : list byte :=
  match n with
  | O => []
  | S n' => byte_of_Z i :: le_bytes n' (i / 256)
  end.

Definition int_to_bytes (n : nat) (i : Z) : res (list byte) :=
  if i <? 0 then Raise OverflowError
  else if 256 ^ Z.of_nat n <=? i then Raise OverflowError
  else Ok (le_bytes n i).

(** [int.from_bytes(b, 'little', signed=False)] *)
Fixpoint int_from_bytes (b : list byte) : Z :=
  match b with
  | [] => 0
  | x :: b' => Z_of_byte x + 256 * int_from_bytes b'
  end.

(** ** Python floats

    Binary64 with round-to-nearest-even, computed by the specification
    floats of the Standard Library. *)

Definition prec : Z := 53.
Definition emax : Z := 1024.

(** The float of an integer constant of the source, such as [1000.] *)
Definition float_lit (z : Z) : spec_float := binary_normalize prec emax z 0 false.

(** [float(i)] for an [int]: correctly rounded, [OverflowError] beyond the
    largest finite float. *)
Definition float_of_int (i : Z) : res spec_float :=
  match float_lit i with
  | S754_infinity _ => Raise OverflowError
  | f => Ok f
  end.

(** [a / b] for two [int]s with [0 < b]: the correctly rounded quotient. *)
Definition int_truediv (a : Z) (b : positive) : spec_float :=
  match a with
  | Z0 => S754_zero false
  | Zpos p => SFdiv prec emax (S754_finite false p 0) (S754_finite false b 0)
  | Zneg p => SFdiv prec emax (S754_finite true p 0) (S754_finite false b 0)
  end.

(** [math.floor(x)] *)
Definition math_floor (x : spec_float) : res Z :=
  match x with
  | S754_zero _ => Ok 0
  | S754_infinity _ => Raise OverflowError
  | S754_nan => Raise ValueError
  | S754_finite s m e =>
      let n := if s then Z.neg m else Z.pos m in
      Ok (if 0 <=? e then n * 2 ^ e else n / 2 ^ (- e))
  end.

(** [round(x)]: to the nearest integer, ties to the even one. *)
Definition py_round (x : spec_float) : res Z :=
  match x with
  | S754_zero _ => Ok 0
  | S754_infinity _ => Raise OverflowError
  | S754_nan => Raise ValueError
  | S754_finite s m e =>
      let a :=
        if 0 <=? e then Z.pos m * 2 ^ e
        else
          let d := 2 ^ (- e) in
          let q := Z.pos m / d in
          let r := Z.pos m mod d in
          match 2 * r ?= d with
          | Lt => q
          | Gt => q + 1
          | Eq => if Z.even q then q else q + 1
          end in
      Ok (if s then - a else a)
  end.

(** [x == i] for a float and an [int]: Python compares the exact values. *)
Definition float_eq_int (x : spec_float) (i : Z) : bool :=
  match x with
  | S754_zero _ => i =? 0
  | S754_finite s m e =>
      let n := if s then Z.neg m else Z.pos m in
      if 0 <=? e then n * 2 ^ e =? i
      else (n mod 2 ^ (- e) =? 0) && (n / 2 ^ (- e) =? i)
  | _ => false
  end.

(** [datetime.timestamp()] of an aware datetime, kept as its whole number
    of microseconds since the epoch: [total_seconds()] of the difference to
    the epoch, an [int / int] division by [10**6]. *)
Definition datetime_timestamp (us : Z) : spec_float := int_truediv us 1000000.

(** ** Values crossing the [sqlite3] boundary

    What a cell read from a row is in Python: [None], an [int], a [str] or
    a [bytes] object ([float] cells, which no statement of the program
    writes, are left out). *)

Inductive sqlval : Type :=
  | SqlNull
  | SqlInteger (z : Z)
  | SqlText (s : string)
  | SqlBlob (b : list byte).

#[global] Instance byte_eq_dec : EqDecision byte := Byte.byte_eq_dec.
#[global] Instance sqlval_eq_dec : EqDecision sqlval.
Proof. solve_decision. Defined.

(** Number of code points of a UTF-8 encoded string: the bytes that are not
    continuation bytes [10xxxxxx]. *)
Definition is_continuation (c : ascii) : bool :=
  let n := Z.of_N (N_of_ascii c) in (128 <=? n) && (n <? 192).

Fixpoint str_len (s : string) : Z :=
  match s with
  | EmptyString => 0
  | String c s' => (if is_continuation c then 0 else 1) + str_len s'
  end.

(** Well-formed UTF-8, as the strict decoder of Python accepts it. *)
Definition in_range (lo hi : Z) (b : byte) : bool :=
  (lo <=? Z_of_byte b) && (Z_of_byte b <=? hi).

Fixpoint utf8_valid (l : list byte) : bool :=
  match l with
  | [] => true
  | b0 :: l1 =>
    if in_range 0 127 b0 then utf8_valid l1
    else match l1 with
    | [] => false
    | b1 :: l2 =>
      if in_range 194 223 b0 then in_range 128 191 b1 && utf8_valid l2
      else match l2 with
      | [] => false
      | b2 :: l3 =>
        if in_range 224 239 b0 then
          (if in_range 224 224 b0 then in_range 160 191 b1
           else if in_range 237 237 b0 then in_range 128 159 b1
           else in_range 128 191 b1)
          && in_range 128 191 b2 && utf8_valid l3
        else match l3 with
        | [] => false
        | b3 :: l4 =>
          in_range 240 244 b0
          && (if in_range 240 240 b0 then in_range 144 191 b1
              else if in_range 244 244 b0 then in_range 128 143 b1
              else in_range 128 191 b1)
          && in_range 128 191 b2 && in_range 128 191 b3 && utf8_valid l4
        end
      end
    end
  end.

(** ** [application.py]: the BLOB coders of the [extra] header *)

Definition uuid := list byte.

Definition sqlite3_blob_encode_str (s : string) : list byte :=
  list_byte_of_string s.

Definition sqlite3_blob_decode_str (v : sqlval) : res string :=
  match v with
  | SqlBlob b =>
      if utf8_valid b then Ok (string_of_list_byte b)
      else Raise UnicodeDecodeError
  | _ => Raise AttributeError          (* no method [decode] *)
  end.

Definition sqlite3_blob_encode_int (i : Z) : res (list byte) :=
  match int_to_bytes 4 i with
  | Raise OverflowError => Raise AssertionError
  | r => r
  end.

Definition sqlite3_blob_decode_int (v : sqlval) : res Z :=
  match v with
  | SqlBlob b =>
      _ ← py_assert (Z.of_nat (length b) =? 4);
      Ok (int_from_bytes b)
  | SqlText s =>
      _ ← py_assert (str_len s =? 4);
      Raise TypeError                  (* [int.from_bytes] of a [str] *)
  | SqlNull | SqlInteger _ => Raise TypeError   (* no [len] *)
  end.

Definition sqlite3_blob_encode_uuid (u : uuid) : list byte := u.

(** ** The [sqlite3] connection to the destination

    The destination file holds the three tables of
    [DB_CREATION_SEQUENCE_SQL]; a table that was never created is [None].
    [extra] has a [UNIQUE] name column and is a finite map from names to
    values; the rows of the two other tables are kept in insertion order.
    The engine is SQLite's: a [SAVEPOINT] issued outside a transaction opens
    one, and the [RELEASE] that empties the savepoint stack of such a
    transaction commits it; the Python module opens a transaction of its own
    only in front of an [INSERT], [REPLACE], [UPDATE] or [DELETE] executed
    outside one; closing the connection drops whatever is uncommitted. *)

Record coll_row : Type := {
  collection_uuid : uuid;
  collection_text_id : string;
  collection_displayname : string }.

Record entry_row : Type := {
  entry_uuid : uuid;
  entry_collection_uuid : uuid;
  full_url : string;
  title : string }.

Record database : Type := {
  extra : option (gmap string sqlval);
  collections : option (list coll_row);
  entries : option (list entry_row) }.

Definition empty_database : database :=
  {| extra := None; collections := None; entries := None |}.

Inductive txn : Type :=
  | Autocommit
  | InTxn (by_savepoint : bool) (work : database)
          (savepoints : list (string * database)).

Record connection : Type := {
  disk : database;      (* what the file holds: the committed state *)
  tx : txn }.

Definition view (c : connection) : database :=
  match tx c with
  | Autocommit => disk c
  | InTxn _ w _ => w
  end.

(** A statement that changes the database, executed through the module:
    [begin] tells whether the module opens a transaction in front of it. *)
Definition write (begin : bool) (w : database) (c : connection) : connection :=
  match tx c with
  | Autocommit =>
      if begin then {| disk := disk c; tx := InTxn false w [] |}
      else {| disk := w; tx := Autocommit |}
  | InTxn b _ st => {| disk := disk c; tx := InTxn b w st |}
  end.

Definition exec_savepoint (name : string) (c : connection) : connection :=
  match tx c with
  | Autocommit =>
      {| disk := disk c; tx := InTxn true (disk c) [(name, disk c)] |}
  | InTxn b w st =>
      {| disk := disk c; tx := InTxn b w ((name, w) :: st) |}
  end.

(** The savepoints below the most recent one called [name]. *)
Fixpoint below_savepoint (name : string) (st : list (string * database))
  : option (list (string * database)) :=
  match st with
  | [] => None
  | (n, _) :: st' => if String.eqb n name then Some st' else below_savepoint name st'
  end.

Definition exec_release (name : string) (c : connection) : res connection :=
  match tx c with
  | Autocommit => Raise OperationalError        (* no such savepoint *)
  | InTxn b w st =>
      match below_savepoint name st with
      | None => Raise OperationalError
      | Some [] =>
          if b then Ok {| disk := w; tx := Autocommit |}
          else Ok {| disk := disk c; tx := InTxn b w [] |}
      | Some st' => Ok {| disk := disk c; tx := InTxn b w st' |}
      end
  end.

(** [Connection.commit()] and [Connection.close()] *)
Definition commit (c : connection) : connection :=
  {| disk := view c; tx := Autocommit |}.

Definition close (c : connection) : database := disk c.

(** *** The statements of [application.py] *)

(** [CREATE TABLE "extra" ...] and its two siblings *)
Definition create_extra (c : connection) : res connection :=
  match extra (view c) with
  | Some _ => Raise OperationalError            (* table already exists *)
  | None => Ok (write false {| extra := Some ∅;
                               collections := collections (view c);
                               entries := entries (view c) |} c)
  end.

Definition create_collections (c : connection) : res connection :=
  match collections (view c) with
  | Some _ => Raise OperationalError
  | None => Ok (write false {| extra := extra (view c);
                               collections := Some [];
                               entries := entries (view c) |} c)
  end.

Definition create_entries (c : connection) : res connection :=
  match entries (view c) with
  | Some _ => Raise OperationalError
  | None => Ok (write false {| extra := extra (view c);
                               collections := collections (view c);
                               entries := Some [] |} c)
  end.

(** [SELECT "value" FROM "extra" WHERE "name"=?], then [fetchmany(size=2)] *)
Definition select_extra (name : string) (c : connection) : res (list sqlval) :=
  match extra (view c) with
  | None => Raise OperationalError              (* no such table *)
  | Some m => Ok (match m !! name with Some v => [v] | None => [] end)
  end.

(** [INSERT OR REPLACE INTO "extra" ("name", "value") VALUES (?, ?)] *)
Definition replace_extra (name : string) (val : list byte) (c : connection)
  : res connection :=
  match extra (view c) with
  | None => Raise OperationalError
  | Some m => Ok (write true {| extra := Some (<[name := SqlBlob val]> m);
                                collections := collections (view c);
                                entries := entries (view c) |} c)
  end.

(** [DELETE FROM "extra" WHERE "name"=?] *)
Definition delete_extra (name : string) (c : connection) : res connection :=
  match extra (view c) with
  | None => Raise OperationalError
  | Some m => Ok (write true {| extra := Some (delete name m);
                                collections := collections (view c);
                                entries := entries (view c) |} c)
  end.

(** [INSERT OR IGNORE INTO "collections" VALUES (?, ?, ?)]:
    [collection_uuid] is [UNIQUE], a row that would repeat one is dropped. *)
Definition insert_or_ignore_collection (r : coll_row) (c : connection)
  : res connection :=
  match collections (view c) with
  | None => Raise OperationalError
  | Some rows =>
      let rows' :=
        if existsb (fun r' => bool_decide (collection_uuid r' = collection_uuid r)) rows
        then rows else rows ++ [r] in
      Ok (write true {| extra := extra (view c);
                        collections := Some rows';
                        entries := entries (view c) |} c)
  end.

(** [SELECT EXISTS(SELECT 1 FROM "entries" WHERE ("full_url"=? AND "title"=?))],
    then [fetchone()[0]] *)
Definition select_entry_exists (url ttl : string) (c : connection) : res Z :=
  match entries (view c) with
  | None => Raise OperationalError
  | Some rows =>
      Ok (if existsb (fun r => String.eqb (full_url r) url && String.eqb (title r) ttl) rows
          then 1 else 0)
  end.

(** [INSERT INTO "entries" VALUES (?, ?, ?, ?)]: [entry_uuid] is [UNIQUE],
    a row that would repeat one makes the statement fail. *)
Definition insert_entry (r : entry_row) (c : connection) : res connection :=
  match entries (view c) with
  | None => Raise OperationalError
  | Some rows =>
      if existsb (fun r' => bool_decide (entry_uuid r' = entry_uuid r)) rows
      then Raise IntegrityError
      else Ok (write true {| extra := extra (view c);
                             collections := collections (view c);
                             entries := Some (rows ++ [r]) |} c)
  end.

(** ** [commons.py] *)

Record LoadedData : Type := {
  output_timestamp : Z;    (* aware datetime: microseconds since the epoch *)
  entries_of : list (string * string) }.   (* in iteration order *)

(** What a stage works on: the connection and the number of identifiers
    drawn so far from [random.randbytes]. *)
Record state : Type := { con : connection; drawn : nat }.

(** A computation on the connection that may raise; the connection keeps
    the changes made before the exception. *)
Definition db (A : Type) : Type := state -> res A * state.

#[global] Instance db_ret : MRet db := fun A a s => (Ok a, s).
#[global] Instance db_bind : MBind db := fun A B f m s =>
  match m s with
  | (Ok a, s') => f a s'
  | (Raise e, s') => (Raise e, s')
  end.

Definition lift {A} (r : res A) : db A := fun s => (r, s).

Definition query {A} (q : connection -> res A) : db A := fun s => (q (con s), s).

Definition execute (q : connection -> res connection) : db unit := fun s =>
  match q (con s) with
  | Ok c => (Ok tt, {| con := c; drawn := drawn s |})
  | Raise e => (Raise e, s)
  end.

(** [with Sqlite3TransactionCustom(api_obj, savepoint_name): body]:
    [__enter__] sets the savepoint, and [__exit__] releases it whether or not
    [body] raised, and does not suppress the exception. *)
Definition Sqlite3TransactionCustom {A} (savepoint_name : string) (body : db A)
  : db A := fun s =>
  let s0 := {| con := exec_savepoint savepoint_name (con s); drawn := drawn s |} in
  let '(r, s1) := body s0 in
  match execute (exec_release savepoint_name) s1 with
  | (Ok _, s2) => (r, s2)
  | (Raise e, s2) => (Raise e, s2)
  end.

(** ** [application.py] *)

Definition OUTPUT_DB_EXTRA_SPEC : list (string * (option string * string)) :=
  [ ("db_id", (None, "str"));
    ("db_v", (None, "int"));
    ("latest_output_timestamp", (None, "int")) ].

Fixpoint dict_getitem {V} (d : list (string * V)) (k : string) : res V :=
  match d with
  | [] => Raise (KeyError k)
  | (k', v) :: d' => if String.eqb k' k then Ok v else dict_getitem d' k
  end.

Definition output_db_extra_get (internal_id : string) : db sqlval :=
  spec ← lift (dict_getitem OUTPUT_DB_EXTRA_SPEC internal_id);
  let stored_name := match fst spec with None => internal_id | Some n => n end in
  rows ← query (select_extra stored_name);
  _ ← lift (py_assert (Nat.leb (length rows) 1));
  match rows with
  | [] => mret SqlNull                 (* [None] *)
  | row :: _ => mret row
  end.

Definition output_db_extra_put (internal_id : string) (val : option (list byte))
  : db unit :=
  _ ← lift (dict_getitem OUTPUT_DB_EXTRA_SPEC internal_id);
  match val with
  | Some v => execute (replace_extra internal_id v)
  | None => execute (delete_extra internal_id)
  end.

Definition OUTPUT_DB_ID_STR : string := "hasty-ruby-coypu".
Definition OUTPUT_DB_V_INT : Z := 1.

(** [uuid.uuid3(uuid.uuid3(commons.UUID_BASE_NAMESPACE, 'category'), 'default')] *)
Definition DEFAULT_CATEGORY_UUID : uuid :=
  [x9d; xa0; x15; xaf; x2e; x44; x30; x7a; xa5; x96; x75; x4c; x57; xa3; x9a; x40]%byte.
Definition DEFAULT_CATEGORY_TEXT_ID : string := "default".
Definition DEFAULT_CATEGORY_DISPLAYNAME : string := "Default".

Inductive sql : Type :=
  | PRAGMA_foreign_keys | PRAGMA_secure_delete
  | CREATE_TABLE_extra | CREATE_TABLE_collections | CREATE_TABLE_entries.

Definition DB_CREATION_SEQUENCE_SQL : list sql :=
  [ PRAGMA_foreign_keys; PRAGMA_secure_delete;
    CREATE_TABLE_extra; CREATE_TABLE_collections; CREATE_TABLE_entries ].

Definition execute_sql (q : sql) : db unit :=
  match q with
  | PRAGMA_foreign_keys | PRAGMA_secure_delete => mret tt   (* connection settings *)
  | CREATE_TABLE_extra => execute create_extra
  | CREATE_TABLE_collections => execute create_collections
  | CREATE_TABLE_entries => execute create_entries
  end.

Fixpoint for_each {A} (body : A -> db unit) (l : list A) : db unit :=
  match l with
  | [] => mret tt
  | x :: l' => _ ← body x; for_each body l'
  end.

Definition verify_output_database : db unit :=
  v ← output_db_extra_get "db_id";
  db_id ← lift (sqlite3_blob_decode_str v);
  _ ← lift (py_assert (String.eqb db_id OUTPUT_DB_ID_STR));
  v ← output_db_extra_get "db_v";
  db_v ← lift (sqlite3_blob_decode_int v);
  lift (py_assert (db_v =? OUTPUT_DB_V_INT)).

Definition build_output_database : db unit :=
  _ ← for_each execute_sql DB_CREATION_SEQUENCE_SQL;
  _ ← output_db_extra_put "db_id" (Some (sqlite3_blob_encode_str OUTPUT_DB_ID_STR));
  b ← lift (sqlite3_blob_encode_int OUTPUT_DB_V_INT);
  output_db_extra_put "db_v" (Some b).

(** The body of the entry loop of [store_output_data]; [rng n] is the
    [n]-th value of [uuid.uuid3(UUID_ENTRY_BASE, random.randbytes(16).hex())]. *)
Definition draw (rng : nat -> uuid) : db uuid := fun s =>
  (Ok (rng (drawn s)), {| con := con s; drawn := S (drawn s) |}).

Definition store_entry (rng : nat -> uuid) (entry : string * string) : db unit :=
  found ← query (select_entry_exists (fst entry) (snd entry));
  if found =? 0 then
    entry_uuid ← draw rng;
    execute (insert_entry {| entry_uuid := sqlite3_blob_encode_uuid entry_uuid;
                             entry_collection_uuid :=
                               sqlite3_blob_encode_uuid DEFAULT_CATEGORY_UUID;
                             full_url := fst entry;
                             title := snd entry |})
  else mret tt.

(** The block under [ExceptionOccuredWhile('db_filling')] *)
Definition filling (rng : nat -> uuid) (output_data : LoadedData) : db unit :=
  Sqlite3TransactionCustom "writing_new_data" (
    _ ← (t ← lift (math_floor (datetime_timestamp (output_timestamp output_data)));
         b ← lift (sqlite3_blob_encode_int t);
         output_db_extra_put "latest_output_timestamp" (Some b));
    _ ← execute (insert_or_ignore_collection
                   {| collection_uuid := sqlite3_blob_encode_uuid DEFAULT_CATEGORY_UUID;
                      collection_text_id := DEFAULT_CATEGORY_TEXT_ID;
                      collection_displayname := DEFAULT_CATEGORY_DISPLAYNAME |});
    for_each (store_entry rng) (entries_of output_data)).

(** The stage before [filling]: [db_building] on a file that did not exist,
    [db_verifying] otherwise. *)
Definition preparing_stage (db_created : bool) : stage :=
  if db_created then db_building else db_verifying.

Definition preparing (db_created : bool) : db unit :=
  if db_created
  then Sqlite3TransactionCustom "db_building" build_output_database
  else Sqlite3TransactionCustom "db_verifying" verify_output_database.

Definition stage_name (st : stage) : string :=
  match st with
  | db_connecting => "db_connecting"
  | db_verifying => "db_verifying"
  | db_building => "db_building"
  | db_filling => "db_filling"
  | db_disconnecting => "db_disconnecting"
  end.

(** The two [except] clauses of [store_output_data]: an exception of
    [sqlite3] becomes a [DatabaseAccessError], any other passes. *)
Definition store_except (e : exn) (occured_while : stage) : exn :=
  match e with
  | OperationalError =>
      DatabaseAccessError
        ("Could not store data to output DB: operational error occured; failed stage: '"
         +:+ stage_name occured_while +:+ "'")
  | IntegrityError =>
      DatabaseAccessError
        ("Could not store data to output DB: database error occured; failed stage: '"
         +:+ stage_name occured_while +:+ "'")
  | _ => e
  end.

Inductive outcome : Type :=
  | Done
  | Failed (e : exn) (failed_stage : stage).

(** [store_output_data(output_data, output_db_filepath)]: [file] is what the
    resolved path holds ([None]: no file there); the result is the outcome
    and the file after the connection is closed.  Opening the file is
    taken to succeed. *)
Definition store_output_data (rng : nat -> uuid) (output_data : LoadedData)
    (file : option database) : outcome * database :=
  let db_created := match file with None => true | Some _ => false end in
  let db_con :=
    {| disk := match file with None => empty_database | Some d => d end;
       tx := Autocommit |} in
  let s := {| con := db_con; drawn := 0 |} in
  match preparing db_created s with
  | (Raise e, s1) =>
      (Failed (store_except e (preparing_stage db_created))
              (preparing_stage db_created), close (con s1))
  | (Ok _, s1) =>
      match filling rng output_data s1 with
      | (Raise e, s2) => (Failed (store_except e db_filling) db_filling, close (con s2))
      | (Ok _, s2) => (Done, close (commit (con s2)))
      end
  end.

(** ** The output store, stage by stage

    The stages of [store_output_data] as functions of the committed
    database; the theorems below show that the code computes them. *)

Definition pair_of (r : entry_row) : string * string := (full_url r, title r).

Definition has_pair (e : string * string) (rows : list entry_row) : bool :=
  existsb (fun r => String.eqb (full_url r) (fst e) && String.eqb (title r) (snd e)) rows.

Definition has_uuid (u : uuid) (rows : list entry_row) : bool :=
  existsb (fun r' => bool_decide (entry_uuid r' = u)) rows.

Definition new_row (u : uuid) (e : string * string) : entry_row :=
  {| entry_uuid := u; entry_collection_uuid := DEFAULT_CATEGORY_UUID;
     full_url := fst e; title := snd e |}.

(** What the entry loop does to the [entries] table, as a function of the
    table alone. *)
Fixpoint fill_rows (rng : nat -> uuid) (n : nat) (tbl : option (list entry_row))
    (l : list (string * string)) : res unit * (option (list entry_row) * nat) :=
  match l with
  | [] => (Ok tt, (tbl, n))
  | e :: l' =>
      match tbl with
      | None => (Raise OperationalError, (None, n))
      | Some es =>
          if has_pair e es then fill_rows rng n tbl l'
          else if has_uuid (rng n) es then (Raise IntegrityError, (tbl, S n))
          else fill_rows rng (S n) (Some (es ++ [new_row (rng n) e])) l'
      end
  end.

Definition idle (d : database) (n : nat) : state :=
  {| con := {| disk := d; tx := Autocommit |}; drawn := n |}.

Definition default_collection : coll_row :=
  {| collection_uuid := DEFAULT_CATEGORY_UUID;
     collection_text_id := DEFAULT_CATEGORY_TEXT_ID;
     collection_displayname := DEFAULT_CATEGORY_DISPLAYNAME |}.

Definition with_default (cs : list coll_row) : list coll_row :=
  if existsb (fun r' => bool_decide (collection_uuid r' = DEFAULT_CATEGORY_UUID)) cs
  then cs else cs ++ [default_collection].

(** The [filling] stage as a function of the committed database. *)
Definition filled (rng : nat -> uuid) (output_data : LoadedData) (d : database) (n : nat)
  : res unit * (database * nat) :=
  match math_floor (datetime_timestamp (output_timestamp output_data))
        ≫= sqlite3_blob_encode_int with
  | Raise e => (Raise e, (d, n))
  | Ok b =>
      match extra d with
      | None => (Raise OperationalError, (d, n))
      | Some m =>
          let m' := <["latest_output_timestamp" := SqlBlob b]> m in
          match collections d with
          | None =>
              (Raise OperationalError,
               ({| extra := Some m'; collections := None; entries := entries d |}, n))
          | Some cs =>
              let '(r, (tbl, n')) := fill_rows rng n (entries d) (entries_of output_data) in
              (r, ({| extra := Some m'; collections := Some (with_default cs);
                      entries := tbl |}, n'))
          end
      end
  end.

(** The value of a header, as [output_db_extra_get] returns it on a
    database that has the [extra] table. *)
Definition header (d : database) (name : string) : sqlval :=
  match extra d with
  | Some m => default SqlNull (m !! name)
  | None => SqlNull
  end.

(** The [db_verifying] stage as a function of the committed database. *)
Definition verified (d : database) : res unit :=
  match extra d with
  | None => Raise OperationalError
  | Some _ =>
      db_id ← sqlite3_blob_decode_str (header d "db_id");
      _ ← py_assert (String.eqb db_id OUTPUT_DB_ID_STR);
      db_v ← sqlite3_blob_decode_int (header d "db_v");
      py_assert (db_v =? OUTPUT_DB_V_INT)
  end.

Definition built_database : database :=
  {| extra := Some (<["db_v" := SqlBlob [x01; x00; x00; x00]%byte]>
                     (<["db_id" := SqlBlob (sqlite3_blob_encode_str OUTPUT_DB_ID_STR)]> ∅));
     collections := Some [];
     entries := Some [] |}.

Definition finish (r : res unit) : outcome :=
  match r with
  | Ok _ => Done
  | Raise e => Failed (store_except e db_filling) db_filling
  end.

Definition no_duplicate_pairs (d : database) : Prop :=
  forall es, entries d = Some es -> NoDup (pair_of <$> es).

(** The stores reached from a path that held no file by successful calls
    of [store_output_data], with any records and any identifiers drawn. *)
Inductive stored : database -> Prop :=
  | stored_first rng od d :
      store_output_data rng od None = (Done, d) -> stored d
  | stored_next rng od d d' :
      stored d -> store_output_data rng od (Some d) = (Done, d') -> stored d'.

(** A generator whose [n]-th identifier is the byte [n] before fifteen zero
    bytes. *)
Definition rng_example (n : nat) : uuid := byte_of_Z (Z.of_nat n) :: repeat x00%byte 15.

Definition record_example : LoadedData :=
  {| output_timestamp := 1700000000123456;
     entries_of := [("https://a.example", "A"); ("https://b.example", "B")] |}.

(** A generator that draws the same identifier every time. *)
Definition rng_repeating (n : nat) : uuid :=
  [x51; x3e; x9c; x0b; x7a; x2d; x3f; x18; x8e; x44; x6b; x90; x12; xc7; x5d; xa3]%byte.

(** ** Parsed JSON documents

    What [json.load(..., object_hook=dict)] returns: [None], [bool], [int],
    [float], [str], [list] and [dict]. *)

#[warnings="-register-all"]
Inductive json : Type :=
  | JNull
  | JBool (b : bool)
  | JInt (i : Z)
  | JFloat (x : spec_float)
  | JStr (s : string)
  | JArr (l : list json)
  | JObj (m : list (string * json)).

Definition is_str (v : json) : bool := match v with JStr _ => true | _ => false end.
Definition is_bool (v : json) : bool := match v with JBool _ => true | _ => false end.
(** [bool] is a subclass of [int]. *)
Definition is_int (v : json) : bool :=
  match v with JInt _ | JBool _ => true | _ => false end.
Definition is_int_or_float (v : json) : bool :=
  match v with JInt _ | JBool _ | JFloat _ => true | _ => false end.
Definition is_Mapping (v : json) : bool := match v with JObj _ => true | _ => false end.
Definition is_Sequence (v : json) : bool :=
  match v with JArr _ | JStr _ => true | _ => false end.

(** The value of an [int] (or [bool]) object. *)
Definition int_value (v : json) : option Z :=
  match v with
  | JInt i => Some i
  | JBool b => Some (if b then 1 else 0)
  | _ => None
  end.

(** [v == i] for an [int] literal [i]. *)
Definition eq_int (v : json) (i : Z) : bool :=
  match v with
  | JInt j => j =? i
  | JBool b => (if b then 1 else 0) =? i
  | JFloat x => float_eq_int x i
  | _ => false
  end.

(** [v == s] for a [str] literal [s]. *)
Definition eq_str (v : json) (s : string) : bool :=
  match v with JStr t => String.eqb t s | _ => false end.

Fixpoint dict_get {V} (d : list (string * V)) (k : string) : option V :=
  match d with
  | [] => None
  | (k', v) :: d' => if String.eqb k' k then Some v else dict_get d' k
  end.

Definition dict_has {V} (d : list (string * V)) (k : string) : bool :=
  match dict_get d k with Some _ => true | None => false end.

Definition dict_keys {V} (d : list (string * V)) : list string := map fst d.

Definition str_in (k : string) (l : list string) : bool :=
  existsb (String.eqb k) l.

(** [v[k]] for a [str] key *)
Definition getitem (v : json) (k : string) : res json :=
  match v with
  | JObj m => dict_getitem m k
  | _ => Raise TypeError
  end.

(** [s in t] for two [str]: substring test *)
Fixpoint is_prefix (s t : string) : bool :=
  match s, t with
  | EmptyString, _ => true
  | String a s', String b t' => Ascii.eqb a b && is_prefix s' t'
  | String _ _, EmptyString => false
  end.

Fixpoint is_substring (s t : string) : bool :=
  is_prefix s t
  || match t with
     | EmptyString => false
     | String _ t' => is_substring s t'
     end.

(** The one-character strings a [str] iterates over (one per byte here). *)
Definition chars (s : string) : list string :=
  map (fun c => String c EmptyString) (list_ascii_of_string s).

Definition ascii_in (lo hi : string) (c : ascii) : bool :=
  match lo, hi with
  | String l _, String h _ =>
      (N_of_ascii l <=? N_of_ascii c)%N && (N_of_ascii c <=? N_of_ascii h)%N
  | _, _ => false
  end.

(** [c in string.digits], [c in string.hexdigits] *)
Definition in_digits (c : ascii) : bool := ascii_in "0" "9" c.
Definition in_hexdigits (c : ascii) : bool :=
  in_digits c || ascii_in "a" "f" c || ascii_in "A" "F" c.

Definition all_digits (s : string) : bool :=
  forallb in_digits (list_ascii_of_string s).

Definition digit_value (c : ascii) : Z := Z.of_N (N_of_ascii c) - 48.

(** A message of the source; each of its double quotes is written as a
    backquote here. *)
Fixpoint quotes (s : string) : string :=
  match s with
  | EmptyString => EmptyString
  | String c s' => String (if Ascii.eqb c "`" then ascii_of_nat 34 else c) (quotes s')
  end.

(** [str(err)] *)
Definition str_of_exn (e : exn) : string :=
  match e with
  | UnexpectedInputError msg => msg
  | FileAccessError msg => msg
  | DatabaseAccessError msg => msg
  | _ => EmptyString
  end.

(** [try: body  except (AssertionError, commons.UnexpectedInputError) as err:
    raise commons.UnexpectedInputError(msg(err))] *)
Definition reraise_unexpected {A} (msg : exn -> string) (body : res A) : res A :=
  match body with
  | Raise AssertionError => Raise (UnexpectedInputError (msg AssertionError))
  | Raise (UnexpectedInputError m) =>
      Raise (UnexpectedInputError (msg (UnexpectedInputError m)))
  | r => r
  end.

(** [try: body  except AssertionError as err: raise commons.UnexpectedInputError(msg)] *)
Definition reraise_assertion {A} (msg : string) (body : res A) : res A :=
  match body with
  | Raise AssertionError => Raise (UnexpectedInputError msg)
  | r => r
  end.

(** The three assertions on keys shared by the validators:
    every required key is there, no key is outside the two tables, and
    every value satisfies the predicate of its key. *)
Definition check_keys (required optional : list (string * (json -> bool)))
    (obj : list (string * json)) : res unit :=
  _ ← py_assert (forallb (fun k => str_in k (dict_keys obj)) (dict_keys required));
  _ ← py_assert (forallb (fun k => str_in k (dict_keys (required ++ optional)))
                         (dict_keys obj));
  py_assert (forallb (fun i => match dict_get (required ++ optional) (fst i) with
                               | Some p => p (snd i)
                               | None => false
                               end) obj).

(** [int(x)] for a [str] of ASCII characters: blanks around, a sign, digits
    that single underscores may separate.  The blanks that [int] strips
    are the tab, the line feed, the vertical tab, the form feed, the
    carriage return and the space; the separators [\x1c] to [\x1f] are not
    among them. *)
Definition is_space (c : ascii) : bool :=
  let n := N_of_ascii c in
  ((9 <=? n) && (n <=? 13) || (n =? 32))%N.

Fixpoint lstrip (l : list ascii) : list ascii :=
  match l with
  | c :: l' => if is_space c then lstrip l' else l
  | [] => []
  end.

Definition strip (l : list ascii) : list ascii := rev (lstrip (rev (lstrip l))).

(** Digits with single underscores between them; [after_digit] tells
    whether the previous character was a digit. *)
Fixpoint digits_value (l : list ascii) (after_digit : bool) (acc : Z) : option Z :=
  match l with
  | [] => if after_digit then Some acc else None
  | c :: l' =>
      if in_digits c then digits_value l' true (10 * acc + digit_value c)
      else if Ascii.eqb c "_" && after_digit then digits_value l' false acc
      else None
  end.

Definition int_of_str (s : string) : res Z :=
  let body := strip (list_ascii_of_string s) in
  let '(neg, ds) :=
    match body with
    | c :: l' => if Ascii.eqb c "-" then (true, l')
                 else if Ascii.eqb c "+" then (false, l') else (false, body)
    | [] => (false, [])
    end in
  match digits_value ds false 0 with
  | Some n => Ok (if neg then - n else n)
  | None => Raise ValueError
  end.

(** [int(x)] *)
Definition py_int (x : json) : res Z :=
  match x with
  | JStr s => int_of_str s
  | JInt i => Ok i
  | JBool b => Ok (if b then 1 else 0)
  | JFloat (S754_finite s m e) =>
      let a := if 0 <=? e then Z.pos m * 2 ^ e else Z.pos m / 2 ^ (- e) in
      Ok (if s then - a else a)
  | JFloat (S754_zero _) => Ok 0
  | JFloat (S754_infinity _) => Raise OverflowError
  | JFloat S754_nan => Raise ValueError
  | _ => Raise TypeError
  end.

(** [for child_i, child in zip(itertools.count(0), children): body] *)
Fixpoint for_children {S C} (body : C -> Z -> S -> res S) (children : list C)
    (child_i : Z) (s : S) : res S :=
  match children with
  | [] => Ok s
  | child :: rest => s' ← body child child_i s; for_children body rest (child_i + 1) s'
  end.

(** [output_data.entries.add(e)] on the set, kept in order of first
    insertion. *)
Definition set_add (e : string * string) (s : list (string * string))
  : list (string * string) :=
  if bool_decide (e ∈ s) then s else s ++ [e].

(** ['.'.join(l)] *)
Fixpoint join (sep : string) (l : list string) : string :=
  match l with
  | [] => EmptyString
  | [x] => x
  | x :: l' => x +:+ sep +:+ join sep l'
  end.

(** ** [loaders/chrome_bookmarks.py] *)

Module chrome_bookmarks.

Definition _is_checksum_valid (obj : json) : bool :=
  match obj with
  | JStr s => (str_len s =? 32) && forallb in_hexdigits (list_ascii_of_string s)
  | _ => false
  end.

Definition _precheck_parsed_input_data (data : json) : res unit :=
  reraise_unexpected
    (fun err => "Input data has unexpected format: " +:+ str_of_exn err)
    (version ← getitem data "version";
     _ ← py_assert (is_int_or_float version);
     _ ← (if negb (is_int version && eq_int version 1) then
            _ ← getitem data "id";
            Raise (UnexpectedInputError (quotes "Only `version` == 1 is known, {} encountered"))
          else Ok tt);
     checksum ← getitem data "checksum";
     _ ← (if negb (_is_checksum_valid checksum) then
            Raise (UnexpectedInputError (quotes "`checksum` has unknown format"))
          else Ok tt);
     roots ← getitem data "roots";
     match roots with
     | JObj roots =>
         reraise_assertion (quotes "JSON `roots` element has unknown format")
           (let _required_keys := ["bookmark_bar"; "other"; "synced"] in
            _ ← py_assert (forallb (fun k => str_in k (dict_keys roots)) _required_keys);
            py_assert (forallb (fun k => str_in k _required_keys) (dict_keys roots)))
     | _ =>
         _ ← getitem data "data";
         Raise (UnexpectedInputError
                  (quotes "JSON `roots` element is expected to be a mapping, `{}` encountered"))
     end).


(** [_NODE_GUID_RE.fullmatch(x)]: the pattern
    [[\da-f]{8}-([\da-f]{4}-){3}[\da-f]{12}], the digits being the ASCII ones. *)
Definition in_guid_class (c : ascii) : bool := in_digits c || ascii_in "a" "f" c.

Fixpoint guid_shape (groups : list nat) (l : list ascii) : bool :=
  match groups with
  | [] => match l with [] => true | _ => false end
  | n :: groups' =>
      (Nat.leb n (length l))
      && forallb in_guid_class (take n l)
      && match groups', drop n l with
         | [], rest => match rest with [] => true | _ => false end
         | _, c :: rest => Ascii.eqb c "-" && guid_shape groups' rest
         | _, [] => false
         end
  end.

Definition _NODE_GUID_RE_fullmatch (x : string) : bool :=
  guid_shape [8; 4; 4; 4; 12]%nat (list_ascii_of_string x).

Definition hex_value (c : ascii) : Z :=
  if in_digits c then Z.of_N (N_of_ascii c) - 48 else Z.of_N (N_of_ascii c) - 87.

(** [uuid.UUID(x).int] for a string that matches [_NODE_GUID_RE]: the
    number its 32 hexadecimal digits write. *)
Definition UUID_int (x : string) : Z :=
  fold_left (fun acc c => if Ascii.eqb c "-" then acc else 16 * acc + hex_value c)
            (list_ascii_of_string x) 0.

(** [UUID.variant == uuid.RFC_4122] and [UUID.version] *)
Definition variant_is_RFC_4122 (i : Z) : bool :=
  negb (Z.land i (Z.shiftl 32768 48) =? 0) && (Z.land i (Z.shiftl 16384 48) =? 0).

Definition UUID_version (i : Z) : option Z :=
  if variant_is_RFC_4122 i then Some (Z.land (Z.shiftr i 76) 15) else None.

Definition str_all_digits (x : json) : bool :=
  match x with JStr s => all_digits s | _ => false end.

Definition _required_keys (node_type : string) : list (string * (json -> bool)) :=
  [ ("date_added", str_all_digits);
    ("guid", fun x => match x with JStr s => _NODE_GUID_RE_fullmatch s | _ => false end);
    ("id", str_all_digits);
    ("name", is_str);
    ("type", is_str) ]
  ++ (if String.eqb node_type "url" then [("url", is_str)] else [])
  ++ (if String.eqb node_type "folder" then [("children", is_Sequence)] else []).

Definition _optional_keys (node_type : string) : list (string * (json -> bool)) :=
  [ ("date_modified", str_all_digits) ]
  ++ (if String.eqb node_type "url" then [("meta_info", is_Mapping)] else []).

Definition _assert_meta_info (obj : json) : res unit :=
  match obj with
  | JObj m =>
      _ ← py_assert (forallb (fun x => str_in x ["last_visited_desktop"]) (dict_keys m));
      py_assert (match dict_get m "last_visited_desktop" with
                 | Some v => is_str v
                 | None => false
                 end)
  | _ => Raise AttributeError
  end.

Definition _check_node_contents (node : json) (is_root : bool) : res unit :=
  match node with
  | JObj obj =>
      reraise_unexpected (fun _ => "JSON data node has unknown format")
        (_ ← py_assert (match dict_get obj "type" with
                        | Some t => is_str t
                        | None => false
                        end);
         node_type ← getitem node "type";
         let node_type := match node_type with JStr s => s | _ => EmptyString end in
         (* basic checks (presence and type) *)
         _ ← check_keys (_required_keys node_type) (_optional_keys node_type) obj;
         (* advanced checks *)
         date_added ← getitem node "date_added" ≫= py_int;
         _ ← py_assert (0 <=? date_added);
         _ ← (if dict_has obj "date_modified" then
                date_modified ← getitem node "date_modified" ≫= py_int;
                py_assert (0 <=? date_modified)
              else Ok tt);
         guid ← getitem node "guid";
         let loc_uuid := UUID_int (match guid with JStr s => s | _ => EmptyString end) in
         _ ← py_assert (variant_is_RFC_4122 loc_uuid);
         _ ← py_assert (bool_decide (UUID_version loc_uuid = Some (if is_root then 5 else 4)));
         id ← getitem node "id" ≫= py_int;
         _ ← py_assert (0 <=? id);
         if dict_has obj "meta_info" then getitem node "meta_info" ≫= _assert_meta_info
         else Ok tt)
  | JArr l =>
      (* [list.copy()] exists; ['type' in obj], then [obj['type']] *)
      reraise_unexpected (fun _ => "JSON data node has unknown format")
        (if existsb (fun x => eq_str x "type") l then Raise TypeError
         else Raise AssertionError)
  | _ => Raise AttributeError                 (* no method [copy] *)
  end.

(** *** The traversal *)

Fixpoint with_field {A} (key : string) (found : json -> A) (absent : A)
    (m : list (string * json)) : A :=
  match m with
  | [] => absent
  | (k, v) :: m' => if String.eqb k key then found v else with_field key found absent m'
  end.

Section traversal.
Context {S : Type} (callback : json -> bool -> S -> res S).

(** [try: callback(node, started_at_root)
    except Exception as err: raise _ErrorDuringTreeTraversal(nums=[num])] *)
Definition visit (node : json) (num : Z) (started_at_root : bool) (s : S) : res S :=
  match callback node started_at_root s with
  | Raise _ => Raise (_ErrorDuringTreeTraversal [num])
  | r => r
  end.

(** [except _ErrorDuringTreeTraversal as err: err.nums.insert(0, num); raise err] *)
Definition insert_num (num : Z) (r : res S) : res S :=
  match r with
  | Raise (_ErrorDuringTreeTraversal nums) => Raise (_ErrorDuringTreeTraversal (num :: nums))
  | r => r
  end.

(** The call on a node that is a [str]: it has no item ['children']. *)
Definition _process_input_str (node : string) (num : Z) (s : S) : res S :=
  s ← visit (JStr node) num false s;
  insert_num num (if is_substring "children" node then Raise TypeError else Ok s).

Fixpoint _process_input_tree (node : json) (num : Z) (started_at_root : bool) (s : S)
    {struct node} : res S :=
  s ← visit node num started_at_root s;
  insert_num num
    match node with
    | JObj m =>
        with_field "children"
          (fun children =>
             match children with
             | JArr l =>
                 for_children (fun child child_i => _process_input_tree child child_i false)
                              l 0 s
             | JStr t => for_children _process_input_str (chars t) 0 s
             | JObj m' => for_children _process_input_str (dict_keys m') 0 s
             | _ => Raise TypeError            (* not iterable *)
             end)
          (Ok s) m
    | JArr l => if existsb (fun x => eq_str x "children") l then Raise TypeError else Ok s
    | JStr t => if is_substring "children" t then Raise TypeError else Ok s
    | _ => Raise TypeError                     (* ['children' in node] *)
    end.
End traversal.

Definition _entry_cb (node : json) (is_root : bool) (entries : list (string * string))
  : res (list (string * string)) :=
  _ ← _check_node_contents node is_root;
  type ← getitem node "type";
  if eq_str type "url" then
    url ← getitem node "url";
    name ← getitem node "name";
    match url, name with
    | JStr url, JStr name => Ok (set_add (url, name) entries)
    | _, _ => Raise TypeError                    (* both were checked to be [str] *)
    end
  else Ok entries.

Definition address_str (root_key : string) (nums : list Z) : string :=
  root_key +:+ "." +:+ join "." (tail (map pretty nums)).

Definition stopped_at (address : string) : string :=
  "Input data has unexpected format (stopped at first failed node " +:+ address +:+ ")".

Fixpoint for_roots (roots : list (string * json)) (entries : list (string * string))
  : res (list (string * string)) :=
  match roots with
  | [] => Ok entries
  | (root_key, root_elem) :: rest =>
      match _process_input_tree _entry_cb root_elem 0 true entries with
      | Raise (_ErrorDuringTreeTraversal nums) =>
          Raise (UnexpectedInputError (stopped_at (address_str root_key nums)))
      | Raise e => Raise e
      | Ok entries' => for_roots rest entries'
      end
  end.

(** [now] is the reading of [datetime.datetime.now(tz=datetime.timezone.utc)]. *)
Definition _convert_internal_data (input_data : json) (now : Z) : res LoadedData :=
  roots ← getitem input_data "roots";
  match roots with
  | JObj roots =>
      entries ← for_roots roots [];
      Ok {| output_timestamp := now; entries_of := entries |}
  | _ => Raise AttributeError                    (* no method [items] *)
  end.

(** [loaded] is the result of [_load_from_file(input_db_filepath)]: the
    parsed document, or the [FileAccessError] or [UnexpectedInputError] it
    raises. *)
Definition load_input_data (loaded : res json) (now : Z) : res LoadedData :=
  parsed_input_data ← loaded;
  _ ← _precheck_parsed_input_data parsed_input_data;
  _convert_internal_data parsed_input_data now.

End chrome_bookmarks.

(** ** [commons.silence_exc] *)

Inductive exn_class : Type := TypeError_class | ValueError_class | Exception_class.

(** [err == c] for an exception object [err] and a class [c], as the
    membership test [err in excs] evaluates it: two objects without
    [__eq__] are equal when they are the same object, and an exception is
    not its class. *)
Definition instance_eq_class (err : exn) (c : exn_class) : bool := false.

Definition silence_exc {A} (func : res A) (excs : list exn_class)
  : res (option A * option exn) :=
  match func with
  | Ok result => Ok (Some result, None)
  | Raise err =>
      if existsb (instance_eq_class err) excs
      then Ok (None, Some err)
      else Raise err                   (* re-raise *)
  end.

(** ** [loaders/tabs_outliner_db.py] *)

Module tabs_outliner_db.

(** What [_load_from_file] returns: the four converted fields of the row. *)
Record parsed_input : Type := {
  id : spec_float;
  timestamp : Z;          (* aware datetime: microseconds since the epoch *)
  op_array_len : spec_float;
  data : json }.

Definition is_infinite (x : spec_float) : bool :=
  match x with S754_infinity _ => true | _ => false end.

(** [math.isclose(a, b)] with the default tolerances *)
Definition rel_tol : spec_float := S754_finite false 4835703278458517 (-82).  (* 1e-09 *)
Definition abs_tol : spec_float := S754_zero false.

Definition math_isclose (a b : spec_float) : bool :=
  if SFeqb a b then true
  else if is_infinite a || is_infinite b then false
  else
    let diff := SFabs (SFsub prec emax b a) in
    SFleb diff (SFabs (SFmul prec emax rel_tol b))
    || SFleb diff (SFabs (SFmul prec emax rel_tol a))
    || SFleb diff abs_tol.

(** [len(v)] *)
Definition py_len (v : json) : res Z :=
  match v with
  | JArr l => Ok (Z.of_nat (length l))
  | JStr s => Ok (str_len s)
  | JObj m => Ok (Z.of_nat (length m))
  | _ => Raise TypeError
  end.

(** [v[i]] for an index [0 <= i], and [v[-1]] *)
Definition index (v : json) (i : nat) : res json :=
  match v with
  | JArr l => match nth_error l i with Some x => Ok x | None => Raise IndexError end
  | JStr s => match nth_error (chars s) i with
              | Some c => Ok (JStr c)
              | None => Raise IndexError
              end
  | JObj _ => Raise (KeyError (pretty i))
  | _ => Raise TypeError
  end.

Definition index_last (v : json) : res json :=
  match v with
  | JArr l => match last l with Some x => Ok x | None => Raise IndexError end
  | JStr s => match last (chars s) with
              | Some c => Ok (JStr c)
              | None => Raise IndexError
              end
  | JObj _ => Raise (KeyError "-1")
  | _ => Raise TypeError
  end.

(** [len(set(d.keys()) ^ set(ks)) == 0] *)
Definition keys_are (d : list (string * json)) (ks : list string) : bool :=
  forallb (fun k => str_in k ks) (dict_keys d)
  && forallb (fun k => str_in k (dict_keys d)) ks.

(** [assert isinstance(v, Mapping)], giving the mapping *)
Definition assert_Mapping (v : json) : res (list (string * json)) :=
  match v with JObj m => Ok m | _ => Raise AssertionError end.

Section float_parser.
(** [float(s)] for a [str]: the parser of float literals of Python,
    [None] where it raises [ValueError]. *)
Variable float_of_str : string -> option spec_float.

(** [float(v)] *)
Definition py_float (v : json) : res spec_float :=
  match v with
  | JInt i => float_of_int i
  | JBool b => Ok (if b then float_lit 1 else S754_zero false)
  | JFloat x => Ok x
  | JStr s => match float_of_str s with Some x => Ok x | None => Raise ValueError end
  | _ => Raise TypeError
  end.

(** [v / 1000.] *)
Definition div_1000 (v : json) : res spec_float :=
  match v with
  | JInt i => x ← float_of_int i; Ok (SFdiv prec emax x (float_lit 1000))
  | JBool b =>
      Ok (SFdiv prec emax (if b then float_lit 1 else S754_zero false) (float_lit 1000))
  | JFloat x => Ok (SFdiv prec emax x (float_lit 1000))
  | _ => Raise TypeError
  end.

Definition first_sentinel (dada : json) : res unit :=
  reraise_assertion "JSON special first element has unexpected format"
    (dada0 ← index dada 0;
     d0 ← assert_Mapping dada0;
     _ ← py_assert (keys_are d0 ["type"; "node"]);
     type ← getitem dada0 "type";
     _ ← py_assert (eq_int type 2000);
     node ← getitem dada0 "node";
     n ← assert_Mapping node;
     _ ← py_assert (keys_are n ["type"; "data"]);
     ntype ← getitem node "type";
     _ ← py_assert (eq_str ntype "session");
     ndata ← getitem node "data";
     nd ← assert_Mapping ndata;
     _ ← py_assert (keys_are nd ["treeId"; "nextDId"; "nonDumpedDId"]);
     treeId ← getitem ndata "treeId";
     silenced ← silence_exc (py_float treeId) [TypeError_class; ValueError_class];
     _ ← py_assert (match snd silenced with None => true | Some _ => false end);
     tree_id ← py_float treeId;
     _ ← py_assert (SFleb (S754_zero false) tree_id);
     nextDId ← getitem ndata "nextDId";
     _ ← py_assert (eq_int nextDId 1);
     nonDumpedDId ← getitem ndata "nonDumpedDId";
     py_assert (eq_int nonDumpedDId 1)).

Definition last_sentinel (dada : json) : res unit :=
  reraise_assertion "JSON special last element has unexpected format"
    (dada_1 ← index_last dada;
     d ← assert_Mapping dada_1;
     _ ← py_assert (keys_are d ["type"; "time"]);
     type ← getitem dada_1 "type";
     py_assert (eq_int type 11111)).

(** The relation between the clock of the payload and the clock of the
    row: [(t/1000.) < T and abs(T - (t/1000.)) < 10.] *)
Definition clocks_agree (t_s T : spec_float) : bool :=
  SFltb t_s T && SFltb (SFabs (SFsub prec emax T t_s)) (float_lit 10).

Definition _precheck_parsed_input_data (d : parsed_input) : res unit :=
  reraise_unexpected
    (fun err => "Input data has unexpected format: " +:+ str_of_exn err)
    (_ ← (if negb (SFeqb (id d) (float_lit 1)) then
            Raise (UnexpectedInputError
                     (quotes "Only `current_session_snapshot.id` == 1.0 is known, {} encountered"))
          else Ok tt);
     _ ← (if negb (0 <=? timestamp d) then
            Raise (UnexpectedInputError
                     (quotes "Weird `current_session_snapshot.timestamp` encountered: {}"))
          else Ok tt);
     rounded ← py_round (op_array_len d);
     close ← (x ← float_of_int rounded; Ok (math_isclose (op_array_len d) x));
     _ ← (if negb (close && (0 <=? rounded)) then
            Raise (UnexpectedInputError
                     (quotes "`current_session_snapshot.op_array_len` is expected to be non-negative integer, encountered: {}"))
          else Ok tt);
     _ ← (if negb (is_Sequence (data d)) then
            Raise (UnexpectedInputError
                     (quotes "JSON root element is expected to be an array ('Sequence'), `{}` encountered"))
          else Ok tt);
     n ← py_len (data d);
     _ ← (if negb (float_eq_int (op_array_len d) n) then
            Raise (UnexpectedInputError
                     (quotes "JSON root array is expected to contain exactly `current_session_snapshot.op_array_len`=={} elements total, {} found"))
          else Ok tt);
     let dada := data d in
     _ ← first_sentinel dada;
     _ ← last_sentinel dada;
     time ← index_last dada ≫= (fun x => getitem x "time");
     t_s ← div_1000 time;
     if negb (clocks_agree t_s (datetime_timestamp (timestamp d))) then
       Raise (UnexpectedInputError
                "Timestamps on JSON and DB have weird relation; JSON's is {} and DB's is {}")
     else Ok tt).
End float_parser.

(** [type(v).__name__] *)
Definition type_name (v : json) : string :=
  match v with
  | JNull => "NoneType" | JBool _ => "bool" | JInt _ => "int" | JFloat _ => "float"
  | JStr _ => "str" | JArr _ => "list" | JObj _ => "dict"
  end.

Definition int_such_that (p : Z -> bool) (x : json) : bool :=
  match int_value x with Some i => p i | None => false end.

Definition is_True (x : json) : bool :=
  match x with JBool b => b | _ => false end.

(** [x.split(sep, maxsplit=n)] for a one-character separator *)
Fixpoint split_on (sep : ascii) (maxsplit : nat) (cur : string) (s : string)
  : list string :=
  match s with
  | EmptyString => [cur]
  | String c s' =>
      match maxsplit with
      | O => [cur +:+ s]
      | S n =>
          if Ascii.eqb c sep then cur :: split_on sep n EmptyString s'
          else split_on sep maxsplit (cur +:+ String c EmptyString) s'
      end
  end.

Definition _check_marks_subobj (entry_contents : list (string * json)) (subobj : json)
  : res unit :=
  if negb (is_Mapping subobj) then
    Raise (UnexpectedInputError
             ((quotes "JSON entry subobject `marks` has unexpected type: `")
              +:+ type_name subobj +:+ (quotes "`")))
  else
    reraise_unexpected (fun _ => (quotes "JSON entry subobject `marks` has unknown format"))
      (marks ← dict_getitem entry_contents "marks";
       m ← assert_Mapping marks;
       _ ← py_assert (forallb (fun k => str_in k ["relicons"; "customFavicon"; "customTitle"])
                              (dict_keys m));
       _ ← py_assert (dict_has m "relicons");
       relicons ← getitem marks "relicons";
       _ ← py_assert (is_Sequence relicons);
       n ← py_len relicons;
       _ ← py_assert (n =? 0);
       _ ← (if dict_has m "customFavicon" then
              x ← getitem marks "customFavicon"; py_assert (is_str x)
            else Ok tt);
       if dict_has m "customTitle" then
         x ← getitem marks "customTitle"; py_assert (is_str x)
       else Ok tt).

Definition _check_colapsed_subobj (subobj : json) : res unit :=
  if negb (is_bool subobj) then
    Raise (UnexpectedInputError
             ((quotes "JSON entry subobject `colapsed` has unexpected type: `")
              +:+ type_name subobj +:+ (quotes "`")))
  else Ok tt.

Definition _assert_muted_info (obj : json) : res unit :=
  match obj with
  | JObj m =>
      _ ← py_assert (match dict_get m "muted" with Some v => is_bool v | None => false end);
      _ ← py_assert (forallb (fun x => str_in x ["muted"; "reason"]) (dict_keys m));
      muted ← getitem obj "muted";
      if is_True muted then
        _ ← py_assert (match dict_get m "reason" with Some v => is_str v | None => false end);
        reason ← getitem obj "reason";
        py_assert (eq_str reason "user")
      else Ok tt
  | _ => Raise TypeError
  end.

Definition _parse_rect_record (x : json) : res (list Z) :=
  match x with
  | JStr x =>
      let t := split_on "_" 5 EmptyString x in
      _ ← py_assert (Nat.eqb (length t) 4);
      mapM (fun ta => match int_of_str ta with
                      | Raise ValueError => Raise AssertionError
                      | r => r
                      end) t
  | _ => Raise AttributeError
  end.

Definition tab_required (typ : option string) : list (string * (json -> bool)) :=
  [ ("audible", is_bool);
    ("autoDiscardable", is_True);
    ("discarded", is_bool);
    ("mutedInfo", is_Mapping);
    ("title", is_str);
    ("url", is_str) ]
  ++ (if bool_decide (typ = Some "tab") then [("id", int_such_that (fun x => 0 <? x))]
      else []).

Definition tab_optional (typ : option string) : list (string * (json -> bool)) :=
  [ ("active", is_True);
    ("favIconUrl", is_str);
    ("groupId", int_such_that (fun x => x =? -1));
    ("highlighted", is_bool);
    ("openerTabId", int_such_that (fun x => 0 <? x));
    ("pendingUrl", is_str) ]
  ++ (if bool_decide (typ = None) then
        [ ("id", int_such_that (fun x => 0 <? x));
          ("wasSavedOnLastWinSave", is_True);
          ("windowId", int_such_that (fun x => 0 <? x)) ]
      else [])
  ++ (if bool_decide (typ = Some "tab") then
        [ ("status", is_str);
          ("windowId", int_such_that (fun x => 0 <? x)) ]
      else []).

Definition win_required : list (string * (json -> bool)) :=
  [ ("type", is_str); ("rect", is_str) ].

Definition win_optional (typ : option string) : list (string * (json -> bool)) :=
  [ ("id", int_such_that (fun x => 0 <? x));
    ("focused", is_True) ]
  ++ (if bool_decide (typ = Some "savedwin")
      then [("crashDetectedDate", int_such_that (fun x => 0 <=? x))] else [])
  ++ (if bool_decide (typ = Some "win") then [("state", is_str)] else []).

Definition str_of (v : json) : string := match v with JStr s => s | _ => EmptyString end.

Definition _check_data_subobj (subobj : json) (typ : option string) : res unit :=
  match subobj with
  | JObj m =>
      reraise_unexpected (fun _ => (quotes "JSON entry subobject `data` has unknown format"))
        (if bool_decide (typ = None) || bool_decide (typ = Some "tab") then
           (* basic checks (presence and type) *)
           _ ← check_keys (tab_required typ) (tab_optional typ) m;
           (* advanced checks *)
           _ ← (if dict_has m "status" then
                  status ← getitem subobj "status";
                  py_assert (str_in (str_of status) ["loading"; "unloaded"])
                else Ok tt);
           getitem subobj "mutedInfo" ≫= _assert_muted_info
         else if bool_decide (typ = Some "savedwin") || bool_decide (typ = Some "win") then
           _ ← check_keys win_required (win_optional typ) m;
           type ← getitem subobj "type";
           _ ← py_assert (str_in (str_of type) ["normal"; "popup"]);
           _ ← (if dict_has m "state" then
                  state ← getitem subobj "state";
                  py_assert (str_in (str_of state) ["maximized"])
                else Ok tt);
           rect_record ← getitem subobj "rect" ≫= _parse_rect_record;
           match rect_record with
           | [r0; r1; r2; r3] => py_assert ((r0 <=? r2) && (r1 <=? r3))
           | _ => Raise IndexError
           end
         else if bool_decide (typ = Some "group") then
           _ ← py_assert (dict_has m "rect");
           rect ← getitem subobj "rect";
           _ ← py_assert (is_str rect);
           let rect_record := split_on "_" 5 EmptyString (str_of rect) in
           _ ← py_assert (Nat.eqb (length rect_record) 4);
           py_assert (forallb (fun x => String.eqb x "undefined") rect_record)
         else Raise AssertionError)
  | _ =>
      Raise (UnexpectedInputError
               ((quotes "JSON entry subobject `data` has unexpected type: `")
                +:+ type_name subobj +:+ (quotes "`")))
  end.

Definition check_marks (ec : list (string * json)) : res unit :=
  match dict_get ec "marks" with
  | Some marks => _check_marks_subobj ec marks
  | None => Ok tt
  end.

Definition check_colapsed (ec : list (string * json)) : res unit :=
  match dict_get ec "colapsed" with
  | Some c => _check_colapsed_subobj c
  | None => Ok tt
  end.

(** The discriminator of an entry: [None] when ['type'] is absent. *)
Definition discriminator (ec : list (string * json)) : option json :=
  dict_get ec "type".

Definition _check_input_entry_contents (ec : list (string * json)) : res unit :=
  _ ← match discriminator ec with
      | None => Ok tt
      | Some t =>
          if eq_str t "savedwin" then check_marks ec
          else if eq_str t "group" then (_ ← check_marks ec; check_colapsed ec)
          else if eq_str t "tab" then check_marks ec
          else if eq_str t "win" then (_ ← check_marks ec; check_colapsed ec)
          else Raise (UnexpectedInputError
                        ((quotes "JSON entry contents has unknown type: `")
                         +:+ (if is_str t then str_of t else "{}") +:+ (quotes "`")))
      end;
  match dict_get ec "data" with
  | None =>
      Raise (UnexpectedInputError
               (quotes "JSON entry contents is expected to have `data` subobject, nothing found"))
  | Some subobj =>
      _check_data_subobj subobj
        (match discriminator ec with Some t => Some (str_of t) | None => None end)
  end.

(** An entry contributes when ['type'] is absent or equals ['tab']. *)
Definition contributes (ec : list (string * json)) : bool :=
  match discriminator ec with
  | None => true
  | Some t => eq_str t "tab"
  end.

(** The body of the loop of [_convert_internal_data] *)
Definition convert_entry (input_entry : json) (input_entry_i : Z)
    (entries : list (string * string)) : res (list (string * string)) :=
  ec ← reraise_unexpected
         (fun err => "Input data has unexpected format (stopped at first failed entry "
                     +:+ pretty input_entry_i +:+ "): " +:+ str_of_exn err)
         (n ← py_len input_entry;
          _ ← py_assert (n =? 3);
          e0 ← index input_entry 0;
          _ ← py_assert (eq_int e0 2001);
          e1 ← index input_entry 1;
          ec ← assert_Mapping e1;
          e2 ← index input_entry 2;
          _ ← py_assert (is_Sequence e2);
          _ ← py_assert (match e2 with
                         | JArr l => forallb (int_such_that (fun x => 0 <=? x)) l
                         | JStr s => match s with EmptyString => true | _ => false end
                         | _ => false
                         end);
          _ ← _check_input_entry_contents ec;
          Ok ec);
  if contributes ec then
    d ← dict_getitem ec "data";
    url ← getitem d "url";
    title ← getitem d "title";
    match url, title with
    | JStr url, JStr title => Ok (set_add (url, title) entries)
    | _, _ => Raise TypeError                  (* both were checked to be [str] *)
    end
  else Ok entries.

(** [seq[1:-1]] *)
Definition middle {A} (l : list A) : list A := removelast (tail l).

(** [now] is the reading of [datetime.datetime.now(tz=datetime.timezone.utc)]. *)
Definition _convert_internal_data (input_data : parsed_input) (now : Z) : res LoadedData :=
  match data input_data with
  | JArr l =>
      entries ← for_children convert_entry (middle l) 1 [];
      Ok {| output_timestamp := now; entries_of := entries |}
  | JStr s =>
      entries ← for_children convert_entry (map JStr (middle (chars s))) 1 [];
      Ok {| output_timestamp := now; entries_of := entries |}
  | JObj _ => Raise (KeyError "slice(1, -1, None)")
  | _ => Raise TypeError
  end.

(** [loaded] is the result of [_load_from_file(input_db_filepath)]: the
    converted row, or the exception it raises. *)
Definition load_input_data (float_of_str : string -> option spec_float)
    (loaded : res parsed_input) (now : Z) : res LoadedData :=
  parsed_input_data ← loaded;
  _ ← _precheck_parsed_input_data float_of_str parsed_input_data;
  _convert_internal_data parsed_input_data now.

End tabs_outliner_db.

(** ** [application.main]: what the caller tells apart *)

Inductive ExitCode : Type :=
  | SUCCESS | EUNSPEC | EFILEACC | EDBUNSPEC | EBADINPUT | EUSRINTER.

(** The [try] around [loader.load_input_data]: the exit code returned, or
    the exception that no clause catches. *)
Definition main_loading (loaded : res LoadedData) : LoadedData + (ExitCode + exn) :=
  match loaded with
  | Ok d => inl d
  | Raise (FileAccessError _) => inr (inl EFILEACC)
  | Raise (DatabaseAccessError _) => inr (inl EDBUNSPEC)
  | Raise (UnexpectedInputError _) => inr (inl EBADINPUT)
  | Raise e => inr (inr e)
  end.

Import chrome_bookmarks tabs_outliner_db.

(** ** The nodes of a bookmark tree *)


(** The items numbered from [i], each with what [f] lists under it. *)
Fixpoint numbered {C X} (f : C -> list (list Z * X)) (l : list C) (i : Z)
  : list (list Z * X) :=
  match l with
  | [] => []
  | c :: l' => map (fun px => (i :: fst px, snd px)) (f c) ++ numbered f l' (i + 1)
  end.

(** The nodes of the tree under [node], in document order (a node before
    its children), each with its path of child indices and with the flag
    that tells a root. *)
Fixpoint preorder (is_root : bool) (node : json) : list (list Z * (json * bool)) :=
  ([], (node, is_root)) ::
  match node with
  | JObj m =>
      with_field "children"
        (fun children =>
           match children with
           | JArr l => numbered (preorder false) l 0
           | JStr t => numbered (fun c => [([], (JStr c, false))]) (chars t) 0
           | _ => []
           end)
        [] m
  | _ => []
  end.

(** The nodes under all the roots, each with the key of its root. *)
Definition forest (roots : list (string * json))
  : list (string * (list Z * (json * bool))) :=
  flat_map (fun kr => map (fun x => (fst kr, x)) (preorder true (snd kr))) roots.

(** The node passes [_check_node_contents]. *)
Definition node_ok (x : json * bool) : bool :=
  is_ok (_check_node_contents (fst x) (snd x)).

(** The pair of a node whose type is [url]. *)
Definition url_pair (node : json) : option (string * string) :=
  match node with
  | JObj m =>
      match dict_get m "type", dict_get m "url", dict_get m "name" with
      | Some type, Some (JStr url), Some (JStr name) =>
          if eq_str type "url" then Some (url, name) else None
      | _, _, _ => None
      end
  | _ => None
  end.

Definition add_pair (entries : list (string * string)) (x : json * bool)
  : list (string * string) :=
  match url_pair (fst x) with
  | Some e => set_add e entries
  | None => entries
  end.

(** The dotted address of a node: the key of its root, then its path. *)
Definition address (root_key : string) (path : list Z) : string :=
  root_key +:+ "." +:+ join "." (map pretty path).

Fixpoint json_size (n : json) : nat :=
  match n with
  | JArr l => S (fold_right (fun c a => json_size c + a)%nat 0%nat l)
  | JObj m => S (fold_right (fun kv a => json_size (snd kv) + a)%nat 0%nat m)
  | _ => 1%nat
  end.

Definition fails (x : list Z * (json * bool)) : bool := negb (node_ok (snd x)).

Definition under (i : Z) (px : list Z * (json * bool)) : list Z * (json * bool) :=
  (i :: fst px, snd px).

(** The traversal with [_entry_cb], as the first node in document order
    that does not pass the check, or the pairs of all the nodes. *)
Definition traversed (num : Z) (nodes : list (list Z * (json * bool)))
    (entries : list (string * string)) : res (list (string * string)) :=
  match find fails nodes with
  | Some x => Raise (_ErrorDuringTreeTraversal (num :: fst x))
  | None => Ok (fold_left add_pair (map snd nodes) entries)
  end.

Definition root_fails (x : string * (list Z * (json * bool))) : bool := fails (snd x).

(** [node] is a node of type [url] whose url and name are the pair [e]. *)
Definition is_url_node (node : json) (e : string * string) : Prop :=
  exists m,
    node = JObj m
    /\ dict_get m "type" = Some (JStr "url")
    /\ dict_get m "url" = Some (JStr (fst e))
    /\ dict_get m "name" = Some (JStr (snd e)).

(** [entry] is an element of the operation array whose content mapping has
    no discriminator or the discriminator [tab], and whose [data] holds the
    url and the title of the pair [e]. *)
Definition is_tab_entry (entry : json) (e : string * string) : Prop :=
  exists ec d,
    index entry 1 = Ok (JObj ec)
    /\ (dict_get ec "type" = None \/ dict_get ec "type" = Some (JStr "tab"))
    /\ dict_get ec "data" = Some d
    /\ getitem d "url" = Ok (JStr (fst e))
    /\ getitem d "title" = Ok (JStr (snd e)).

Definition tab_pair (entry : json) : option (string * string) :=
  match index entry 1 with
  | Ok (JObj ec) =>
      if contributes ec then
        match dict_get ec "data" with
        | Some d =>
            match getitem d "url", getitem d "title" with
            | Ok (JStr url), Ok (JStr title) => Some (url, title)
            | _, _ => None
            end
        | None => None
        end
      else None
  | _ => None
  end.

Definition add_tab (entries : list (string * string)) (entry : json)
  : list (string * string) :=
  match tab_pair entry with
  | Some e => set_add e entries
  | None => entries
  end.


(** ** Example inputs *)

Definition url_node (guid id name url : string) : json :=
  JObj [ ("date_added", JStr "13300000000000000"); ("guid", JStr guid); ("id", JStr id);
         ("name", JStr name); ("type", JStr "url"); ("url", JStr url) ].

Definition url_node_without_guid (id name url : string) : json :=
  JObj [ ("date_added", JStr "13300000000000000"); ("id", JStr id);
         ("name", JStr name); ("type", JStr "url"); ("url", JStr url) ].

Definition folder_node (guid id name : string) (children : list json) : json :=
  JObj [ ("children", JArr children); ("date_added", JStr "13300000000000000");
         ("date_modified", JStr "0"); ("guid", JStr guid); ("id", JStr id);
         ("name", JStr name); ("type", JStr "folder") ].

(** A bookmark document: the bar holds a bookmark and a folder with one
    bookmark, [other] holds [other_children]. *)
Definition bookmarks_document (version : json) (other_children : list json) : json :=
  JObj [ ("checksum", JStr "0123456789abcdef0123456789ABCDEF");
         ("roots", JObj [
            ("bookmark_bar",
             folder_node "0bc5d13f-2cba-5d74-951f-3f233fe6c908" "1" "Bookmarks bar"
               [ url_node "a1b2c3d4-e5f6-4a7b-8c9d-0e1f2a3b4c5d" "5" "A" "https://a.example";
                 folder_node "b1b2c3d4-e5f6-4a7b-8c9d-0e1f2a3b4c5d" "6" "F"
                   [ url_node "c1b2c3d4-e5f6-4a7b-8c9d-0e1f2a3b4c5d" "7" "B"
                              "https://b.example" ] ]);
            ("other",
             folder_node "82b081ec-3dd3-529c-8475-ab6c344590dd" "2" "Other bookmarks"
               other_children);
            ("synced",
             folder_node "4cf2e351-0e85-532b-bb37-df045d8f8d0f" "3" "Mobile bookmarks" []) ]);
         ("version", version) ].

(** The third child of [other] has no [guid]. *)
Definition document_third_child_without_guid : json :=
  bookmarks_document (JInt 1)
    [ url_node "d1b2c3d4-e5f6-4a7b-8c9d-0e1f2a3b4c5d" "8" "C" "https://c.example";
      url_node "e1b2c3d4-e5f6-4a7b-8c9d-0e1f2a3b4c5d" "9" "D" "https://d.example";
      url_node_without_guid "10" "E" "https://e.example" ].

(** The bookmark of the bar is also a bookmark of [other]. *)
Definition document_with_a_repeated_bookmark : json :=
  bookmarks_document (JInt 1)
    [ url_node "d1b2c3d4-e5f6-4a7b-8c9d-0e1f2a3b4c5d" "8" "A" "https://a.example" ].

(** The first sentinel of the operation array, of the required shape around
    [treeId], and the last one around [time]. *)
Definition first_sentinel_of (treeId : json) : json :=
  JObj [ ("type", JInt 2000);
         ("node", JObj [ ("type", JStr "session");
                         ("data", JObj [ ("treeId", treeId); ("nextDId", JInt 1);
                                         ("nonDumpedDId", JInt 1) ]) ]) ].

Definition last_sentinel_of (time : json) : json :=
  JObj [ ("type", JInt 11111); ("time", time) ].

Definition tab_entry (url title : string) : json :=
  JArr [ JInt 2001;
         JObj [ ("data", JObj [ ("audible", JBool false); ("autoDiscardable", JBool true);
                                ("discarded", JBool false);
                                ("mutedInfo", JObj [("muted", JBool false)]);
                                ("title", JStr title); ("url", JStr url) ]) ];
         JArr [JInt 0] ].

Definition win_entry : json :=
  JArr [ JInt 2001;
         JObj [ ("type", JStr "win");
                ("data", JObj [("type", JStr "normal"); ("rect", JStr "0_0_100_100")]) ];
         JArr [] ].

(** The row of a snapshot taken at second 1700000000 whose payload is the
    array [l]. *)
Definition session_row (l : list json) : parsed_input :=
  {| id := float_lit 1;
     timestamp := 1700000000000000;
     op_array_len := float_lit (Z.of_nat (length l));
     data := JArr l |}.

(** A parser of float literals that knows no literal. *)
Definition no_float_literal (s : string) : option spec_float := None.

(** ** [commons.py]: [fun_project] and [print_exception_traceback] *)

(** [d[k] = v] on a [dict]: a key that is there keeps its place. *)
Fixpoint dict_setitem {V} (d : list (string * V)) (k : string) (v : V)
  : list (string * V) :=
  match d with
  | [] => [(k, v)]
  | (k', v') :: d' =>
      if String.eqb k' k then (k', v) :: d' else (k', v') :: dict_setitem d' k v
  end.

(** [dict(pairs)] *)
Definition dict_of_pairs {V} (pairs : list (string * V)) : list (string * V) :=
  fold_left (fun d kv => dict_setitem d (fst kv) (snd kv)) pairs [].

(** [fun_project(mapping, keys)] for a [dict]:
    [dict((k, mapping[k]) for k in keys if k in mapping)]; [keys] is what the
    collection iterates over. *)
Definition fun_project {V} (mapping : list (string * V)) (keys : list string)
  : list (string * V) :=
  dict_of_pairs
    (flat_map (fun k => match dict_get mapping k with
                        | Some v => [(k, v)]
                        | None => []
                        end) keys).

(** [print_exception_traceback(err)]: the first argument of the call,
    [err.__type__], is evaluated first, and an exception has no such
    attribute. *)
Definition print_exception_traceback (err : exn) : res unit := Raise AttributeError.

(** ** [hasty_ruby_coypu.py]: the flag of [ArgumentCustomParser] *)

Section ArgumentCustomParser.
(** The values of the keyword arguments, and [bool(v)] on them. *)
Context {V : Type} (truthy : V -> bool).

(** What [__init__] stores in [self._enable_slash_keys]: the keys handed to
    [fun_project] are [('enable_slash_keys')], a [str] between parentheses,
    which iterates over its characters; a key that is absent from the
    [defaultdict] gives [None], and [bool(None)] is [False]. *)
Definition _enable_slash_keys (kwargs : list (string * V)) : bool :=
  let kwargs_own := fun_project kwargs (chars "enable_slash_keys") in
  match dict_get kwargs_own "enable_slash_keys" with
  | Some v => truthy v
  | None => false
  end.
End ArgumentCustomParser.

(** ** [application.main]

    [loaded] is the result of [loader.load_input_data(start_args.input_db)]
    and [file] what the output path holds; the result is the exit code
    returned, or the exception that leaves [main], and the output file
    afterwards.  A handler that prints the traceback under
    [--verbose-errors] calls [commons.print_exception_traceback].  The
    clause for [KeyboardInterrupt] is left out with the signals. *)

Definition ExitCode_value (c : ExitCode) : Z :=
  match c with
  | SUCCESS => 0 | EUNSPEC => 1 | EFILEACC => 2 | EDBUNSPEC => 5
  | EBADINPUT => 22 | EUSRINTER => 10054
  end.

Definition handled (verbose_errors : bool) (err : exn) (code : ExitCode) : res ExitCode :=
  _ ← (if verbose_errors then print_exception_traceback err else Ok tt);
  Ok code.

Definition main (verbose_errors : bool) (rng : nat -> uuid) (loaded : res LoadedData)
    (file : option database) : res ExitCode * option database :=
  match loaded with
  | Raise (FileAccessError _) => (Ok EFILEACC, file)
  | Raise (DatabaseAccessError msg) =>
      (handled verbose_errors (DatabaseAccessError msg) EDBUNSPEC, file)
  | Raise (UnexpectedInputError msg) =>
      (handled verbose_errors (UnexpectedInputError msg) EBADINPUT, file)
  | Raise e => (Raise e, file)
  | Ok data =>
      match store_output_data rng data file with
      | (Done, d) => (Ok SUCCESS, Some d)
      | (Failed (FileAccessError _) _, d) => (Ok EFILEACC, Some d)
      | (Failed (DatabaseAccessError msg) _, d) =>
          (handled verbose_errors (DatabaseAccessError msg) EDBUNSPEC, Some d)
      | (Failed e _, d) => (Raise e, Some d)
      end
  end.

(** ** [loaders/tabs_outliner_db.py]: the types of the fields of the row *)

(** A cell of a [sqlite3.Row], and the types of Python it can have. *)
Inductive cell : Type :=
  | CNone
  | CInt (i : Z)
  | CFloat (x : spec_float)
  | CStr (s : string)
  | CBytes (b : list byte).

Inductive py_type : Type := ty_NoneType | ty_int | ty_float | ty_str | ty_bytes.

#[global] Instance py_type_eq_dec : EqDecision py_type.
Proof. solve_decision. Defined.

(** [type(c)] and [t.__name__] *)
Definition type_of_cell (c : cell) : py_type :=
  match c with
  | CNone => ty_NoneType | CInt _ => ty_int | CFloat _ => ty_float
  | CStr _ => ty_str | CBytes _ => ty_bytes
  end.

Definition py_type_name (t : py_type) : string :=
  match t with
  | ty_NoneType => "NoneType" | ty_int => "int" | ty_float => "float"
  | ty_str => "str" | ty_bytes => "bytes"
  end.

Definition FIELD_TYPES : list (string * py_type) :=
  [ ("id", ty_float); ("timestamp", ty_float); ("op_array_len", ty_float);
    ("data", ty_str) ].

(** [dict(zip(FIELD_TYPES.keys(), row))] *)
Definition assorted (row : list cell) : list (string * cell) :=
  zip (dict_keys FIELD_TYPES) row.

Definition field_type_message (field_name : string) (found expected : py_type) : string :=
  quotes "Input DB's field `current_session_snapshot." +:+ field_name
  +:+ quotes "` was recognized as type '" +:+ py_type_name found
  +:+ "', expected '" +:+ py_type_name expected +:+ "'".

(** The loop of [_check_input_fields_types] from the list [t] on *)
Fixpoint field_type_messages (assorted_row : list (string * cell))
    (fields_types : list (string * py_type)) (t : list string) : res (list string) :=
  match fields_types with
  | [] => Ok t
  | (field_name, expected) :: rest =>
      v ← dict_getitem assorted_row field_name;
      field_type_messages assorted_row rest
        (if bool_decide (type_of_cell v = expected) then t
         else t ++ [field_type_message field_name (type_of_cell v) expected])
  end.

Definition _check_input_fields_types (assorted_row : list (string * cell))
    (fields_types : list (string * py_type)) : res unit :=
  t ← field_type_messages assorted_row fields_types [];
  if (0 <? length t)%nat then Raise (UnexpectedInputError (join "; " t)) else Ok tt.

(** ** [loaders/tabs_outliner_db.py]: the checks on one entry

    The body of the [try] of the loop of [_convert_internal_data], giving
    the content mapping [input_entry[1]] of an entry that passes. *)
Definition checked_entry (input_entry : json) : res (list (string * json)) :=
  n ← py_len input_entry;
  _ ← py_assert (n =? 3);
  e0 ← index input_entry 0;
  _ ← py_assert (eq_int e0 2001);
  e1 ← index input_entry 1;
  ec ← assert_Mapping e1;
  e2 ← index input_entry 2;
  _ ← py_assert (is_Sequence e2);
  _ ← py_assert (match e2 with
                 | JArr l => forallb (int_such_that (fun x => 0 <=? x)) l
                 | JStr s => match s with EmptyString => true | _ => false end
                 | _ => false
                 end);
  _ ← _check_input_entry_contents ec;
  Ok ec.

(** The message of the error raised for the entry numbered [input_entry_i] *)
Definition stopped_at_entry (input_entry_i : Z) (err : exn) : string :=
  "Input data has unexpected format (stopped at first failed entry "
  +:+ pretty input_entry_i +:+ "): " +:+ str_of_exn err.

(** ** The rows of a store *)

(** The (url, title) pairs of the rows of [entries]; none when the table is
    absent. *)
Definition stored_pairs (d : database) : list (string * string) :=
  match entries d with
  | Some es => pair_of <$> es
  | None => []
  end.
(** * Theorems *)

Lemma Z_of_byte_of_Z z : Z_of_byte (byte_of_Z z) = z mod 256.
Proof.
  unfold Z_of_byte, byte_of_Z.
  assert (Hr : 0 <= z mod 256 < 256) by (apply Z.mod_pos_bound; lia).
  destruct (Byte.of_N (Z.to_N (z mod 256))) as [b|] eqn:E.
  - apply Byte.to_of_N in E. rewrite E. lia.
  - apply Byte.of_N_None_iff in E. lia.
Qed.

Lemma int_from_le_bytes n i :
  int_from_bytes (le_bytes n i) = i mod 256 ^ Z.of_nat n.
Proof.
  revert i. induction n as [|n IH]; intros i.
  - simpl. now rewrite Z.mod_1_r.
  - cbn [le_bytes int_from_bytes]. rewrite IH, Z_of_byte_of_Z.
    rewrite Nat2Z.inj_succ, Z.pow_succ_r by lia.
    rewrite Z.rem_mul_r by lia. reflexivity.
Qed.

Lemma length_le_bytes n i : length (le_bytes n i) = n.
Proof. revert i. induction n; intros; simpl; [done | by rewrite IHn]. Qed.

(** C10. The header-integer codec is a 4-byte little-endian unsigned one:
    every [i] with [0 <= i < 2^32] is encoded, to four bytes that decode
    back to [i], and every other integer makes the encoder raise
    ([AssertionError]), so no timestamp outside the range is ever turned
    into a header value. *)
Theorem sqlite3_blob_int_roundtrip (i : Z) :
  (0 <= i < 2 ^ 32 ->
     exists b, sqlite3_blob_encode_int i = Ok b
               /\ length b = 4%nat
               /\ sqlite3_blob_decode_int (SqlBlob b) = Ok i)
  /\ (~ (0 <= i < 2 ^ 32) -> sqlite3_blob_encode_int i = Raise AssertionError).
Proof.
  unfold sqlite3_blob_encode_int, int_to_bytes.
  change (256 ^ Z.of_nat 4) with (2 ^ 32).
  split.
  - intros [Hlo Hhi].
    destruct (Z.ltb_spec i 0); [lia|].
    destruct (Z.leb_spec (2 ^ 32) i); [lia|].
    exists (le_bytes 4 i). split; [reflexivity|].
    split; [apply length_le_bytes|].
    unfold sqlite3_blob_decode_int. rewrite length_le_bytes.
    cbn [Z.of_nat Z.eqb py_assert mbind res_bind Pos.of_succ_nat Pos.succ Pos.eqb].
    rewrite int_from_le_bytes. change (256 ^ Z.of_nat 4) with (2 ^ 32).
    now rewrite Z.mod_small by lia.
  - intros Hout.
    destruct (Z.ltb_spec i 0); [reflexivity|].
    destruct (Z.leb_spec (2 ^ 32) i); [reflexivity|]. lia.
Qed.

Lemma sqlite3_blob_int_roundtrip_witness :
  exists b, sqlite3_blob_encode_int 1700000000 = Ok b
            /\ length b = 4%nat
            /\ sqlite3_blob_decode_int (SqlBlob b) = Ok 1700000000.
Proof. apply (proj1 (sqlite3_blob_int_roundtrip 1700000000)). lia. Defined.
(** ** The output store *)

Lemma for_each_store_entry rng l : forall d0 b0 st m cs tbl n,
  for_each (store_entry rng) l
    {| con := {| disk := d0;
                 tx := InTxn b0 {| extra := m; collections := cs; entries := tbl |} st |};
       drawn := n |}
  = let '(r, (tbl', n')) := fill_rows rng n tbl l in
    (r, {| con := {| disk := d0;
                     tx := InTxn b0 {| extra := m; collections := cs; entries := tbl' |} st |};
           drawn := n' |}).
Proof.
  induction l as [|e l IH]; intros d0 b0 st m cs tbl n; [reflexivity|].
  cbn [for_each fill_rows].
  unfold mbind at 1, db_bind at 1.
  unfold store_entry at 1.
  unfold mbind at 1, db_bind at 1, query at 1, select_entry_exists at 1.
  cbn [con view tx entries].
  destruct tbl as [es|]; [|reflexivity].
  change (existsb _ es) with (has_pair e es).
  destruct (has_pair e es) eqn:Hp; cbn [Z.eqb].
  - cbn [mret db_ret]. apply IH.
  - unfold mbind at 1, db_bind at 1, draw at 1. cbn [drawn con].
    unfold execute at 1, insert_entry at 1, sqlite3_blob_encode_uuid.
    cbn [con view tx entries entry_uuid].
    change (existsb _ es) with (has_uuid (rng n) es).
    destruct (has_uuid (rng n) es) eqn:Hu; [reflexivity|].
    cbn [write tx disk extra collections drawn]. apply IH.
Qed.

Lemma filling_eq rng od d n :
  filling rng od (idle d n)
  = let '(r, (d', n')) := filled rng od d n in (r, idle d' n').
Proof.
  unfold filling, filled, Sqlite3TransactionCustom, idle.
  cbn [con drawn exec_savepoint tx disk].
  unfold mbind at 1, db_bind at 1.
  unfold mbind at 1, db_bind at 1.
  unfold lift at 1.
  destruct (math_floor _) as [t|e]; cbn [mbind res_bind];
    [|destruct d; reflexivity].
  unfold mbind at 1, db_bind at 1, lift at 1.
  destruct (sqlite3_blob_encode_int t) as [b|e]; [|destruct d; reflexivity].
  unfold output_db_extra_put, mbind at 1, db_bind at 1, lift at 1.
  cbn [dict_getitem OUTPUT_DB_EXTRA_SPEC String.eqb Ascii.eqb Bool.eqb].
  unfold execute at 1, replace_extra. cbn [con view tx].
  destruct d as [[m|] cs tbl]; cbn [extra collections entries]; [|reflexivity].
  cbn [write tx disk].
  unfold mbind at 1, db_bind at 1, execute at 1, insert_or_ignore_collection.
  cbn [con view tx collections extra entries].
  destruct cs as [cs|]; [|reflexivity].
  cbn [write tx disk drawn collection_uuid sqlite3_blob_encode_uuid].
  rewrite for_each_store_entry.
  fold default_collection. change (if existsb _ cs then cs else _) with (with_default cs).
  destruct (fill_rows rng n tbl (entries_of od)) as [r [tbl' n']].
  reflexivity.
Qed.

Lemma output_db_extra_get_eq name d b w st n :
  is_Some (extra w) ->
  name ∈ ["db_id"; "db_v"; "latest_output_timestamp"] ->
  output_db_extra_get name {| con := {| disk := d; tx := InTxn b w st |}; drawn := n |}
  = (Ok (header w name), {| con := {| disk := d; tx := InTxn b w st |}; drawn := n |}).
Proof.
  intros [m Hm] Hin. unfold output_db_extra_get, header.
  assert (Hspec : dict_getitem OUTPUT_DB_EXTRA_SPEC name = Ok (None, "str")
                  \/ dict_getitem OUTPUT_DB_EXTRA_SPEC name = Ok (None, "int")).
  { repeat (apply elem_of_cons in Hin as [->|Hin]; [vm_compute; auto|]).
    by apply elem_of_nil in Hin. }
  unfold mbind at 1, db_bind at 1, lift at 1.
  destruct Hspec as [-> | ->]; cbn [fst];
    unfold mbind at 1, db_bind at 1, query at 1, select_extra;
    cbn [con view tx]; rewrite Hm;
    destruct (m !! name); reflexivity.
Qed.

Lemma preparing_verify d n :
  preparing false (idle d n) = (verified d, idle d n).
Proof.
  unfold preparing, Sqlite3TransactionCustom, idle, verified.
  cbn [con drawn exec_savepoint tx disk].
  destruct (extra d) as [m|] eqn:Hm.
  - unfold verify_output_database.
    unfold mbind at 1, db_bind at 1.
    rewrite output_db_extra_get_eq by (rewrite ?Hm; eauto; repeat constructor).
    unfold mbind at 1, db_bind at 1, lift at 1.
    destruct (sqlite3_blob_decode_str _) as [db_id|e]; cbn [mbind res_bind];
      [|destruct d; reflexivity].
    unfold mbind at 1, db_bind at 1, lift at 1.
    destruct (py_assert (String.eqb db_id _)) as [[]|e]; cbn [mbind res_bind];
      [|destruct d; reflexivity].
    unfold mbind at 1, db_bind at 1.
    rewrite output_db_extra_get_eq by (rewrite ?Hm; eauto; repeat constructor).
    unfold mbind at 1, db_bind at 1, lift at 1.
    destruct (sqlite3_blob_decode_int _) as [db_v|e]; cbn [mbind res_bind];
      [|destruct d; reflexivity].
    unfold lift. destruct (py_assert _) as [[]|e]; destruct d; reflexivity.
  - unfold verify_output_database, output_db_extra_get.
    unfold mbind at 1, db_bind at 1, mbind at 1, db_bind at 1, lift at 1.
    cbn [dict_getitem OUTPUT_DB_EXTRA_SPEC String.eqb Ascii.eqb Bool.eqb fst].
    unfold mbind at 1, db_bind at 1, query at 1, select_extra.
    cbn [con view tx]. rewrite Hm. destruct d; reflexivity.
Qed.

Lemma preparing_build n :
  preparing true (idle empty_database n) = (Ok tt, idle built_database n).
Proof. reflexivity. Qed.

Lemma store_output_data_eq rng od file :
  store_output_data rng od file =
  match file with
  | None =>
      let '(r, (d', _)) := filled rng od built_database 0 in (finish r, d')
  | Some d =>
      match verified d with
      | Raise e => (Failed (store_except e db_verifying) db_verifying, d)
      | Ok _ => let '(r, (d', _)) := filled rng od d 0 in (finish r, d')
      end
  end.
Proof.
  unfold store_output_data. destruct file as [d|].
  - change {| con := _; drawn := 0 |} with (idle d 0).
    rewrite preparing_verify. destruct (verified d) as [[]|e]; [|reflexivity].
    rewrite filling_eq. destruct (filled rng od d 0) as [[[]|e] [d' n']]; reflexivity.
  - change {| con := _; drawn := 0 |} with (idle empty_database 0).
    rewrite preparing_build, filling_eq.
    destruct (filled rng od built_database 0) as [[[]|e] [d' n']]; reflexivity.
Qed.

Lemma has_pair_true e es : has_pair e es = true <-> e ∈ pair_of <$> es.
Proof.
  unfold has_pair. rewrite existsb_exists, list_elem_of_fmap. split.
  - intros (r & Hin & Heq). apply andb_prop in Heq as [H1 H2].
    apply String.eqb_eq in H1, H2. exists r. split.
    + unfold pair_of. rewrite H1, H2. by destruct e.
    + by apply list_elem_of_In.
  - intros (r & -> & Hin). exists r. split; [by apply list_elem_of_In|].
    unfold pair_of. cbn [fst snd]. by rewrite !String.eqb_refl.
Qed.

Lemma has_pair_false e es : has_pair e es = false <-> e ∉ pair_of <$> es.
Proof.
  rewrite <- has_pair_true. destruct (has_pair e es); split; congruence.
Qed.

Lemma has_pair_app e es es' :
  has_pair e (es ++ es') = has_pair e es || has_pair e es'.
Proof. apply existsb_app. Qed.

(** A loop that ends normally only appends rows, one for each listed pair
    that had none, and leaves every listed pair with a row. *)
Lemma fill_rows_ok rng l : forall n es tbl' n',
  fill_rows rng n (Some es) l = (Ok tt, (tbl', n')) ->
  exists added,
    tbl' = Some (es ++ added)
    /\ (forall e, e ∈ l -> e ∈ pair_of <$> (es ++ added))
    /\ (forall r, r ∈ added -> pair_of r ∈ l /\ pair_of r ∉ pair_of <$> es)
    /\ (NoDup (pair_of <$> es) -> NoDup (pair_of <$> (es ++ added))).
Proof.
  induction l as [|e l IH]; intros n es tbl' n' H; cbn [fill_rows] in H.
  - injection H as <- <-. exists []. rewrite app_nil_r.
    split; [done|]. split; [|split; [|done]].
    + intros e Hin. by apply elem_of_nil in Hin.
    + intros r Hin. by apply elem_of_nil in Hin.
  - destruct (has_pair e es) eqn:Hp.
    + apply IH in H as (added & -> & Hcov & Hnew & Hnd).
      exists added. split; [done|]. split; [|split; [|done]].
      * intros e' [->|Hin]%elem_of_cons; [|by auto].
        apply has_pair_true. rewrite has_pair_app, Hp. done.
      * intros r Hin. destruct (Hnew r Hin) as [H1 H2]. split; [|done].
        apply elem_of_cons. by right.
    + destruct (has_uuid (rng n) es); [discriminate|].
      apply IH in H as (added & -> & Hcov & Hnew & Hnd).
      exists (new_row (rng n) e :: added).
      rewrite <- app_assoc in *. cbn [app] in *.
      assert (Hpe : pair_of (new_row (rng n) e) = e) by (by destruct e).
      split; [done|]. split; [|split].
      * intros e' [->|Hin]%elem_of_cons; [|by auto].
        rewrite fmap_app, fmap_cons, Hpe.
        apply elem_of_app. right. apply elem_of_cons. by left.
      * intros r [->|Hin]%elem_of_cons.
        -- rewrite Hpe. split; [apply elem_of_cons; by left|].
           by apply has_pair_false.
        -- destruct (Hnew r Hin) as [H1 H2]. split.
           ++ apply elem_of_cons. by right.
           ++ rewrite fmap_app in H2. intros Hc. apply H2, elem_of_app. by left.
      * intros Hes. apply Hnd. rewrite fmap_app. apply NoDup_app.
        split; [done|]. split.
        -- intros x Hx [->|Hin]%elem_of_cons.
           ++ rewrite Hpe in Hx. apply has_pair_false in Hp. done.
           ++ by apply elem_of_nil in Hin.
        -- cbn. apply NoDup_singleton.
Qed.

Lemma fill_rows_covered rng l : forall n es,
  (forall e, e ∈ l -> e ∈ pair_of <$> es) ->
  fill_rows rng n (Some es) l = (Ok tt, (Some es, n)).
Proof.
  induction l as [|e l IH]; intros n es Hcov; [reflexivity|].
  cbn [fill_rows].
  assert (Hp : has_pair e es = true).
  { apply has_pair_true, Hcov, elem_of_cons. by left. }
  rewrite Hp. apply IH. intros e' Hin. apply Hcov, elem_of_cons. by right.
Qed.

Lemma fill_rows_None rng l n tbl' n' :
  fill_rows rng n None l = (Ok tt, (tbl', n')) -> l = [] /\ tbl' = None.
Proof.
  destruct l; cbn [fill_rows]; [|discriminate].
  intros [= <- <-]. split; reflexivity.
Qed.

Lemma with_default_idem cs : with_default (with_default cs) = with_default cs.
Proof.
  unfold with_default at 2.
  destruct (existsb _ cs) eqn:E.
  - unfold with_default. by rewrite E.
  - unfold with_default. rewrite existsb_app, E.
    cbn [existsb default_collection collection_uuid orb].
    rewrite bool_decide_eq_true_2 by reflexivity. reflexivity.
Qed.

Lemma filled_inv rng od d n r d' n' :
  filled rng od d n = (r, (d', n')) ->
  d' = d
  \/ exists t b m,
       math_floor (datetime_timestamp (output_timestamp od)) = Ok t
       /\ sqlite3_blob_encode_int t = Ok b
       /\ extra d = Some m
       /\ extra d' = Some (<["latest_output_timestamp" := SqlBlob b]> m)
       /\ (collections d = None /\ collections d' = None /\ entries d' = entries d
              /\ r = Raise OperationalError
           \/ exists cs, collections d = Some cs
                /\ collections d' = Some (with_default cs)
                /\ fill_rows rng n (entries d) (entries_of od) = (r, (entries d', n'))).
Proof.
  unfold filled. intros H.
  destruct (math_floor _) as [t|e] eqn:Ht; cbn [mbind res_bind] in H;
    [|left; congruence].
  destruct (sqlite3_blob_encode_int t) as [b|e] eqn:Hb; [|left; congruence].
  destruct (extra d) as [m|] eqn:Hm; [|left; congruence].
  right. exists t, b, m. do 3 (split; [done|]).
  destruct (collections d) as [cs|] eqn:Hcs.
  - destruct (fill_rows _ _ _ _) as [r0 [tbl n0]] eqn:Hf.
    injection H as <- <- <-. split; [done|]. right. exists cs. done.
  - injection H as <- <- <-. split; [done|]. left. done.
Qed.

Lemma verified_filled rng od d n r d' n' :
  verified d = Ok tt -> filled rng od d n = (r, (d', n')) -> verified d' = Ok tt.
Proof.
  intros Hv [->|(t & b & m & _ & _ & Hm & Hm' & _)]%filled_inv; [done|].
  unfold verified, header in *. rewrite Hm in Hv. rewrite Hm'.
  by rewrite !lookup_insert_ne.
Qed.

(** Filling a database that the same record has filled changes nothing. *)
Lemma filled_again rng1 rng2 od d n1 d1 n1' n2 :
  filled rng1 od d n1 = (Ok tt, (d1, n1')) ->
  filled rng2 od d1 n2 = (Ok tt, (d1, n2)).
Proof.
  intros H. unfold filled in *.
  destruct (math_floor _ ≫= sqlite3_blob_encode_int) as [b|e]; [|discriminate].
  destruct (extra d) as [m|]; [|discriminate].
  destruct (collections d) as [cs|]; [|discriminate].
  destruct (fill_rows rng1 n1 (entries d) (entries_of od)) as [r [tbl n']] eqn:Hf.
  injection H as -> <- <-. cbn [extra collections entries].
  rewrite insert_insert_eq, with_default_idem.
  destruct (entries d) as [es|].
  - apply fill_rows_ok in Hf as (added & -> & Hcov & _).
    by rewrite (fill_rows_covered rng2 _ n2 _ Hcov).
  - apply fill_rows_None in Hf as [Hl ->]. by rewrite Hl.
Qed.

Lemma verified_built : verified built_database = Ok tt.
Proof. reflexivity. Qed.

(** A successful [store_output_data] leaves a database that passes
    [verify_output_database]. *)
Lemma store_output_data_verified rng od file d1 :
  store_output_data rng od file = (Done, d1) -> verified d1 = Ok tt.
Proof.
  rewrite store_output_data_eq. destruct file as [d|].
  - destruct (verified d) as [[]|e] eqn:Hv; [|discriminate].
    destruct (filled rng od d 0) as [r [d' n']] eqn:Hf.
    intros [= _ <-]. eapply verified_filled; eauto.
  - destruct (filled rng od built_database 0) as [r [d' n']] eqn:Hf.
    intros [= _ <-]. eapply verified_filled; eauto using verified_built.
Qed.

Lemma store_output_data_again rng1 rng2 od file d1 :
  store_output_data rng1 od file = (Done, d1) ->
  store_output_data rng2 od (Some d1) = (Done, d1).
Proof.
  intros H. pose proof (store_output_data_verified _ _ _ _ H) as Hv.
  rewrite store_output_data_eq in H. rewrite store_output_data_eq, Hv.
  assert (Hf : exists d n n', filled rng1 od d n = (Ok tt, (d1, n'))).
  { destruct file as [d|].
    - destruct (verified d); [|discriminate].
      destruct (filled rng1 od d 0) as [[[]|e] [d' n']] eqn:Hf; [|discriminate].
      injection H as <-. eauto.
    - destruct (filled rng1 od built_database 0) as [[[]|e] [d' n']] eqn:Hf;
        [|discriminate].
      injection H as <-. eauto. }
  destruct Hf as (d & n & n' & Hf).
  by rewrite (filled_again _ rng2 _ _ _ _ _ 0%nat Hf).
Qed.

Lemma filled_ok rng od d n d' n' :
  filled rng od d n = (Ok tt, (d', n')) ->
  fill_rows rng n (entries d) (entries_of od) = (Ok tt, (entries d', n')).
Proof.
  unfold filled.
  destruct (math_floor _ ≫= sqlite3_blob_encode_int) as [b|e]; [|discriminate].
  destruct (extra d) as [m|]; [|discriminate].
  destruct (collections d) as [cs|]; [|discriminate].
  destruct (fill_rows rng n (entries d) (entries_of od)) as [r [tbl n0]].
  by intros [= -> <- <-].
Qed.

Lemma store_output_data_filled rng od file d1 :
  store_output_data rng od file = (Done, d1) ->
  exists n',
    filled rng od (match file with None => built_database | Some d => d end) 0
    = (Ok tt, (d1, n')).
Proof.
  rewrite store_output_data_eq. destruct file as [d|].
  - destruct (verified d); [|discriminate].
    destruct (filled rng od d 0) as [[[]|e] [d' n']]; [|discriminate].
    intros [= <-]. eauto.
  - destruct (filled rng od built_database 0) as [[[]|e] [d' n']]; [|discriminate].
    intros [= <-]. eauto.
Qed.

Lemma store_output_data_rows rng od d es d1 :
  entries d = Some es ->
  store_output_data rng od (Some d) = (Done, d1) ->
  exists added,
    entries d1 = Some (es ++ added)
    /\ (forall e, e ∈ entries_of od -> e ∈ pair_of <$> (es ++ added))
    /\ (forall r, r ∈ added -> pair_of r ∈ entries_of od /\ pair_of r ∉ pair_of <$> es)
    /\ (NoDup (pair_of <$> es) -> NoDup (pair_of <$> (es ++ added))).
Proof.
  intros Hes [n' Hf%filled_ok]%store_output_data_filled.
  rewrite Hes in Hf. apply fill_rows_ok in Hf as (added & Heq & H).
  exists added. split; [done|exact H].
Qed.

Lemma stored_no_duplicate_pairs d : stored d -> no_duplicate_pairs d.
Proof.
  induction 1 as [rng od d H | rng od d d' _ IH H].
  - apply store_output_data_filled in H as [n' Hf%filled_ok].
    change (entries built_database) with (Some (@nil entry_row)) in Hf.
    apply fill_rows_ok in Hf as (added & Heq & _ & _ & Hnd).
    intros es Hes. rewrite Heq in Hes. injection Hes as <-.
    apply Hnd. constructor.
  - intros es' Hes'.
    destruct (entries d) as [es|] eqn:Hes.
    + destruct (store_output_data_rows _ _ _ _ _ Hes H) as (added & Heq & _ & _ & Hnd).
      rewrite Heq in Hes'. injection Hes' as <-. by apply Hnd, IH.
    + apply store_output_data_filled in H as [n' Hf%filled_ok].
      rewrite Hes in Hf. apply fill_rows_None in Hf as [_ Hn]. congruence.
Qed.

(** C1. Storing a record a second time into the store it was stored into
    leaves the file as the first call left it, whatever identifiers are
    drawn: the [entries] rows are the same.  A successful call only appends
    rows, none for a (url, title) pair that already has a row, and every
    pair of the record has a row afterwards; and a store built up from
    nothing by successful calls never holds two rows with the same
    (url, title). *)
Theorem store_output_data_idempotent rng1 rng2 od file d1 :
  store_output_data rng1 od file = (Done, d1) ->
  store_output_data rng2 od (Some d1) = (Done, d1)
  /\ (forall d es,
        file = Some d -> entries d = Some es ->
        exists added,
          entries d1 = Some (es ++ added)
          /\ (forall e, e ∈ entries_of od -> e ∈ pair_of <$> (es ++ added))
          /\ (forall r, r ∈ added -> pair_of r ∉ pair_of <$> es))
  /\ ((forall d, file = Some d -> stored d) -> stored d1 /\ no_duplicate_pairs d1).
Proof.
  intros H. split; [by eapply store_output_data_again|]. split.
  - intros d es -> Hes.
    destruct (store_output_data_rows _ _ _ _ _ Hes H) as (added & Heq & Hcov & Hnew & _).
    exists added. split; [done|]. split; [done|]. intros r Hr. by apply Hnew.
  - intros Hst.
    assert (Hd1 : stored d1).
    { destruct file as [d|].
      - eapply stored_next; [by apply Hst|exact H].
      - eapply stored_first, H. }
    split; [done|]. by apply stored_no_duplicate_pairs.
Qed.

Lemma store_output_data_idempotent_witness :
  let d1 := snd (store_output_data rng_example record_example None) in
  store_output_data rng_example record_example (Some d1) = (Done, d1).
Proof.
  apply (store_output_data_idempotent rng_example rng_example record_example None).
  vm_compute. reflexivity.
Defined.

(** ** The header *)


Lemma verified_ok d :
  verified d = Ok tt <->
  is_Some (extra d)
  /\ sqlite3_blob_decode_str (header d "db_id") = Ok OUTPUT_DB_ID_STR
  /\ sqlite3_blob_decode_int (header d "db_v") = Ok OUTPUT_DB_V_INT.
Proof.
  unfold verified. destruct (extra d) as [m|] eqn:Hm.
  - destruct (sqlite3_blob_decode_str _) as [s|e]; cbn [mbind res_bind].
    + destruct (String.eqb_spec s OUTPUT_DB_ID_STR) as [->|Hne]; cbn [py_assert].
      * destruct (sqlite3_blob_decode_int _) as [v|e]; cbn [mbind res_bind].
        -- destruct (Z.eqb_spec v OUTPUT_DB_V_INT) as [->|Hne]; cbn [py_assert].
           ++ split; [eauto|done].
           ++ split; [done|]. intros (_ & _ & [= ?]). done.
        -- split; [done|]. intros (_ & _ & [= ?]).
      * split; [done|]. intros (_ & [= ?] & _). done.
    + split; [done|]. intros (_ & [= ?] & _).
  - split; [done|]. intros ([? [= ?]] & _).
Qed.

(** C4. After a successful [store_output_data], on a new file or on an
    existing one, the [db_id] header decodes to ['hasty-ruby-coypu'] and the
    [db_v] header to [1]; and on an existing file whose [db_id] header does
    not decode to that string (another value, no row, no table), the call
    fails in the [db_verifying] stage and leaves the file as it was. *)
Theorem header_invariant rng od :
  (forall file d1,
      store_output_data rng od file = (Done, d1) ->
      sqlite3_blob_decode_str (header d1 "db_id") = Ok OUTPUT_DB_ID_STR
      /\ sqlite3_blob_decode_int (header d1 "db_v") = Ok OUTPUT_DB_V_INT)
  /\ (forall d,
      sqlite3_blob_decode_str (header d "db_id") <> Ok OUTPUT_DB_ID_STR ->
      exists e, store_output_data rng od (Some d) = (Failed e db_verifying, d)).
Proof.
  split.
  - intros file d1 H%store_output_data_verified. by apply verified_ok in H as (_ & ? & ?).
  - intros d Hne. rewrite store_output_data_eq.
    destruct (verified d) as [[]|e] eqn:Hv; [|eauto].
    apply verified_ok in Hv as (_ & ? & _). done.
Qed.

Lemma header_invariant_witness :
  (let d1 := snd (store_output_data rng_example record_example None) in
   sqlite3_blob_decode_str (header d1 "db_id") = Ok OUTPUT_DB_ID_STR
   /\ sqlite3_blob_decode_int (header d1 "db_v") = Ok OUTPUT_DB_V_INT)
  /\ exists e, store_output_data rng_example record_example (Some empty_database)
               = (Failed e db_verifying, empty_database).
Proof.
  split.
  - apply (proj1 (header_invariant rng_example record_example) None).
    vm_compute. reflexivity.
  - apply (proj2 (header_invariant rng_example record_example) empty_database).
    vm_compute. discriminate.
Defined.

Lemma filled_ok_inv rng od d n d' n' :
  filled rng od d n = (Ok tt, (d', n')) ->
  exists t b m cs,
    math_floor (datetime_timestamp (output_timestamp od)) = Ok t
    /\ sqlite3_blob_encode_int t = Ok b
    /\ extra d = Some m
    /\ collections d = Some cs
    /\ d' = {| extra := Some (<["latest_output_timestamp" := SqlBlob b]> m);
               collections := Some (with_default cs);
               entries := entries d' |}.
Proof.
  unfold filled.
  destruct (math_floor _) as [t|e]; cbn [mbind res_bind]; [|discriminate].
  destruct (sqlite3_blob_encode_int t) as [b|e] eqn:Hb; [|discriminate].
  destruct (extra d) as [m|]; [|discriminate].
  destruct (collections d) as [cs|]; [|discriminate].
  destruct (fill_rows rng n (entries d) (entries_of od)) as [r [tbl n0]].
  intros [= -> <- <-]. exists t, b, m, cs. repeat (split; [done|]). reflexivity.
Qed.






(** C3 at a failing run.  The path holds no file; the record has two
    entries; the two identifiers drawn are equal, so the second [INSERT]
    breaks the [UNIQUE] constraint of [entry_uuid].  The [db_building]
    stage had committed [built_database]; the call fails in [db_filling],
    and the file then holds the timestamp header, the default collection
    and the first entry. *)
Theorem filling_failure_is_committed :
  exists msg d,
    preparing true (idle empty_database 0) = (Ok tt, idle built_database 0)
    /\ store_output_data rng_repeating record_example None
       = (Failed (DatabaseAccessError msg) db_filling, d)
    /\ d <> built_database
    /\ sqlite3_blob_decode_int (header d "latest_output_timestamp") = Ok 1700000000
    /\ collections d = Some [default_collection]
    /\ entries d = Some [new_row (rng_repeating 0) ("https://a.example", "A")].
Proof.
  eexists _, _. split; [reflexivity|]. split; [vm_compute; reflexivity|].
  split; [discriminate|]. repeat split; reflexivity.
Qed.


Lemma dict_getitem_get {V} (d : list (string * V)) k :
  dict_getitem d k = match dict_get d k with Some v => Ok v | None => Raise (KeyError k) end.
Proof.
  induction d as [|[k' v] d IH]; [reflexivity|]. cbn [dict_getitem dict_get].
  destruct (String.eqb k' k); [reflexivity|apply IH].
Qed.

Lemma with_field_get {A} key (found : json -> A) absent m :
  with_field key found absent m
  = match dict_get m key with Some v => found v | None => absent end.
Proof.
  induction m as [|[k v] m IH]; [reflexivity|]. cbn [with_field dict_get].
  destruct (String.eqb k key); [reflexivity|apply IH].
Qed.

Lemma dict_get_In {V} (d : list (string * V)) k v :
  dict_get d k = Some v -> In (k, v) d.
Proof.
  induction d as [|[k' v'] d IH]; [discriminate|]. cbn [dict_get].
  destruct (String.eqb_spec k' k) as [->|Hne].
  - intros [= ->]. by left.
  - intros H. right. by apply IH.
Qed.

Lemma str_in_keys_get {V} (d : list (string * V)) k :
  str_in k (dict_keys d) = true -> exists v, dict_get d k = Some v.
Proof.
  unfold str_in, dict_keys.
  induction d as [|[k' v'] d IH]; [discriminate|]. cbn [map existsb fst dict_get].
  rewrite String.eqb_sym.
  destruct (String.eqb k' k); [eauto|]. cbn [orb]. apply IH.
Qed.

Lemma py_assert_ok c : py_assert c = Ok tt <-> c = true.
Proof. destruct c; cbn; split; congruence. Qed.

Lemma bind_ok {A B} (m : res A) (f : A -> res B) b :
  m ≫= f = Ok b <-> exists a, m = Ok a /\ f a = Ok b.
Proof.
  destruct m as [a|e]; cbn.
  - split; [eauto|]. by intros (a' & [= ->] & H).
  - split; [discriminate|]. by intros (a' & [= ] & _).
Qed.

Lemma check_keys_ok required optional obj :
  check_keys required optional obj = Ok tt ->
  (forall k, In k (dict_keys required) -> exists v, dict_get obj k = Some v)
  /\ (forall k v, dict_get obj k = Some v ->
        exists p, dict_get (required ++ optional) k = Some p /\ p v = true).
Proof.
  unfold check_keys.
  intros ([] & H1%py_assert_ok & ([] & H2%py_assert_ok & H3%py_assert_ok)%bind_ok)%bind_ok.
  rewrite forallb_forall in H1, H3. split.
  - intros k Hk. by apply str_in_keys_get, H1.
  - intros k v Hget%dict_get_In. specialize (H3 _ Hget). cbn [fst snd] in H3.
    destruct (dict_get (required ++ optional) k) as [p|]; [eauto|discriminate].
Qed.

Lemma reraise_unexpected_ok {A} msg (body : res A) a :
  reraise_unexpected msg body = Ok a <-> body = Ok a.
Proof. destruct body as [?|[]]; cbn; split; congruence. Qed.

Lemma getitem_obj m k :
  getitem (JObj m) k = match dict_get m k with Some v => Ok v | None => Raise (KeyError k) end.
Proof. apply dict_getitem_get. Qed.

(** What a node that passes the check is known to hold. *)
Lemma check_node_ok_inv obj is_root :
  _check_node_contents (JObj obj) is_root = Ok tt ->
  exists ty,
    dict_get obj "type" = Some (JStr ty)
    /\ (exists nm, dict_get obj "name" = Some (JStr nm))
    /\ (ty = "url" -> exists u, dict_get obj "url" = Some (JStr u))
    /\ (forall ch, dict_get obj "children" = Some ch -> is_Sequence ch = true).
Proof.
  unfold _check_node_contents. intros H%reraise_unexpected_ok.
  apply bind_ok in H as ([] & Hty%py_assert_ok & H).
  destruct (dict_get obj "type") as [t|] eqn:Ht; [|discriminate].
  destruct t as [| | | |ty| |]; try discriminate. clear Hty.
  rewrite (getitem_obj obj "type"), Ht in H. cbn [mbind res_bind] in H.
  apply bind_ok in H as ([] & [Hreq Hpred]%check_keys_ok & _).
  exists ty. split; [done|]. split; [|split].
  - destruct (Hreq "name") as [v Hv].
    { unfold _required_keys, dict_keys. rewrite !map_app. apply in_app_iff. left.
      cbn. tauto. }
    destruct (Hpred _ _ Hv) as (p & Hp & Hpv).
    unfold _required_keys in Hp. cbn in Hp. injection Hp as <-.
    destruct v; try discriminate. eauto.
  - intros ->. destruct (Hreq "url") as [v Hv].
    { unfold _required_keys, dict_keys. rewrite !map_app. apply in_app_iff. right.
      apply in_app_iff. left. cbn. tauto. }
    destruct (Hpred _ _ Hv) as (p & Hp & Hpv).
    unfold _required_keys in Hp. cbn in Hp. injection Hp as <-.
    destruct v; try discriminate. eauto.
  - intros ch Hch. destruct (Hpred _ _ Hch) as (p & Hp & Hpv).
    unfold _required_keys, _optional_keys in Hp.
    destruct (String.eqb ty "url"), (String.eqb ty "folder"); cbn in Hp;
      try discriminate; by injection Hp as <-.
Qed.

Lemma check_node_not_obj node is_root :
  _check_node_contents node is_root = Ok tt -> exists obj, node = JObj obj.
Proof.
  destruct node; cbn; try discriminate; [|eauto].
  destruct (existsb _ l); discriminate.
Qed.

Lemma entry_cb_spec node is_root entries :
  if node_ok (node, is_root)
  then _entry_cb node is_root entries = Ok (add_pair entries (node, is_root))
  else exists e, _entry_cb node is_root entries = Raise e.
Proof.
  unfold node_ok, _entry_cb, add_pair, url_pair. cbn [fst snd].
  destruct (_check_node_contents node is_root) as [[]|e] eqn:Hc; cbn [is_ok mbind res_bind];
    [|eauto].
  destruct (check_node_not_obj _ _ Hc) as [obj ->].
  destruct (check_node_ok_inv _ _ Hc) as (ty & Hty & [nm Hnm] & Hurl & _).
  rewrite !getitem_obj, Hty. cbn [mbind res_bind eq_str].
  destruct (String.eqb_spec ty "url") as [->|Hne].
  - destruct (Hurl eq_refl) as [u ->]. rewrite Hnm. reflexivity.
  - rewrite Hnm. by destruct (dict_get obj "url") as [[]|].
Qed.

Lemma json_size_item l c : In c l -> (json_size c < json_size (JArr l))%nat.
Proof.
  cbn [json_size]. induction l as [|x l IH]; [done|].
  intros [->|Hin]; cbn [fold_right]; [lia|]. specialize (IH Hin). lia.
Qed.

Lemma json_size_field m k v :
  dict_get m k = Some v -> (json_size v < json_size (JObj m))%nat.
Proof.
  intros Hin%dict_get_In. cbn [json_size].
  induction m as [|x m IH]; [done|].
  destruct Hin as [->|Hin]; cbn [fold_right snd]; [lia|]. specialize (IH Hin). lia.
Qed.

Lemma find_app' {A} (f : A -> bool) l1 l2 :
  find f (l1 ++ l2) = match find f l1 with Some x => Some x | None => find f l2 end.
Proof.
  induction l1 as [|x l1 IH]; [reflexivity|]. cbn [app find].
  destruct (f x); [reflexivity|apply IH].
Qed.

Lemma find_fails_under i l :
  find fails (map (under i) l) = option_map (under i) (find fails l).
Proof.
  induction l as [|x l IH]; [reflexivity|]. cbn [map find].
  change (fails (under i x)) with (fails x).
  destruct (fails x); [reflexivity|apply IH].
Qed.

Lemma process_input_tree_unfold {S} (cb : json -> bool -> S -> res S) node num r s :
  _process_input_tree cb node num r s =
  (s ← visit cb node num r s;
   insert_num num
     match node with
     | JObj m =>
         match dict_get m "children" with
         | Some (JArr l) =>
             for_children (fun child child_i => _process_input_tree cb child child_i false)
                          l 0 s
         | Some (JStr t) => for_children (_process_input_str cb) (chars t) 0 s
         | Some (JObj m') => for_children (_process_input_str cb) (dict_keys m') 0 s
         | Some _ => Raise TypeError
         | None => Ok s
         end
     | JArr l => if existsb (fun x => eq_str x "children") l then Raise TypeError else Ok s
     | JStr t => if is_substring "children" t then Raise TypeError else Ok s
     | _ => Raise TypeError
     end).
Proof.
  destruct node; try reflexivity.
  cbn [_process_input_tree].
  destruct (visit cb (JObj m) num r s) as [s0|e]; cbn [mbind res_bind]; [|reflexivity].
  rewrite with_field_get.
  by destruct (dict_get m "children") as [[]|].
Qed.

Lemma visit_entry_cb node num r s :
  visit _entry_cb node num r s =
  if node_ok (node, r) then Ok (add_pair s (node, r))
  else Raise (_ErrorDuringTreeTraversal [num]).
Proof.
  unfold visit. pose proof (entry_cb_spec node r s) as H.
  destruct (node_ok (node, r)); [by rewrite H|]. by destruct H as [e ->].
Qed.

Lemma children_traversed (l : list json) :
  (forall c, In c l -> forall num s,
     _process_input_tree _entry_cb c num false s = traversed num (preorder false c) s) ->
  forall i s,
    for_children (fun child child_i => _process_input_tree _entry_cb child child_i false) l i s
    = match find fails (numbered (preorder false) l i) with
      | Some x => Raise (_ErrorDuringTreeTraversal (fst x))
      | None => Ok (fold_left add_pair (map snd (numbered (preorder false) l i)) s)
      end.
Proof.
  induction l as [|c l IH]; intros Hc i s; [reflexivity|].
  cbn [for_children numbered].
  rewrite Hc by (by left). unfold traversed.
  change (map (fun px => (i :: fst px, snd px)) (preorder false c))
    with (map (under i) (preorder false c)).
  rewrite find_app', find_fails_under.
  destruct (find fails (preorder false c)) as [x|] eqn:Hf; cbn [option_map mbind res_bind].
  - reflexivity.
  - rewrite IH by (intros; apply Hc; by right).
    rewrite map_app, fold_left_app, map_map. reflexivity.
Qed.

Lemma leaves_traversed (l : list string) i s :
  for_children (_process_input_str _entry_cb) l i s
  = match find fails (numbered (fun c => [([], (JStr c, false))]) l i) with
    | Some x => Raise (_ErrorDuringTreeTraversal (fst x))
    | None => Ok (fold_left add_pair
                    (map snd (numbered (fun c => [([], (JStr c, false))]) l i)) s)
    end.
Proof. destruct l as [|c l]; reflexivity. Qed.

Lemma preorder_unfold is_root node :
  preorder is_root node =
  ([], (node, is_root)) ::
  match node with
  | JObj m =>
      match dict_get m "children" with
      | Some (JArr l) => numbered (preorder false) l 0
      | Some (JStr t) => numbered (fun c => [([], (JStr c, false))]) (chars t) 0
      | _ => []
      end
  | _ => []
  end.
Proof.
  destruct node; try reflexivity. cbn [preorder]. rewrite with_field_get.
  by destruct (dict_get m "children") as [[]|].
Qed.

Lemma process_input_tree_traversed node :
  forall num is_root s,
    _process_input_tree _entry_cb node num is_root s
    = traversed num (preorder is_root node) s.
Proof.
  remember (json_size node) as k eqn:Hk. revert node Hk.
  induction k as [k IH] using lt_wf_ind. intros node -> num is_root s.
  rewrite process_input_tree_unfold, preorder_unfold, visit_entry_cb.
  unfold traversed. cbn [find map fold_left snd fst]. unfold fails at 1. cbn [snd].
  destruct (node_ok (node, is_root)) eqn:Hok; cbn [negb mbind res_bind]; [|reflexivity].
  unfold node_ok in Hok. cbn [fst snd] in Hok.
  destruct (_check_node_contents node is_root) as [[]|] eqn:Hc; [|discriminate].
  destruct (check_node_not_obj _ _ Hc) as [obj ->].
  destruct (check_node_ok_inv _ _ Hc) as (ty & _ & _ & _ & Hseq).
  destruct (dict_get obj "children") as [ch|] eqn:Hch; [|reflexivity].
  specialize (Hseq _ eq_refl).
  destruct ch as [| | | |t|l|]; try discriminate.
  - rewrite leaves_traversed.
    by destruct (find fails _).
  - rewrite children_traversed.
    + by destruct (find fails _).
    + intros c Hin num' s'. eapply IH; [|reflexivity].
      pose proof (json_size_item _ _ Hin). pose proof (json_size_field _ _ _ Hch). lia.
Qed.

Lemma find_root_fails_map k l :
  find root_fails (map (fun x => (k, x)) l) = option_map (fun x => (k, x)) (find fails l).
Proof.
  induction l as [|x l IH]; [reflexivity|]. cbn [map find].
  change (root_fails (k, x)) with (fails x).
  destruct (fails x); [reflexivity|apply IH].
Qed.

Lemma for_roots_spec roots : forall entries,
  for_roots roots entries =
  match find root_fails (forest roots) with
  | Some x =>
      Raise (UnexpectedInputError (stopped_at (address (fst x) (fst (snd x)))))
  | None => Ok (fold_left add_pair (map (fun x => snd (snd x)) (forest roots)) entries)
  end.
Proof.
  induction roots as [|[k root] roots IH]; intros entries; [reflexivity|].
  cbn [for_roots forest flat_map fst snd].
  rewrite process_input_tree_traversed. unfold traversed.
  rewrite find_app', find_root_fails_map.
  destruct (find fails (preorder true root)) as [x|]; cbn [option_map].
  - reflexivity.
  - rewrite IH. fold (forest roots).
    destruct (find root_fails (forest roots)); [reflexivity|].
    by rewrite map_app, fold_left_app, map_map.
Qed.

Lemma find_split {A} (f : A -> bool) l :
  match find f l with
  | Some x => exists before rest,
      l = before ++ x :: rest /\ f x = true /\ forall y, In y before -> f y = false
  | None => forall y, In y l -> f y = false
  end.
Proof.
  induction l as [|a l IH]; cbn [find]; [by intros ? []|].
  destruct (f a) eqn:Ha.
  - exists [], l. split; [done|]. split; [done|]. by intros ? [].
  - destruct (find f l) as [x|].
    + destruct IH as (before & rest & -> & Hx & Hb).
      exists (a :: before), rest. split; [done|]. split; [done|].
      intros y [->|Hy]; auto.
    + intros y [->|Hy]; auto.
Qed.

Lemma find_first {A} (f : A -> bool) before x rest :
  f x = true -> (forall y, In y before -> f y = false) ->
  find f (before ++ x :: rest) = Some x.
Proof.
  intros Hx Hb. induction before as [|a before IH]; cbn [app find].
  - by rewrite Hx.
  - rewrite (Hb a) by (by left). apply IH. intros y Hy. apply Hb. by right.
Qed.

Lemma precheck_ok_inv data :
  chrome_bookmarks._precheck_parsed_input_data data = Ok tt ->
  exists m roots, data = JObj m /\ dict_get m "roots" = Some (JObj roots).
Proof.
  unfold chrome_bookmarks._precheck_parsed_input_data.
  intros H%reraise_unexpected_ok.
  apply bind_ok in H as (version & Hv & H).
  destruct data as [| | | | | |m]; try discriminate.
  apply bind_ok in H as (? & _ & H).
  apply bind_ok in H as (? & _ & H).
  apply bind_ok in H as (? & _ & H).
  apply bind_ok in H as (? & _ & H).
  apply bind_ok in H as (roots & Hr & H).
  rewrite getitem_obj in Hr.
  destruct (dict_get m "roots") as [r|] eqn:Hroots; [|discriminate]. injection Hr as ->.
  destruct roots; try (apply bind_ok in H as (? & _ & H); discriminate).
  eauto.
Qed.

Lemma load_input_data_eq data now roots :
  chrome_bookmarks._precheck_parsed_input_data data = Ok tt ->
  getitem data "roots" = Ok (JObj roots) ->
  chrome_bookmarks.load_input_data (Ok data) now =
  match find root_fails (forest roots) with
  | Some x =>
      Raise (UnexpectedInputError (stopped_at (address (fst x) (fst (snd x)))))
  | None =>
      Ok {| output_timestamp := now;
            entries_of := fold_left add_pair (map (fun x => snd (snd x)) (forest roots)) [] |}
  end.
Proof.
  intros Hpre Hroots. unfold chrome_bookmarks.load_input_data.
  cbn [mbind res_bind]. rewrite Hpre. cbn [mbind res_bind].
  unfold chrome_bookmarks._convert_internal_data. rewrite Hroots. cbn [mbind res_bind].
  rewrite for_roots_spec. by destruct (find root_fails (forest roots)).
Qed.

(** C9. On a document that passes the top-level precheck, the loader stops
    at the first node, in document order over the roots, that does not pass
    the node check: when every node before a node passes and that node does
    not, the call raises the structural-format error whose message names the
    key of the node's root, a dot, and the dotted path of 0-based child
    indices from the root to the node (the third child of [other]:
    [other.2]); and when every node passes, the call returns a record. *)
Theorem first_failing_node_is_located data now :
  chrome_bookmarks._precheck_parsed_input_data data = Ok tt ->
  exists roots,
    getitem data "roots" = Ok (JObj roots)
    /\ (forall before root_key path node rest,
          forest roots = before ++ (root_key, (path, node)) :: rest ->
          (forall x, In x before -> node_ok (snd (snd x)) = true) ->
          node_ok node = false ->
          chrome_bookmarks.load_input_data (Ok data) now
          = Raise (UnexpectedInputError (stopped_at (address root_key path))))
    /\ ((forall x, In x (forest roots) -> node_ok (snd (snd x)) = true) ->
        exists od, chrome_bookmarks.load_input_data (Ok data) now = Ok od)
    /\ address "other" [2] = "other.2".
Proof.
  intros Hpre. destruct (precheck_ok_inv _ Hpre) as (m & roots & -> & Hroots).
  exists roots. rewrite getitem_obj, Hroots. split; [done|].
  assert (Hr : getitem (JObj m) "roots" = Ok (JObj roots)) by (by rewrite getitem_obj, Hroots).
  rewrite (load_input_data_eq _ now _ Hpre Hr). split; [|split; [|reflexivity]].
  - intros before root_key path node rest Hf Hb Hn.
    rewrite Hf, find_first; [reflexivity| |].
    + unfold root_fails, fails. cbn [snd]. by rewrite Hn.
    + intros y Hy. unfold root_fails, fails. by rewrite (Hb y Hy).
  - intros Hall. pose proof (find_split root_fails (forest roots)) as Hs.
    destruct (find root_fails (forest roots)) as [x|]; [|eauto].
    destruct Hs as (before & rest & Hf & Hx & _).
    unfold root_fails, fails in Hx. rewrite Hall in Hx; [discriminate|].
    rewrite Hf. apply in_app_iff. right. by left.
Qed.

(** ** What the records hold *)

Lemma set_add_elem (e e' : string * string) s : e ∈ set_add e' s <-> e = e' \/ e ∈ s.
Proof.
  unfold set_add. case_bool_decide as He'.
  - split; [auto|]. by intros [->|].
  - rewrite elem_of_app, list_elem_of_singleton. tauto.
Qed.

Lemma url_pair_Some node e : url_pair node = Some e <-> is_url_node node e.
Proof.
  unfold url_pair, is_url_node. split.
  - destruct node as [| | | | | |m]; try discriminate.
    destruct (dict_get m "type") as [ty|] eqn:Hty; [|discriminate].
    destruct (dict_get m "url") as [[| | | |u| |]|] eqn:Hu; try discriminate.
    destruct (dict_get m "name") as [[| | | |nm| |]|] eqn:Hnm; try discriminate.
    destruct ty as [| | | |ty| |]; cbn [eq_str]; try discriminate.
    destruct (String.eqb_spec ty "url") as [->|]; [|discriminate].
    intros [= <-]. exists m. cbn [fst snd]. auto.
  - intros (m & -> & -> & -> & ->). cbn. by destruct e.
Qed.

Lemma fold_set_add_elem {X} (pair : X -> option (string * string)) l : forall s e,
  e ∈ fold_left (fun s x => match pair x with Some e => set_add e s | None => s end) l s
  <-> e ∈ s \/ exists x, In x l /\ pair x = Some e.
Proof.
  induction l as [|x l IH]; intros s e; cbn [fold_left].
  - split; [auto|]. intros [|(? & [] & _)]; done.
  - rewrite IH. destruct (pair x) as [e'|] eqn:Hx.
    + rewrite set_add_elem. split.
      * intros [[->|Hs]|(y & Hy & Hu)].
        -- right. exists x. split; [by left|done].
        -- by left.
        -- right. exists y. split; [by right|done].
      * intros [Hs|(y & [->|Hy] & Hu)].
        -- left. by right.
        -- left. left. congruence.
        -- right. by exists y.
    + split.
      * intros [Hs|(y & Hy & Hu)]; [by left|].
        right. exists y. split; [by right|done].
      * intros [Hs|(y & [->|Hy] & Hu)]; [by left|congruence|].
        right. by exists y.
Qed.

Lemma fold_add_pair_elem nodes s e :
  e ∈ fold_left add_pair nodes s <->
  e ∈ s \/ exists x, In x nodes /\ is_url_node (fst x) e.
Proof.
  unfold add_pair. rewrite (fold_set_add_elem (fun x => url_pair (fst x))).
  by setoid_rewrite url_pair_Some.
Qed.

Lemma tab_pair_Some entry e : tab_pair entry = Some e <-> is_tab_entry entry e.
Proof.
  unfold tab_pair, is_tab_entry, contributes, discriminator. split.
  - destruct (index entry 1) as [[| | | | | |ec]|] eqn:Hi; try discriminate.
    destruct (dict_get ec "type") as [t|] eqn:Ht.
    + destruct t as [| | | |t| |]; cbn [eq_str]; try discriminate.
      destruct (String.eqb_spec t "tab") as [->|]; [|discriminate].
      destruct (dict_get ec "data") as [d|] eqn:Hd; [|discriminate].
      destruct (getitem d "url") as [[| | | |u| |]|] eqn:Hu; try discriminate.
      destruct (getitem d "title") as [[| | | |t| |]|] eqn:Htt; try discriminate.
      intros [= <-]. exists ec, d. cbn [fst snd]. auto 10.
    + destruct (dict_get ec "data") as [d|] eqn:Hd; [|discriminate].
      destruct (getitem d "url") as [[| | | |u| |]|] eqn:Hu; try discriminate.
      destruct (getitem d "title") as [[| | | |t| |]|] eqn:Htt; try discriminate.
      intros [= <-]. exists ec, d. cbn [fst snd]. auto 10.
  - intros (ec & d & -> & Hty & -> & -> & ->).
    destruct Hty as [-> | ->]; cbn; by destruct e.
Qed.

Lemma convert_entry_ok entry i s s' :
  convert_entry entry i s = Ok s' -> s' = add_tab s entry.
Proof.
  unfold convert_entry, add_tab, tab_pair.
  intros (ec & Hval%reraise_unexpected_ok & H)%bind_ok.
  apply bind_ok in Hval as (n & _ & Hval).
  apply bind_ok in Hval as (? & _ & Hval).
  apply bind_ok in Hval as (e0 & _ & Hval).
  apply bind_ok in Hval as (? & _ & Hval).
  apply bind_ok in Hval as (e1 & He1 & Hval).
  apply bind_ok in Hval as (ec' & Hec & Hval).
  apply bind_ok in Hval as (e2 & _ & Hval).
  apply bind_ok in Hval as (? & _ & Hval).
  apply bind_ok in Hval as (? & _ & Hval).
  apply bind_ok in Hval as (? & _ & Hval).
  injection Hval as ->.
  destruct e1; try discriminate. injection Hec as ->.
  rewrite He1. destruct (contributes ec); [|congruence].
  rewrite dict_getitem_get in H.
  destruct (dict_get ec "data") as [d|]; [|discriminate]. cbn [mbind res_bind] in H.
  destruct (getitem d "url") as [url|]; [|discriminate]. cbn [mbind res_bind] in H.
  destruct (getitem d "title") as [title|]; [|discriminate]. cbn [mbind res_bind] in H.
  destruct url; try discriminate. destruct title; try discriminate. congruence.
Qed.

Lemma for_children_convert_ok l : forall i s s',
  for_children convert_entry l i s = Ok s' -> s' = fold_left add_tab l s.
Proof.
  induction l as [|entry l IH]; intros i s s'; cbn [for_children fold_left].
  - congruence.
  - intros (s1 & ->%convert_entry_ok & H)%bind_ok. by apply IH in H.
Qed.

Lemma fold_add_tab_elem l s e :
  e ∈ fold_left add_tab l s <->
  e ∈ s \/ exists entry, In entry l /\ is_tab_entry entry e.
Proof.
  unfold add_tab. rewrite (fold_set_add_elem tab_pair).
  by setoid_rewrite tab_pair_Some.
Qed.

Lemma reraise_assertion_ok {A} msg (body : res A) a :
  reraise_assertion msg body = Ok a <-> body = Ok a.
Proof. destruct body as [?|[]]; cbn; split; congruence. Qed.

Lemma session_precheck_ok_inv float_of_str d :
  tabs_outliner_db._precheck_parsed_input_data float_of_str d = Ok tt ->
  exists l, data d = JArr l.
Proof.
  unfold tabs_outliner_db._precheck_parsed_input_data.
  intros H%reraise_unexpected_ok.
  do 8 (apply bind_ok in H as (? & _ & H)).
  apply bind_ok in H as (? & Hfirst%reraise_assertion_ok & _).
  unfold first_sentinel in Hfirst.
  apply bind_ok in Hfirst as (dada0 & Hi & Hfirst).
  apply bind_ok in Hfirst as (d0 & Hm & _).
  destruct (data d) as [| | | |s|l|]; try discriminate; [|eauto].
  unfold index in Hi. destruct (nth_error (chars s) 0); [|discriminate].
  injection Hi as <-. discriminate Hm.
Qed.

(** C2, as the code has it.  For every input that a loader accepts, each
    (url, title) pair of the record is the pair of at least one node of the
    source, a node of type [url] of the bookmark forest or an element of
    the operation array, strictly between the sentinels, whose discriminator
    is absent or [tab]; and each such node has its pair in the record.  No
    other node gives a pair. *)
Theorem record_pairs_come_from_nodes :
  (forall data now od,
      chrome_bookmarks.load_input_data (Ok data) now = Ok od ->
      exists roots,
        getitem data "roots" = Ok (JObj roots)
        /\ forall e, e ∈ entries_of od <->
                     exists x, In x (forest roots) /\ is_url_node (fst (snd (snd x))) e)
  /\ (forall float_of_str d now od,
      tabs_outliner_db.load_input_data float_of_str (Ok d) now = Ok od ->
      exists l,
        data d = JArr l
        /\ forall e, e ∈ entries_of od <->
                     exists entry, In entry (middle l) /\ is_tab_entry entry e).
Proof.
  split.
  - intros data now od H.
    assert (Hpre : chrome_bookmarks._precheck_parsed_input_data data = Ok tt).
    { unfold chrome_bookmarks.load_input_data in H. cbn [mbind res_bind] in H.
      by destruct (chrome_bookmarks._precheck_parsed_input_data data) as [[]|]. }
    destruct (precheck_ok_inv _ Hpre) as (m & roots & -> & Hroots).
    assert (Hr : getitem (JObj m) "roots" = Ok (JObj roots))
      by (by rewrite getitem_obj, Hroots).
    exists roots. split; [done|].
    rewrite (load_input_data_eq _ now _ Hpre Hr) in H.
    destruct (find root_fails (forest roots)); [discriminate|]. injection H as <-.
    intros e. cbn [entries_of]. rewrite fold_add_pair_elem. split.
    + intros [He|(x & (y & <- & Hy)%in_map_iff & Hx)]; [by apply elem_of_nil in He|].
      eauto.
    + intros (x & Hx & Hu). right. exists (snd (snd x)). split; [|done].
      apply in_map_iff. eauto.
  - intros float_of_str d now od H.
    unfold tabs_outliner_db.load_input_data in H. cbn [mbind res_bind] in H.
    destruct (tabs_outliner_db._precheck_parsed_input_data float_of_str d)
      as [[]|] eqn:Hpre; [|discriminate].
    destruct (session_precheck_ok_inv _ _ Hpre) as [l Hl].
    exists l. split; [done|]. cbn [mbind res_bind] in H.
    unfold tabs_outliner_db._convert_internal_data in H. rewrite Hl in H.
    apply bind_ok in H as (entries & ->%for_children_convert_ok & [= <-]).
    intros e. cbn [entries_of]. rewrite fold_add_tab_elem. split.
    + intros [He|?]; [by apply elem_of_nil in He|done].
    + auto.
Qed.

Lemma record_pairs_come_from_nodes_witness :
  (exists roots,
     getitem document_with_a_repeated_bookmark "roots" = Ok (JObj roots)
     /\ forall e,
          e ∈ [("https://a.example", "A"); ("https://b.example", "B")] <->
          exists x, In x (forest roots) /\ is_url_node (fst (snd (snd x))) e)
  /\ (exists l,
        data (session_row [first_sentinel_of (JInt 5); tab_entry "https://a.example" "A";
                           win_entry; last_sentinel_of (JInt 1699999999000)]) = JArr l
        /\ forall e,
             e ∈ [("https://a.example", "A")] <->
             exists entry, In entry (middle l) /\ is_tab_entry entry e).
Proof.
  split.
  - apply (proj1 record_pairs_come_from_nodes document_with_a_repeated_bookmark 0
             {| output_timestamp := 0;
                entries_of := [("https://a.example", "A"); ("https://b.example", "B")] |}).
    vm_compute. reflexivity.
  - apply (proj2 record_pairs_come_from_nodes no_float_literal
             (session_row [first_sentinel_of (JInt 5); tab_entry "https://a.example" "A";
                           win_entry; last_sentinel_of (JInt 1699999999000)]) 0
             {| output_timestamp := 0; entries_of := [("https://a.example", "A")] |}).
    vm_compute. reflexivity.
Defined.

(** C2 as the claim has it fails: the record of a document in which the
    same bookmark stands under the bar and under [other] holds its pair
    once, and the pair is that of two nodes of type [url]. *)
Lemma record_pair_of_two_nodes_counterexample :
  exists od roots e x y,
    chrome_bookmarks.load_input_data (Ok document_with_a_repeated_bookmark) 0 = Ok od
    /\ getitem document_with_a_repeated_bookmark "roots" = Ok (JObj roots)
    /\ entries_of od = [e; ("https://b.example", "B")]
    /\ In x (forest roots) /\ In y (forest roots) /\ x <> y
    /\ is_url_node (fst (snd (snd x))) e /\ is_url_node (fst (snd (snd y))) e.
Proof.
  eexists _, _, ("https://a.example", "A"), _, _.
  split; [vm_compute; reflexivity|]. split; [reflexivity|]. split; [reflexivity|].
  split; [apply (nth_error_In _ 1%nat); reflexivity|].
  split; [apply (nth_error_In _ 5%nat); reflexivity|].
  split; [discriminate|].
  split; eexists; (split; [reflexivity|]); cbn; auto.
Qed.

Lemma first_failing_node_is_located_witness :
  chrome_bookmarks.load_input_data (Ok document_third_child_without_guid) 0
  = Raise (UnexpectedInputError
             "Input data has unexpected format (stopped at first failed node other.2)").
Proof.
  destruct (first_failing_node_is_located document_third_child_without_guid 0)
    as (roots & Hroots & Hfirst & _).
  { vm_compute. reflexivity. }
  injection Hroots as <-.
  match type of Hfirst with
  | context [forest ?r] =>
      apply (Hfirst (firstn 7 (forest r)) "other" [2]
                    (url_node_without_guid "10" "E" "https://e.example", false)
                    (skipn 8 (forest r)))
  end.
  - vm_compute. reflexivity.
  - intros x Hx. vm_compute in Hx.
    repeat (destruct Hx as [<-|Hx]; [vm_compute; reflexivity|]). destruct Hx.
  - vm_compute. reflexivity.
Defined.

(** C5 at the failing inputs.  When the [version] of a document is a number
    other than the integer 1 and the document has no top-level [id] (the
    bookmark file has none), the message of the structural-format error is
    built from [data['id']], and the [KeyError] of that lookup is what
    [load_input_data] raises: no clause of [main] catches it. *)
Theorem version_mismatch_raises_KeyError m version now :
  dict_get m "version" = Some version ->
  is_int_or_float version = true ->
  is_int version && eq_int version 1 = false ->
  dict_get m "id" = None ->
  chrome_bookmarks.load_input_data (Ok (JObj m)) now = Raise (KeyError "id")
  /\ main_loading (Raise (KeyError "id")) = inr (inr (KeyError "id")).
Proof.
  intros Hv Hnum Hne Hid. split; [|reflexivity].
  unfold chrome_bookmarks.load_input_data, chrome_bookmarks._precheck_parsed_input_data.
  cbn [mbind res_bind].
  rewrite !getitem_obj, Hv. cbn [mbind res_bind]. rewrite Hnum, Hne.
  cbn [py_assert negb mbind res_bind]. rewrite Hid. reflexivity.
Qed.

Lemma version_mismatch_raises_KeyError_witness :
  chrome_bookmarks.load_input_data (Ok (bookmarks_document (JInt 2) [])) 0
  = Raise (KeyError "id")
  /\ main_loading (Raise (KeyError "id")) = inr (inr (KeyError "id")).
Proof.
  unfold bookmarks_document.
  apply (version_mismatch_raises_KeyError _ (JInt 2) 0); reflexivity.
Defined.

Lemma py_float_raises float_of_str v e :
  py_float float_of_str v = Raise e ->
  e = TypeError \/ e = ValueError \/ e = OverflowError.
Proof.
  destruct v as [|b|i|x|s|l|m]; cbn [py_float]; try (intros [= <-]; auto); try discriminate.
  - unfold float_of_int. destruct (float_lit i); intros [= <-]; auto.
  - destruct (float_of_str s); intros [= <-]; auto.
Qed.

(** C6 at the failing inputs.  On a row that passes the checks in front of
    the first sentinel, whose first sentinel has the required shape around
    a [treeId] on which [float] raises, [silence_exc] re-raises what [float]
    raised, since no exception object is a member of the tuple of classes;
    [load_input_data] raises that [TypeError], [ValueError] or
    [OverflowError], which is no structural-format error, and no clause of
    [main] catches it. *)
Theorem treeId_not_convertible_escapes float_of_str d treeId rest r x e now :
  SFeqb (id d) (float_lit 1) = true ->
  0 <= timestamp d ->
  py_round (op_array_len d) = Ok r ->
  float_of_int r = Ok x ->
  math_isclose (op_array_len d) x = true ->
  0 <= r ->
  data d = JArr (first_sentinel_of treeId :: rest) ->
  float_eq_int (op_array_len d) (Z.of_nat (length (first_sentinel_of treeId :: rest))) = true ->
  py_float float_of_str treeId = Raise e ->
  tabs_outliner_db.load_input_data float_of_str (Ok d) now = Raise e
  /\ (forall msg, e <> UnexpectedInputError msg)
  /\ main_loading (Raise e) = inr (inr e).
Proof.
  intros Hid Hts Hround Hx Hclose Hr Hdata Hlen Hfloat.
  pose proof (py_float_raises _ _ _ Hfloat) as He.
  assert (Hload : tabs_outliner_db.load_input_data float_of_str (Ok d) now = Raise e).
  { unfold tabs_outliner_db.load_input_data,
      tabs_outliner_db._precheck_parsed_input_data.
    cbn [mbind res_bind]. rewrite Hid. cbn [negb mbind res_bind].
    destruct (Z.leb_spec 0 (timestamp d)); [|lia]. cbn [negb mbind res_bind].
    rewrite Hround. cbn [mbind res_bind]. rewrite Hx. cbn [mbind res_bind].
    rewrite Hclose. destruct (Z.leb_spec 0 r); [|lia]. cbn [andb negb mbind res_bind].
    rewrite Hdata. cbn [is_Sequence negb mbind res_bind py_len]. rewrite Hlen.
    cbn [negb mbind res_bind].
    assert (Hfirst : first_sentinel float_of_str (JArr (first_sentinel_of treeId :: rest))
                     = Raise e).
    { unfold first_sentinel, first_sentinel_of. cbn. rewrite Hfloat.
      destruct He as [->|[->| ->]]; reflexivity. }
    rewrite Hfirst. destruct He as [->|[->| ->]]; reflexivity. }
  split; [exact Hload|]. split.
  - intros msg. destruct He as [->|[->| ->]]; discriminate.
  - destruct He as [->|[->| ->]]; reflexivity.
Qed.

Lemma treeId_not_convertible_escapes_witness :
  tabs_outliner_db.load_input_data no_float_literal
    (Ok (session_row [first_sentinel_of JNull; last_sentinel_of (JInt 1699999999000)])) 0
  = Raise TypeError
  /\ (forall msg, TypeError <> UnexpectedInputError msg)
  /\ main_loading (Raise TypeError) = inr (inr TypeError).
Proof.
  apply (treeId_not_convertible_escapes no_float_literal
           (session_row [first_sentinel_of JNull; last_sentinel_of (JInt 1699999999000)])
           JNull [last_sentinel_of (JInt 1699999999000)] 2 (float_lit 2));
    try reflexivity; vm_compute; congruence.
Defined.


(** Two rows: one second behind the clock of the row, the payload is
    accepted; eleven seconds behind, it is refused. *)
Example clock_relation_decides_examples :
  tabs_outliner_db._precheck_parsed_input_data no_float_literal
    (session_row [first_sentinel_of (JInt 5); last_sentinel_of (JInt 1699999999000)])
  = Ok tt
  /\ is_ok (tabs_outliner_db._precheck_parsed_input_data no_float_literal
              (session_row [first_sentinel_of (JInt 5);
                            last_sentinel_of (JInt 1699999989000)]))
     = false.
Proof. split; vm_compute; reflexivity. Qed.


(** C8 at the failing inputs.  The row passes every check in front of the
    comparison of the clocks; the [time] of its last sentinel is an integer
    too large for a float, then a string: the division [time/1000.] raises
    [OverflowError], then [TypeError], and [load_input_data] raises them
    instead of a structural-format error. *)
Theorem last_sentinel_time_escapes float_of_str :
  tabs_outliner_db.load_input_data float_of_str
    (Ok (session_row [first_sentinel_of (JInt 5); last_sentinel_of (JInt (10 ^ 400))])) 0
  = Raise OverflowError
  /\ tabs_outliner_db.load_input_data float_of_str
       (Ok (session_row [first_sentinel_of (JInt 5);
                         last_sentinel_of (JStr "1699999999000")])) 0
     = Raise TypeError
  /\ main_loading (Raise OverflowError) = inr (inr OverflowError).
Proof. split; [|split]; vm_compute; reflexivity. Qed.

(** * Further properties of the code *)

(** ** The BLOB coders *)


Lemma Z_of_byte_range x : 0 <= Z_of_byte x < 256.
Proof. unfold Z_of_byte. pose proof (Byte.to_N_bounded x). lia. Qed.

Lemma byte_of_Z_low x k : byte_of_Z (Z_of_byte x + 256 * k) = x.
Proof.
  pose proof (Z_of_byte_range x) as Hx.
  unfold byte_of_Z.
  assert ((Z_of_byte x + 256 * k) mod 256 = Z_of_byte x) as ->
    by (symmetry; apply (Z.mod_unique_pos _ _ k); lia).
  unfold Z_of_byte. rewrite N2Z.id. by rewrite Byte.of_to_N.
Qed.

Lemma le_bytes_int_from_bytes b :
  le_bytes (length b) (int_from_bytes b) = b
  /\ 0 <= int_from_bytes b < 256 ^ Z.of_nat (length b).
Proof.
  induction b as [|x b [IH1 IH2]]; [split; [done|simpl; lia]|].
  pose proof (Z_of_byte_range x) as Hx.
  cbn [length le_bytes int_from_bytes]. split.
  - rewrite byte_of_Z_low. f_equal.
    replace ((Z_of_byte x + 256 * int_from_bytes b) / 256) with (int_from_bytes b); [done|].
    apply (Z.div_unique_pos _ _ _ (Z_of_byte x)); lia.
  - rewrite Nat2Z.inj_succ, Z.pow_succ_r by lia. lia.
Qed.

(** X1. [sqlite3_blob_decode_int] undoes [sqlite3_blob_encode_int] from the
    side of the bytes: a BLOB of four bytes decodes to an integer of
    [0, 2^32) that encodes to these four bytes again, and a BLOB of any other
    length fails the assertion on its length. *)
Theorem sqlite3_blob_decode_int_encode b :
  (length b = 4%nat ->
     exists i, sqlite3_blob_decode_int (SqlBlob b) = Ok i
               /\ 0 <= i < 2 ^ 32
               /\ sqlite3_blob_encode_int i = Ok b)
  /\ (length b <> 4%nat -> sqlite3_blob_decode_int (SqlBlob b) = Raise AssertionError).
Proof.
  split; intros Hlen; cbn [sqlite3_blob_decode_int].
  - rewrite Hlen. cbn [mbind res_bind py_assert Z.eqb Z.of_nat Pos.eqb Pos.of_succ_nat Pos.succ].
    destruct (le_bytes_int_from_bytes b) as [Hb Hr]. rewrite Hlen in Hb, Hr.
    exists (int_from_bytes b). split; [done|]. split; [simpl in Hr; lia|].
    unfold sqlite3_blob_encode_int, int_to_bytes.
    destruct (Z.ltb_spec (int_from_bytes b) 0); [lia|].
    destruct (Z.leb_spec (256 ^ Z.of_nat 4) (int_from_bytes b)); [lia|].
    by rewrite Hb.
  - destruct (Z.eqb_spec (Z.of_nat (length b)) 4); [lia|]. done.
Qed.

Lemma sqlite3_blob_decode_int_encode_witness :
  exists i, sqlite3_blob_decode_int (SqlBlob [x00; xf1; x53; x65]%byte) = Ok i
            /\ 0 <= i < 2 ^ 32
            /\ sqlite3_blob_encode_int i = Ok [x00; xf1; x53; x65]%byte.
Proof.
  apply (proj1 (sqlite3_blob_decode_int_encode [x00; xf1; x53; x65]%byte)). reflexivity.
Defined.

(** ** The headers of the [extra] table *)


Lemma spec_getitem_inv name spec :
  dict_getitem OUTPUT_DB_EXTRA_SPEC name = Ok spec ->
  spec = (None, "str") /\ name = "db_id"
  \/ spec = (None, "int") /\ (name = "db_v" \/ name = "latest_output_timestamp").
Proof.
  unfold OUTPUT_DB_EXTRA_SPEC. cbn [dict_getitem].
  repeat (case String.eqb_spec; [intros <- [= <-]; auto|intros _]). done.
Qed.

Lemma view_write begin w c : view (write begin w c) = if begin then w else w.
Proof. unfold write, view. destruct (tx c), begin; reflexivity. Qed.

Lemma disk_write_begin w c : disk (write true w c) = disk c.
Proof. unfold write. destruct (tx c); reflexivity. Qed.

Lemma output_db_extra_get_view name s :
  output_db_extra_get name s
  = match dict_getitem OUTPUT_DB_EXTRA_SPEC name with
    | Raise e => (Raise e, s)
    | Ok _ =>
        match extra (view (con s)) with
        | None => (Raise OperationalError, s)
        | Some m => (Ok (default SqlNull (m !! name)), s)
        end
    end.
Proof.
  unfold output_db_extra_get, mbind, db_bind, lift, query, select_extra.
  destruct (dict_getitem OUTPUT_DB_EXTRA_SPEC name) as [spec|e] eqn:E; [|done].
  assert (fst spec = None) as -> by (apply spec_getitem_inv in E as [[-> _]|[-> _]]; done).
  destruct (extra (view (con s))) as [m|]; [|done].
  destruct (m !! name); reflexivity.
Qed.

Lemma output_db_extra_put_view name val s :
  output_db_extra_put name val s
  = match dict_getitem OUTPUT_DB_EXTRA_SPEC name with
    | Raise e => (Raise e, s)
    | Ok _ =>
        match extra (view (con s)) with
        | None => (Raise OperationalError, s)
        | Some m =>
            (Ok tt,
             {| con := write true
                         {| extra := Some (match val with
                                           | Some v => <[name := SqlBlob v]> m
                                           | None => delete name m
                                           end);
                            collections := collections (view (con s));
                            entries := entries (view (con s)) |} (con s);
                drawn := drawn s |})
        end
    end.
Proof.
  unfold output_db_extra_put, mbind, db_bind, lift.
  destruct (dict_getitem OUTPUT_DB_EXTRA_SPEC name) as [spec|e]; [|done].
  destruct val; unfold execute, replace_extra, delete_extra;
    destruct (extra (view (con s))); reflexivity.
Qed.

(** X3. Writing a header and reading it back: after
    [output_db_extra_put name val] has returned, [output_db_extra_get name]
    returns the value written ([None] after the deletion that [val = None]
    asks for), the other headers and the two other tables read as before,
    and nothing has been committed by the call. *)
Theorem output_db_extra_put_then_get name val s s' :
  output_db_extra_put name val s = (Ok tt, s') ->
  output_db_extra_get name s'
  = (Ok (match val with Some b => SqlBlob b | None => SqlNull end), s')
  /\ (forall name', name' <> name ->
        fst (output_db_extra_get name' s') = fst (output_db_extra_get name' s))
  /\ collections (view (con s')) = collections (view (con s))
  /\ entries (view (con s')) = entries (view (con s))
  /\ disk (con s') = disk (con s).
Proof.
  rewrite output_db_extra_put_view.
  destruct (dict_getitem OUTPUT_DB_EXTRA_SPEC name) as [spec|e] eqn:E; [|done].
  destruct (extra (view (con s))) as [m|] eqn:Em; [|done].
  intros [= <-]. cbn [con]. rewrite disk_write_begin.
  split; [|split; [|by rewrite view_write]].
  - rewrite output_db_extra_get_view, E. cbn [con]. rewrite view_write. cbn [extra].
    destruct val; [by rewrite lookup_insert_eq|by rewrite lookup_delete_eq].
  - intros name' Hne. rewrite !output_db_extra_get_view. cbn [con].
    rewrite view_write. cbn [extra]. rewrite Em.
    destruct (dict_getitem OUTPUT_DB_EXTRA_SPEC name'); [|done]. cbn [fst].
    destruct val; [by rewrite lookup_insert_ne|by rewrite lookup_delete_ne].
Qed.

(** X4. A name that [OUTPUT_DB_EXTRA_SPEC] does not list raises [KeyError]
    in both accessors, before any statement is executed: the connection is
    left as it was. *)
Theorem output_db_extra_unknown_name name val s :
  name ∉ ["db_id"; "db_v"; "latest_output_timestamp"] ->
  output_db_extra_get name s = (Raise (KeyError name), s)
  /\ output_db_extra_put name val s = (Raise (KeyError name), s).
Proof.
  intros Hn. rewrite output_db_extra_get_view, output_db_extra_put_view.
  assert (dict_getitem OUTPUT_DB_EXTRA_SPEC name = Raise (KeyError name)) as ->; [|done].
  unfold OUTPUT_DB_EXTRA_SPEC. cbn [dict_getitem].
  repeat (case String.eqb_spec; [intros <-; exfalso; apply Hn; set_solver|intros _]). done.
Qed.

Lemma output_db_extra_put_then_get_witness :
  let s := idle built_database 0 in
  let s' := snd (output_db_extra_put "latest_output_timestamp"
                   (Some [x01; x02; x03; x04]%byte) s) in
  output_db_extra_get "latest_output_timestamp" s'
  = (Ok (SqlBlob [x01; x02; x03; x04]%byte), s')
  /\ (forall name', name' <> "latest_output_timestamp" ->
        fst (output_db_extra_get name' s') = fst (output_db_extra_get name' s))
  /\ collections (view (con s')) = collections (view (con s))
  /\ entries (view (con s')) = entries (view (con s))
  /\ disk (con s') = disk (con s).
Proof.
  intros s s'.
  apply (output_db_extra_put_then_get "latest_output_timestamp"
           (Some [x01; x02; x03; x04]%byte) s s').
  vm_compute. reflexivity.
Defined.

Lemma output_db_extra_unknown_name_witness :
  output_db_extra_get "db_version" (idle built_database 0)
  = (Raise (KeyError "db_version"), idle built_database 0)
  /\ output_db_extra_put "db_version" None (idle built_database 0)
     = (Raise (KeyError "db_version"), idle built_database 0).
Proof.
  apply (output_db_extra_unknown_name "db_version" None (idle built_database 0)).
  apply (bool_decide_unpack _). vm_compute. reflexivity.
Defined.


(** ** The stages before [filling] *)


(** X6. The [db_building] stage returns only on a database that has none of
    the three tables; there it leaves the two identity headers and two empty
    tables, all committed, and the [db_verifying] stage accepts what it
    built. *)
Theorem building_needs_an_empty_database d n :
  (fst (preparing true (idle d n)) = Ok tt <-> d = empty_database)
  /\ preparing true (idle empty_database n) = (Ok tt, idle built_database n)
  /\ preparing false (idle built_database n) = (Ok tt, idle built_database n).
Proof.
  split; [|split].
  - split.
    + destruct d as [[m|] [cs|] [es|]]; try reflexivity; vm_compute; discriminate.
    + intros ->. by rewrite preparing_build.
  - apply preparing_build.
  - by rewrite preparing_verify, verified_built.
Qed.

Lemma decode_str_inv v s :
  sqlite3_blob_decode_str v = Ok s -> v = SqlBlob (sqlite3_blob_encode_str s).
Proof.
  destruct v; try discriminate. cbn. destruct (utf8_valid b); [|discriminate].
  intros [= <-]. unfold sqlite3_blob_encode_str.
  by rewrite list_byte_of_string_of_list_byte.
Qed.

Lemma decode_int_inv v i :
  sqlite3_blob_decode_int v = Ok i -> v = SqlBlob (le_bytes 4 i).
Proof.
  destruct v as [| |s|b]; try discriminate.
  - cbn. destruct (str_len s =? 4); discriminate.
  - cbn [sqlite3_blob_decode_int].
    destruct (Z.eqb_spec (Z.of_nat (length b)) 4) as [Hl|]; [|discriminate].
    cbn [py_assert mbind res_bind]. intros Hi.
    assert (i = int_from_bytes b) as -> by congruence.
    destruct (le_bytes_int_from_bytes b) as [Hb _].
    replace (length b) with 4%nat in Hb by lia. by rewrite Hb.
Qed.

Lemma header_lookup d name b :
  header d name = SqlBlob b <-> exists m, extra d = Some m /\ m !! name = Some (SqlBlob b).
Proof.
  unfold header. destruct (extra d) as [m|]; [|split; [done|intros (? & ? & _); done]].
  split.
  - destruct (m !! name) eqn:E; cbn; [intros ->; eauto|done].
  - intros (? & [= <-] & ->). done.
Qed.

(** X5. The [db_verifying] stage changes nothing, and it returns exactly on
    the databases whose [extra] table holds the bytes of ['hasty-ruby-coypu']
    under [db_id] and the four bytes [01 00 00 00] under [db_v]. *)
Theorem verifying_accepts d n :
  snd (preparing false (idle d n)) = idle d n
  /\ (fst (preparing false (idle d n)) = Ok tt <->
      exists m, extra d = Some m
        /\ m !! "db_id" = Some (SqlBlob (sqlite3_blob_encode_str "hasty-ruby-coypu"))
        /\ m !! "db_v" = Some (SqlBlob [x01; x00; x00; x00]%byte)).
Proof.
  rewrite preparing_verify. cbn [fst snd]. split; [done|].
  rewrite verified_ok. split.
  - intros ([m Hm] & Hid%decode_str_inv & Hv%decode_int_inv).
    exists m. split; [done|].
    apply header_lookup in Hid as (m1 & Hm1 & Hid).
    apply header_lookup in Hv as (m2 & Hm2 & Hv).
    rewrite Hm in Hm1, Hm2. injection Hm1 as <-. injection Hm2 as <-. done.
  - intros (m & Hm & Hid & Hv). split; [by rewrite Hm|].
    unfold header. rewrite Hm, Hid, Hv. split; reflexivity.
Qed.

(** X7. What a file that is no store of this program makes
    [store_output_data] raise, the file being left as it was: without the
    [extra] table the [OperationalError] of the engine, reported as
    [DatabaseAccessError] for the stage [db_verifying]; without a [db_id]
    row an [AttributeError], and with another [db_v] an [AssertionError],
    which no [except] clause of [store_output_data] turns into a
    [DatabaseAccessError]. *)
Theorem store_output_data_unverified rng od d :
  (extra d = None ->
     store_output_data rng od (Some d)
     = (Failed (DatabaseAccessError
                  "Could not store data to output DB: operational error occured; failed stage: 'db_verifying'")
               db_verifying, d))
  /\ (forall m, extra d = Some m -> m !! "db_id" = None ->
        store_output_data rng od (Some d) = (Failed AttributeError db_verifying, d))
  /\ (forall m v, extra d = Some m ->
        sqlite3_blob_decode_str (header d "db_id") = Ok OUTPUT_DB_ID_STR ->
        sqlite3_blob_decode_int (header d "db_v") = Ok v -> v <> OUTPUT_DB_V_INT ->
        store_output_data rng od (Some d) = (Failed AssertionError db_verifying, d)).
Proof.
  rewrite store_output_data_eq. unfold verified. split; [|split].
  - intros ->. reflexivity.
  - intros m Hm Hid. unfold header. rewrite Hm, Hid. reflexivity.
  - intros m v Hm Hid Hv Hne. rewrite Hm, Hid. cbn [mbind res_bind].
    rewrite String.eqb_refl. cbn [py_assert mbind res_bind]. rewrite Hv.
    cbn [mbind res_bind]. destruct (Z.eqb_spec v OUTPUT_DB_V_INT); [done|]. reflexivity.
Qed.

Lemma store_output_data_unverified_witness :
  store_output_data rng_example record_example (Some empty_database)
  = (Failed (DatabaseAccessError
               "Could not store data to output DB: operational error occured; failed stage: 'db_verifying'")
            db_verifying, empty_database).
Proof.
  apply (proj1 (store_output_data_unverified rng_example record_example empty_database)).
  reflexivity.
Defined.


(** ** [store_output_data] *)


Lemma encode_int_out_of_range t :
  ~ (0 <= t < 2 ^ 32) -> sqlite3_blob_encode_int t = Raise AssertionError.
Proof.
  intros H. unfold sqlite3_blob_encode_int, int_to_bytes.
  destruct (Z.ltb_spec t 0); [done|].
  destruct (Z.leb_spec (256 ^ Z.of_nat 4) t); [done|].
  exfalso. apply H. change (256 ^ Z.of_nat 4) with (2 ^ 32) in *. lia.
Qed.

Lemma filled_out_of_range rng od d n t :
  math_floor (datetime_timestamp (output_timestamp od)) = Ok t ->
  ~ (0 <= t < 2 ^ 32) ->
  filled rng od d n = (Raise AssertionError, (d, n)).
Proof.
  intros Ht Hr. unfold filled. rewrite Ht. cbn [mbind res_bind].
  by rewrite encode_int_out_of_range.
Qed.

(** X8. A record whose capture time, in whole seconds, lies outside
    [0, 2^32) cannot be stored: the header coder fails its assertion in
    [db_filling] before anything is written, the [AssertionError] leaves
    [store_output_data] as it is, and the file holds what the stage before
    left (the freshly built store, or the existing one). *)
Theorem store_output_data_timestamp_out_of_range rng od t :
  math_floor (datetime_timestamp (output_timestamp od)) = Ok t ->
  ~ (0 <= t < 2 ^ 32) ->
  store_output_data rng od None = (Failed AssertionError db_filling, built_database)
  /\ forall d,
       fst (preparing false (idle d 0)) = Ok tt ->
       store_output_data rng od (Some d) = (Failed AssertionError db_filling, d).
Proof.
  intros Ht Hr. split.
  - rewrite store_output_data_eq, (filled_out_of_range _ _ _ _ _ Ht Hr). reflexivity.
  - intros d. rewrite preparing_verify. cbn [fst]. intros Hv.
    rewrite store_output_data_eq, Hv, (filled_out_of_range _ _ _ _ _ Ht Hr). reflexivity.
Qed.

Lemma store_output_data_timestamp_out_of_range_witness :
  let od := {| output_timestamp := 4294967296000000; entries_of := [] |} in
  store_output_data rng_example od None = (Failed AssertionError db_filling, built_database)
  /\ forall d,
       fst (preparing false (idle d 0)) = Ok tt ->
       store_output_data rng_example od (Some d) = (Failed AssertionError db_filling, d).
Proof.
  intros od.
  apply (store_output_data_timestamp_out_of_range rng_example od 4294967296);
    [vm_compute; reflexivity|lia].
Defined.

Lemma fill_rows_any rng l : forall n tbl r tbl' n',
  fill_rows rng n tbl l = (r, (tbl', n')) ->
  match tbl with
  | None => tbl' = None
  | Some es =>
      exists added,
        tbl' = Some (es ++ added)
        /\ (forall x, x ∈ added ->
              entry_collection_uuid x = DEFAULT_CATEGORY_UUID
              /\ pair_of x ∈ l /\ entry_uuid x ∉ entry_uuid <$> es)
        /\ NoDup (entry_uuid <$> added)
  end.
Proof.
  induction l as [|e l IH]; intros n tbl r tbl' n'; cbn [fill_rows].
  - intros [= <- <- <-]. destruct tbl as [es|]; [|done].
    exists []. rewrite app_nil_r. split; [done|]. split; [|constructor].
    intros x Hx. by apply elem_of_nil in Hx.
  - destruct tbl as [es|]; [|by intros [= <- <- <-]].
    destruct (has_pair e es).
    { intros H. apply IH in H as (added & -> & Hadded & Hnd). exists added.
      split; [done|]. split; [|done]. intros x Hx.
      destruct (Hadded x Hx) as (? & ? & ?). repeat split; [done|by right|done]. }
    destruct (has_uuid (rng n) es) eqn:Hu.
    { intros [= <- <- <-]. exists []. rewrite app_nil_r. split; [done|].
      split; [|constructor]. intros x Hx. by apply elem_of_nil in Hx. }
    intros H. apply IH in H as (added & -> & Hadded & Hnd).
    exists (new_row (rng n) e :: added). split; [by rewrite <- app_assoc|].
    assert (Hfresh : rng n ∉ entry_uuid <$> es).
    { intros (x & Hx1 & Hx2)%list_elem_of_fmap.
      unfold has_uuid in Hu. apply not_true_iff_false in Hu. apply Hu.
      apply existsb_exists. exists x. split; [by apply list_elem_of_In|].
      by apply bool_decide_eq_true. }
    split.
    + intros x [->|Hx]%elem_of_cons.
      * cbn. split; [done|]. split; [destruct e; by left|done].
      * destruct (Hadded x Hx) as (? & ? & Hn). split; [done|]. split; [by right|].
        intros Hin. apply Hn. rewrite fmap_app. apply elem_of_app. by left.
    + cbn [fmap list_fmap]. constructor; [|done].
      intros (x & Hx1 & Hx2)%list_elem_of_fmap.
      destruct (Hadded x Hx2) as (_ & _ & Hn). apply Hn.
      rewrite fmap_app. apply elem_of_app. right. cbn. rewrite <- Hx1. by left.
Qed.

Lemma with_default_app cs : exists added, with_default cs = cs ++ added.
Proof.
  unfold with_default. destruct (existsb _ cs); [exists []; by rewrite app_nil_r|eauto].
Qed.

Lemma header_insert_other d d' m name k v :
  extra d = Some m -> extra d' = Some (<[k := v]> m) -> name <> k ->
  header d' name = header d name.
Proof.
  intros Hm Hm' Hne. unfold header. rewrite Hm, Hm'. by rewrite lookup_insert_ne.
Qed.

Lemma filled_keeps rng od d n r d' n' :
  filled rng od d n = (r, (d', n')) ->
  (forall es, entries d = Some es -> exists added, entries d' = Some (es ++ added))
  /\ (entries d = None -> entries d' = None)
  /\ (forall cs, collections d = Some cs -> exists added, collections d' = Some (cs ++ added))
  /\ (collections d = None -> collections d' = None)
  /\ (forall name, name <> "latest_output_timestamp" -> header d' name = header d name)
  /\ (extra d = None -> extra d' = None).
Proof.
  intros H. apply filled_inv in H as [->|(t & b & m & Ht & Hb & Hm & Hm' & H)].
  { repeat split; try done.
    - intros es ->. exists []. by rewrite app_nil_r.
    - intros cs ->. exists []. by rewrite app_nil_r. }
  assert (Hh : forall name, name <> "latest_output_timestamp" -> header d' name = header d name).
  { intros name Hne. by apply (header_insert_other _ _ _ _ _ _ Hm Hm'). }
  destruct H as [(Hc & Hc' & He & _)|(cs & Hc & Hc' & Hf)].
  - rewrite He, Hc, Hc', Hm. repeat split; try done.
    intros es ->. exists []. by rewrite app_nil_r.
  - apply fill_rows_any in Hf. rewrite Hc, Hc', Hm.
    split; [|split; [|split; [|split; [done|split; [done|done]]]]].
    + intros es Hes. rewrite Hes in Hf. destruct Hf as (added & -> & _). eauto.
    + intros Hes. by rewrite Hes in Hf.
    + intros cs' [= <-]. destruct (with_default_app cs) as [added ->]. eauto.
Qed.

(** X9. Whatever its outcome, a call of [store_output_data] on an existing
    file deletes and changes no row: the rows of [entries] and of
    [collections] afterwards are the rows before followed by the rows added,
    every header but [latest_output_timestamp] reads as before, a table that
    was absent stays absent, and a file without the [extra] table is left
    as it was. *)
Theorem store_output_data_keeps_rows rng od d o d' :
  store_output_data rng od (Some d) = (o, d') ->
  (forall es, entries d = Some es -> exists added, entries d' = Some (es ++ added))
  /\ (forall cs, collections d = Some cs -> exists added, collections d' = Some (cs ++ added))
  /\ (forall name, name <> "latest_output_timestamp" -> header d' name = header d name)
  /\ (entries d = None -> entries d' = None)
  /\ (collections d = None -> collections d' = None)
  /\ (extra d = None -> d' = d).
Proof.
  rewrite store_output_data_eq. destruct (verified d) as [[]|e] eqn:Hv.
  - destruct (filled rng od d 0) as [r [d1 n1]] eqn:Hf. intros [= _ <-].
    destruct (filled_keeps _ _ _ _ _ _ _ Hf) as (H1 & H2 & H3 & H4 & H5 & H6).
    repeat (split; [done|]). intros He. unfold verified in Hv. by rewrite He in Hv.
  - intros [= _ <-]. repeat split; try done.
    + intros es ->. exists []. by rewrite app_nil_r.
    + intros cs ->. exists []. by rewrite app_nil_r.
Qed.

Lemma store_output_data_keeps_rows_witness :
  let d := snd (store_output_data rng_example record_example None) in
  let d' := snd (store_output_data rng_repeating
                   {| output_timestamp := 1700000001000000;
                      entries_of := [("https://c.example", "C"); ("https://d.example", "D")] |}
                   (Some d)) in
  (forall es, entries d = Some es -> exists added, entries d' = Some (es ++ added))
  /\ (forall cs, collections d = Some cs -> exists added, collections d' = Some (cs ++ added))
  /\ (forall name, name <> "latest_output_timestamp" -> header d' name = header d name)
  /\ (entries d = None -> entries d' = None)
  /\ (collections d = None -> collections d' = None)
  /\ (extra d = None -> d' = d).
Proof.
  intros d d'.
  apply (store_output_data_keeps_rows rng_repeating
           {| output_timestamp := 1700000001000000;
              entries_of := [("https://c.example", "C"); ("https://d.example", "D")] |}
           d (fst (store_output_data rng_repeating
                     {| output_timestamp := 1700000001000000;
                        entries_of := [("https://c.example", "C"); ("https://d.example", "D")] |}
                     (Some d)))).
  vm_compute. reflexivity.
Defined.

Lemma NoDup_app_fresh {A} (l k : list A) :
  NoDup l -> NoDup k -> (forall x, x ∈ k -> x ∉ l) -> NoDup (l ++ k).
Proof. intros Hl Hk H. apply NoDup_app. split; [done|]. split; [|done]. intros x Hx Hx'. by apply (H x). Qed.

Lemma filled_consistent rng od d n d' n' :
  is_Some (extra d) ->
  (collections d = Some [] \/ collections d = Some [default_collection]) ->
  (exists es, entries d = Some es
       /\ NoDup (entry_uuid <$> es)
       /\ forall x, x ∈ es -> entry_collection_uuid x = DEFAULT_CATEGORY_UUID) ->
  filled rng od d n = (Ok tt, (d', n')) ->
  is_Some (extra d')
  /\ collections d' = Some [default_collection]
  /\ exists es, entries d' = Some es
       /\ NoDup (entry_uuid <$> es)
       /\ forall x, x ∈ es -> entry_collection_uuid x = DEFAULT_CATEGORY_UUID.
Proof.
  intros Hm Hc (es & Hes & Hnd & Hall) Hf.
  pose proof (filled_ok _ _ _ _ _ _ Hf) as Hrows.
  apply filled_ok_inv in Hf as (t & b & m & cs & _ & _ & _ & Hcs & ->).
  cbn [entries] in *. rewrite Hes in Hrows. apply fill_rows_any in Hrows as (added & -> & Hadded & Hnd').
  split; [done|]. split.
  - cbn [collections]. destruct Hc as [Hc|Hc]; rewrite Hc in Hcs; injection Hcs as <-; reflexivity.
  - exists (es ++ added). split; [done|]. split.
    + rewrite fmap_app. apply NoDup_app_fresh; [done..|].
      intros u (x & -> & Hx)%list_elem_of_fmap. by apply Hadded.
    + intros x [Hx|Hx]%elem_of_app; [by apply Hall|by apply Hadded].
Qed.

(** X10. The stores that successful calls build keep the constraints of the
    schema and one category: the identifiers of the entries are pairwise
    distinct, every entry refers to the default collection, and
    [collections] holds the row of the default collection and no other. *)
Theorem stored_rows_are_consistent d :
  stored d ->
  is_Some (extra d)
  /\ collections d = Some [default_collection]
  /\ exists es, entries d = Some es
       /\ NoDup (entry_uuid <$> es)
       /\ forall x, x ∈ es -> entry_collection_uuid x = DEFAULT_CATEGORY_UUID.
Proof.
  induction 1 as [rng od d H|rng od d d' _ (Hm & Hc & He) H].
  - apply store_output_data_filled in H as [n' H].
    apply (filled_consistent _ _ _ _ _ _) in H; [done|done|by left|].
    exists []. split; [done|]. split; [constructor|]. intros x Hx. by apply elem_of_nil in Hx.
  - apply store_output_data_filled in H as [n' H].
    apply (filled_consistent _ _ _ _ _ _) in H; [done|done|by right|done].
Qed.

Lemma stored_rows_are_consistent_witness :
  let d := snd (store_output_data rng_example record_example None) in
  is_Some (extra d)
  /\ collections d = Some [default_collection]
  /\ exists es, entries d = Some es
       /\ NoDup (entry_uuid <$> es)
       /\ forall x, x ∈ es -> entry_collection_uuid x = DEFAULT_CATEGORY_UUID.
Proof.
  intros d. apply (stored_rows_are_consistent d).
  apply (stored_first rng_example record_example). vm_compute. reflexivity.
Defined.

Lemma filled_pairs rng od d n d' n' :
  filled rng od d n = (Ok tt, (d', n')) ->
  forall e, e ∈ stored_pairs d' <-> e ∈ entries_of od \/ e ∈ stored_pairs d.
Proof.
  intros Hf e. apply filled_ok in Hf. unfold stored_pairs.
  destruct (entries d) as [es|].
  - apply fill_rows_ok in Hf as (added & -> & Hin & Hadded & _).
    rewrite fmap_app, elem_of_app. split.
    + intros [He|(x & -> & Hx)%list_elem_of_fmap]; [by right|].
      left. by apply Hadded.
    + intros [He|He]; [|by left]. apply Hin in He. by rewrite fmap_app, elem_of_app in He.
  - apply fill_rows_None in Hf as [-> ->]. split; [by right|]. by intros [?|?].
Qed.

Lemma store_output_data_pairs_aux rng od file d1 :
  store_output_data rng od file = (Done, d1) ->
  forall e, e ∈ stored_pairs d1 <->
            e ∈ entries_of od \/ exists d, file = Some d /\ e ∈ stored_pairs d.
Proof.
  intros H e. apply store_output_data_filled in H as [n' Hf].
  rewrite (filled_pairs _ _ _ _ _ _ Hf e). destruct file as [d|].
  - split; (intros [?|?]; [by left|right]); [eauto|].
    by destruct H as (? & [= <-] & ?).
  - split; (intros [?|H]; [by left|]).
    + by apply elem_of_nil in H.
    + by destruct H as (? & ? & _).
Qed.

(** X11. After a successful call the (url, title) pairs of the [entries]
    rows are exactly the pairs that were there and the pairs of the record;
    hence two records with the same pairs, in whatever order they are
    iterated and whatever identifiers are drawn, leave the same pairs. *)
Theorem store_output_data_pairs rng od file d1 :
  store_output_data rng od file = (Done, d1) ->
  (forall e, e ∈ stored_pairs d1 <->
             e ∈ entries_of od \/ exists d, file = Some d /\ e ∈ stored_pairs d)
  /\ (forall rng' od' d2,
        (forall e, e ∈ entries_of od' <-> e ∈ entries_of od) ->
        store_output_data rng' od' file = (Done, d2) ->
        forall e, e ∈ stored_pairs d1 <-> e ∈ stored_pairs d2).
Proof.
  intros H. split; [by apply (store_output_data_pairs_aux rng)|].
  intros rng' od' d2 Hsame H' e.
  rewrite (store_output_data_pairs_aux _ _ _ _ H e),
          (store_output_data_pairs_aux _ _ _ _ H' e), Hsame. done.
Qed.

Lemma store_output_data_pairs_witness :
  let d1 := snd (store_output_data rng_example record_example None) in
  (forall e, e ∈ stored_pairs d1 <->
             e ∈ entries_of record_example
             \/ exists d, @None database = Some d /\ e ∈ stored_pairs d)
  /\ (forall rng' od' d2,
        (forall e, e ∈ entries_of od' <-> e ∈ entries_of record_example) ->
        store_output_data rng' od' None = (Done, d2) ->
        forall e, e ∈ stored_pairs d1 <-> e ∈ stored_pairs d2).
Proof.
  intros d1.
  apply (store_output_data_pairs rng_example record_example None d1).
  vm_compute. reflexivity.
Defined.

(** ** [application.main] *)


(** X12. The handlers of [main].  Without [--verbose-errors] an
    [UnexpectedInputError] of the loader gives [EBADINPUT], and a
    [DatabaseAccessError] of the loader or of the store gives [EDBUNSPEC];
    with it the handler calls [print_exception_traceback], whose
    [err.__type__] raises [AttributeError], and [main] raises that instead
    of returning the code.  A [FileAccessError] gives [EFILEACC] either way,
    and no failure of the loader touches the output file. *)
Theorem main_handlers verbose_errors rng file msg :
  fst (main verbose_errors rng (Raise (UnexpectedInputError msg)) file)
  = (if verbose_errors then Raise AttributeError else Ok EBADINPUT)
  /\ fst (main verbose_errors rng (Raise (DatabaseAccessError msg)) file)
     = (if verbose_errors then Raise AttributeError else Ok EDBUNSPEC)
  /\ fst (main verbose_errors rng (Raise (FileAccessError msg)) file) = Ok EFILEACC
  /\ (forall data st d,
        store_output_data rng data file = (Failed (DatabaseAccessError msg) st, d) ->
        fst (main verbose_errors rng (Ok data) file)
        = (if verbose_errors then Raise AttributeError else Ok EDBUNSPEC))
  /\ (forall e, snd (main verbose_errors rng (Raise e) file) = file).
Proof.
  unfold main. repeat split; try (by destruct verbose_errors).
  - intros data st d ->. by destruct verbose_errors.
  - intros e. by destruct e.
Qed.

Lemma main_handlers_witness :
  fst (main true rng_example (Ok record_example) (Some empty_database))
  = Raise AttributeError.
Proof.
  apply (proj1 (proj2 (proj2 (proj2
           (main_handlers true rng_example (Some empty_database)
              "Could not store data to output DB: operational error occured; failed stage: 'db_verifying'"))))
           record_example db_verifying empty_database).
  reflexivity.
Defined.

(** X13. When [main] returns [SUCCESS], the loader returned a record and
    [store_output_data] stored it: the output file holds a row for every
    pair of the record, and running [main] again on the same record and
    that file returns [SUCCESS] and leaves the file as it is. *)
Theorem main_success verbose_errors rng loaded file f' :
  main verbose_errors rng loaded file = (Ok SUCCESS, f') ->
  exists data d,
    loaded = Ok data /\ f' = Some d
    /\ store_output_data rng data file = (Done, d)
    /\ (forall e, e ∈ entries_of data -> e ∈ stored_pairs d)
    /\ (forall verbose_errors' rng',
          main verbose_errors' rng' loaded (Some d) = (Ok SUCCESS, Some d)).
Proof.
  unfold main. destruct loaded as [data|e]; [|destruct e, verbose_errors; discriminate].
  destruct (store_output_data rng data file) as [[|e st] d] eqn:Hs;
    [|destruct e, verbose_errors; discriminate].
  intros [= <-]. exists data, d. repeat (split; [done|]). split.
  - intros e He. apply (store_output_data_pairs_aux _ _ _ _ Hs). by left.
  - intros v' rng'. by rewrite (store_output_data_again _ rng' _ _ _ Hs).
Qed.

Lemma main_success_witness :
  let d := snd (store_output_data rng_example record_example None) in
  exists data d',
    Ok record_example = Ok data /\ Some d = Some d'
    /\ store_output_data rng_example data None = (Done, d')
    /\ (forall e, e ∈ entries_of data -> e ∈ stored_pairs d')
    /\ (forall verbose_errors' rng',
          main verbose_errors' rng' (Ok record_example) (Some d') = (Ok SUCCESS, Some d')).
Proof.
  intros d.
  apply (main_success false rng_example (Ok record_example) None (Some d)).
  vm_compute. reflexivity.
Defined.


(** ** [loaders/chrome_bookmarks.py] *)


Lemma in_hexdigits_ascii c : in_hexdigits c = true -> is_continuation c = false.
Proof.
  unfold in_hexdigits, in_digits, ascii_in, is_continuation. cbn.
  intros H. apply andb_false_iff. left. apply Z.leb_gt.
  repeat (apply orb_prop in H as [H|H]); apply andb_prop in H as [_ H];
    apply N.leb_le in H; lia.
Qed.

Lemma str_len_hex s :
  forallb in_hexdigits (list_ascii_of_string s) = true ->
  str_len s = Z.of_nat (String.length s).
Proof.
  induction s as [|c s IH]; [done|]. cbn [list_ascii_of_string forallb str_len String.length].
  intros [Hc Hs]%andb_prop. rewrite (in_hexdigits_ascii _ Hc), IH by done. lia.
Qed.

Lemma str_in_In k l : str_in k l = true <-> In k l.
Proof.
  unfold str_in. rewrite existsb_exists. split.
  - intros (x & Hx & ->%String.eqb_eq). done.
  - intros H. exists k. split; [done|apply String.eqb_refl].
Qed.

Lemma version_is_1 version :
  is_int version && eq_int version 1 = true <-> version = JInt 1 \/ version = JBool true.
Proof.
  destruct version as [|[]|i| | | |]; cbn; split; try done; try (intros [?|?]; done).
  - auto.
  - intros H%Z.eqb_eq. subst. auto.
  - intros [[= ->]|?]; done.
Qed.

(** X14. The documents that the precheck of the bookmark loader accepts:
    the mappings whose [version] is the integer 1 (or [true], a [bool]
    being an [int] that equals 1), whose [checksum] is a string of 32
    hexadecimal digits, and whose [roots] is a mapping with the three keys
    [bookmark_bar], [other] and [synced] and no other. *)
Theorem bookmarks_precheck_accepts data :
  chrome_bookmarks._precheck_parsed_input_data data = Ok tt <->
  exists m version checksum roots,
    data = JObj m
    /\ dict_get m "version" = Some version
    /\ (version = JInt 1 \/ version = JBool true)
    /\ dict_get m "checksum" = Some (JStr checksum)
    /\ String.length checksum = 32%nat
    /\ forallb in_hexdigits (list_ascii_of_string checksum) = true
    /\ dict_get m "roots" = Some (JObj roots)
    /\ (forall k, In k (dict_keys roots) <-> In k ["bookmark_bar"; "other"; "synced"]).
Proof.
  unfold chrome_bookmarks._precheck_parsed_input_data. rewrite reraise_unexpected_ok. split.
  - intros H. apply bind_ok in H as (version & Hversion & H).
    destruct data as [| | | | | |m]; try discriminate.
    rewrite getitem_obj in Hversion.
    destruct (dict_get m "version") as [v|] eqn:Hv; [|discriminate]. injection Hversion as ->.
    apply bind_ok in H as ([] & _ & H).
    apply bind_ok in H as ([] & H1 & H).
    destruct (is_int version && eq_int version 1) eqn:Hone; cycle 1.
    { cbn [negb] in H1. destruct (getitem (JObj m) "id"); discriminate. }
    apply version_is_1 in Hone. clear H1.
    apply bind_ok in H as (checksum & Hchecksum & H).
    rewrite getitem_obj in Hchecksum.
    destruct (dict_get m "checksum") as [c|] eqn:Hc; [|discriminate]. injection Hchecksum as ->.
    apply bind_ok in H as ([] & H1 & H).
    destruct (_is_checksum_valid checksum) eqn:Hvalid; [|discriminate]. clear H1.
    destruct checksum as [| | | |cs| |]; try discriminate.
    cbn [_is_checksum_valid] in Hvalid. apply andb_prop in Hvalid as [Hlen Hhex].
    rewrite (str_len_hex _ Hhex) in Hlen. apply Z.eqb_eq in Hlen.
    apply bind_ok in H as (roots & Hroots & H).
    rewrite getitem_obj in Hroots.
    destruct (dict_get m "roots") as [r|] eqn:Hr; [|discriminate]. injection Hroots as ->.
    destruct roots as [| | | | | |roots];
      try (destruct (getitem (JObj m) "data"); discriminate).
    apply reraise_assertion_ok in H.
    apply bind_ok in H as ([] & Hreq%py_assert_ok & Hall%py_assert_ok).
    rewrite forallb_forall in Hreq, Hall.
    exists m, version, cs, roots. repeat (split; [done || lia|]).
    intros k. split.
    + intros Hk. by apply str_in_In, Hall.
    + intros Hk. by apply str_in_In, Hreq.
  - intros (m & version & cs & roots & -> & Hv & Hone & Hc & Hlen & Hhex & Hr & Hkeys).
    rewrite !getitem_obj, Hv. cbn [mbind res_bind].
    assert (is_int_or_float version = true) as -> by (destruct Hone as [->| ->]; done).
    cbn [py_assert mbind res_bind].
    apply version_is_1 in Hone. rewrite Hone. cbn [negb mbind res_bind].
    rewrite Hc. cbn [mbind res_bind _is_checksum_valid].
    rewrite (str_len_hex _ Hhex), Hlen, Hhex. cbn [Z.of_nat Z.eqb Pos.eqb Pos.of_succ_nat Pos.succ andb negb mbind res_bind].
    rewrite Hr. cbn [mbind res_bind].
    assert (forallb (fun k => str_in k (dict_keys roots)) ["bookmark_bar"; "other"; "synced"]
            = true) as ->.
    { apply forallb_forall. intros k Hk. by apply str_in_In, Hkeys. }
    assert (forallb (fun k => str_in k ["bookmark_bar"; "other"; "synced"]) (dict_keys roots)
            = true) as ->.
    { apply forallb_forall. intros k Hk. by apply str_in_In, Hkeys. }
    reflexivity.
Qed.

(** X15. What escapes the precheck of the bookmark loader as it is: a
    document that is no mapping raises [TypeError], one without [version]
    [KeyError], and one with the right version and no [checksum] [KeyError]
    again, none of which [main] catches; a [version] that is no number fails
    the assertion and is reported as [UnexpectedInputError]. *)
Theorem bookmarks_document_without_version data now :
  (is_Mapping data = false ->
     chrome_bookmarks.load_input_data (Ok data) now = Raise TypeError)
  /\ (forall m, data = JObj m -> dict_get m "version" = None ->
        chrome_bookmarks.load_input_data (Ok data) now = Raise (KeyError "version"))
  /\ (forall m version, data = JObj m -> dict_get m "version" = Some version ->
        is_int_or_float version = false ->
        exists msg, chrome_bookmarks.load_input_data (Ok data) now
                    = Raise (UnexpectedInputError msg))
  /\ (forall m version, data = JObj m -> dict_get m "version" = Some version ->
        version = JInt 1 \/ version = JBool true ->
        dict_get m "checksum" = None ->
        chrome_bookmarks.load_input_data (Ok data) now = Raise (KeyError "checksum")).
Proof.
  unfold chrome_bookmarks.load_input_data, chrome_bookmarks._precheck_parsed_input_data.
  cbn [mbind res_bind]. split; [|split; [|split]].
  - by destruct data.
  - intros m -> Hv. by rewrite (getitem_obj m "version"), Hv.
  - intros m version -> Hv Hty. rewrite (getitem_obj m "version"), Hv. cbn [mbind res_bind].
    rewrite Hty. cbn. eauto.
  - intros m version -> Hv Hone Hc. rewrite (getitem_obj m "version"), (getitem_obj m "checksum"), Hv.
    cbn [mbind res_bind].
    assert (is_int_or_float version = true) as -> by (destruct Hone as [->| ->]; done).
    apply version_is_1 in Hone. rewrite Hone, Hc. reflexivity.
Qed.

Lemma bookmarks_document_without_version_witness :
  chrome_bookmarks.load_input_data (Ok (JObj [("roots", JObj [])])) 0
  = Raise (KeyError "version").
Proof.
  apply (proj1 (proj2 (bookmarks_document_without_version (JObj [("roots", JObj [])]) 0))
           [("roots", JObj [])]); reflexivity.
Defined.

Lemma check_node_keys obj is_root :
  _check_node_contents (JObj obj) is_root = Ok tt ->
  exists ty g,
    dict_get obj "type" = Some (JStr ty)
    /\ check_keys (_required_keys ty) (_optional_keys ty) obj = Ok tt
    /\ dict_get obj "guid" = Some (JStr g)
    /\ _NODE_GUID_RE_fullmatch g = true
    /\ UUID_version (UUID_int g) = Some (if is_root then 5 else 4).
Proof.
  unfold _check_node_contents. intros H%reraise_unexpected_ok.
  apply bind_ok in H as ([] & Hty%py_assert_ok & H).
  destruct (dict_get obj "type") as [t|] eqn:Ht; [|discriminate].
  destruct t as [| | | |ty| |]; try discriminate. clear Hty.
  rewrite (getitem_obj obj "type"), Ht in H. cbn [mbind res_bind] in H.
  apply bind_ok in H as ([] & Hkeys & H).
  exists ty.
  destruct (check_keys_ok _ _ _ Hkeys) as [Hreq Hpred].
  destruct (Hreq "guid") as [v Hv].
  { unfold _required_keys, dict_keys. rewrite !map_app. apply in_app_iff. left.
    cbn. tauto. }
  destruct (Hpred _ _ Hv) as (p & Hp & Hpv).
  unfold _required_keys in Hp. cbn in Hp. injection Hp as <-.
  destruct v as [| | | |g| |]; try discriminate.
  exists g. repeat (split; [done|]).
  apply bind_ok in H as (da & _ & H).
  apply bind_ok in H as ([] & _ & H).
  apply bind_ok in H as ([] & _ & H).
  rewrite (getitem_obj obj "guid"), Hv in H. cbn [mbind res_bind] in H.
  apply bind_ok in H as ([] & _ & H).
  apply bind_ok in H as ([] & Hver%py_assert_ok & _).
  by apply bool_decide_eq_true in Hver.
Qed.

Lemma dict_has_get {V} (d : list (string * V)) k :
  dict_has d k = true <-> exists v, dict_get d k = Some v.
Proof. unfold dict_has. destruct (dict_get d k); split; eauto; [|intros [? ?]]; done. Qed.

(** X17. The keys of a node that passes the check follow its type: it has
    [children] exactly when its type is [folder] (and they are a sequence),
    [url] exactly when its type is [url], [meta_info] only when its type is
    [url], and no key outside the nine that the check knows. *)
Theorem accepted_node_keys node is_root :
  _check_node_contents node is_root = Ok tt ->
  exists obj ty,
    node = JObj obj
    /\ dict_get obj "type" = Some (JStr ty)
    /\ (dict_has obj "children" = true <-> ty = "folder")
    /\ (dict_has obj "url" = true <-> ty = "url")
    /\ (dict_has obj "meta_info" = true -> ty = "url")
    /\ (forall ch, dict_get obj "children" = Some ch -> is_Sequence ch = true)
    /\ (forall k, dict_has obj k = true ->
          In k ["date_added"; "guid"; "id"; "name"; "type"; "date_modified";
                "url"; "meta_info"; "children"]).
Proof.
  intros H. destruct (check_node_not_obj _ _ H) as [obj ->].
  destruct (check_node_keys _ _ H) as (ty & g & Hty & Hkeys & _).
  destruct (check_keys_ok _ _ _ Hkeys) as [Hreq Hpred].
  exists obj, ty. split; [done|]. split; [done|].
  assert (Hallowed : forall k v, dict_get obj k = Some v ->
            exists p, dict_get (_required_keys ty ++ _optional_keys ty) k = Some p
                      /\ p v = true) by exact Hpred.
  split; [|split; [|split; [|split]]].
  - rewrite dict_has_get. split.
    + intros [v Hv]. destruct (Hallowed _ _ Hv) as (p & Hp & _).
      unfold _required_keys, _optional_keys in Hp.
      destruct (String.eqb_spec ty "folder"); [done|].
      destruct (String.eqb ty "url"); cbn in Hp; discriminate.
    + intros ->. apply Hreq. cbn. tauto.
  - rewrite dict_has_get. split.
    + intros [v Hv]. destruct (Hallowed _ _ Hv) as (p & Hp & _).
      unfold _required_keys, _optional_keys in Hp.
      destruct (String.eqb_spec ty "url"); [done|].
      destruct (String.eqb ty "folder"); cbn in Hp; discriminate.
    + intros ->. apply Hreq. cbn. tauto.
  - rewrite dict_has_get. intros [v Hv]. destruct (Hallowed _ _ Hv) as (p & Hp & _).
    unfold _required_keys, _optional_keys in Hp.
    destruct (String.eqb_spec ty "url"); [done|].
    destruct (String.eqb ty "folder"); cbn in Hp; discriminate.
  - intros ch Hch. destruct (Hallowed _ _ Hch) as (p & Hp & Hpv).
    unfold _required_keys, _optional_keys in Hp.
    destruct (String.eqb ty "url"), (String.eqb ty "folder"); cbn in Hp;
      try discriminate; by injection Hp as <-.
  - intros k [v Hv]%dict_has_get. destruct (Hallowed _ _ Hv) as (p & Hp & _).
    apply dict_get_In in Hp. apply (in_map fst) in Hp. cbn [fst] in Hp.
    unfold _required_keys, _optional_keys in Hp.
    destruct (String.eqb ty "url"), (String.eqb ty "folder"); cbn in Hp; cbn; tauto.
Qed.

Lemma accepted_node_keys_witness :
  let node := folder_node "b1b2c3d4-e5f6-4a7b-8c9d-0e1f2a3b4c5d" "6" "F" [] in
  exists obj ty,
    node = JObj obj
    /\ dict_get obj "type" = Some (JStr ty)
    /\ (dict_has obj "children" = true <-> ty = "folder")
    /\ (dict_has obj "url" = true <-> ty = "url")
    /\ (dict_has obj "meta_info" = true -> ty = "url")
    /\ (forall ch, dict_get obj "children" = Some ch -> is_Sequence ch = true)
    /\ (forall k, dict_has obj k = true ->
          In k ["date_added"; "guid"; "id"; "name"; "type"; "date_modified";
                "url"; "meta_info"; "children"]).
Proof.
  intros node. apply (accepted_node_keys node false). vm_compute. reflexivity.
Defined.

Lemma set_add_NoDup e (s : list (string * string)) : NoDup s -> NoDup (set_add e s).
Proof.
  intros H. unfold set_add. destruct (bool_decide_reflect (e ∈ s)); [done|].
  apply NoDup_app. split; [done|]. split; [|apply NoDup_singleton].
  intros x Hx ->%list_elem_of_singleton. done.
Qed.

Lemma fold_add_pair_NoDup nodes : forall s, NoDup s -> NoDup (fold_left add_pair nodes s).
Proof.
  induction nodes as [|x nodes IH]; intros s Hs; [done|]. cbn [fold_left]. apply IH.
  unfold add_pair. destruct (url_pair (fst x)); [by apply set_add_NoDup|done].
Qed.

(** X18. Once the precheck has passed, the bookmark loader returns or raises
    [UnexpectedInputError] with the address of a node, and nothing else: what
    the check of a node raises, whatever it is, is reported so.  The record
    returned carries the time read by the conversion and holds no pair
    twice. *)
Theorem bookmarks_conversion_raises_only_format_errors data now :
  chrome_bookmarks._precheck_parsed_input_data data = Ok tt ->
  (exists entries,
     chrome_bookmarks.load_input_data (Ok data) now
     = Ok {| output_timestamp := now; entries_of := entries |}
     /\ NoDup entries)
  \/ (exists address,
        chrome_bookmarks.load_input_data (Ok data) now
        = Raise (UnexpectedInputError (stopped_at address))).
Proof.
  intros Hpre. destruct (precheck_ok_inv _ Hpre) as (m & roots & -> & Hroots).
  rewrite (load_input_data_eq _ now roots Hpre) by (by rewrite getitem_obj, Hroots).
  destruct (find root_fails (forest roots)) as [x|]; [right; eauto|left].
  eexists. split; [reflexivity|]. apply fold_add_pair_NoDup. constructor.
Qed.

Lemma bookmarks_conversion_raises_only_format_errors_witness :
  (exists entries,
     chrome_bookmarks.load_input_data (Ok document_with_a_repeated_bookmark) 7
     = Ok {| output_timestamp := 7; entries_of := entries |}
     /\ NoDup entries)
  \/ (exists address,
        chrome_bookmarks.load_input_data (Ok document_with_a_repeated_bookmark) 7
        = Raise (UnexpectedInputError (stopped_at address))).
Proof.
  apply (bookmarks_conversion_raises_only_format_errors document_with_a_repeated_bookmark 7).
  vm_compute. reflexivity.
Defined.


(** ** [loaders/tabs_outliner_db.py] *)


Lemma check_input_fields_types_row a b c d :
  _check_input_fields_types (assorted [a; b; c; d]) FIELD_TYPES
  = let t :=
      flat_map (fun fc : string * py_type * cell =>
                  if bool_decide (type_of_cell (snd fc) = snd (fst fc)) then []
                  else [field_type_message (fst (fst fc)) (type_of_cell (snd fc))
                                           (snd (fst fc))])
               [("id", ty_float, a); ("timestamp", ty_float, b);
                ("op_array_len", ty_float, c); ("data", ty_str, d)] in
    if (0 <? length t)%nat then Raise (UnexpectedInputError (join "; " t)) else Ok tt.
Proof.
  unfold _check_input_fields_types, assorted, FIELD_TYPES.
  cbn [dict_keys map fst zip zip_with field_type_messages dict_getitem String.eqb Ascii.eqb
       Bool.eqb mbind res_bind flat_map snd].
  destruct (bool_decide (type_of_cell a = ty_float)),
           (bool_decide (type_of_cell b = ty_float)),
           (bool_decide (type_of_cell c = ty_float)),
           (bool_decide (type_of_cell d = ty_str)); reflexivity.
Qed.

(** X19. [_check_input_fields_types] against [FIELD_TYPES] accepts a row of
    four cells exactly when the first three are [float] objects and the last
    one a [str]; any other row raises [UnexpectedInputError].  The test is
    [type(x) is float]: an [id] stored as an integer is refused, with the
    message shown. *)
Theorem check_input_fields_types_accepts a b c d :
  (_check_input_fields_types (assorted [a; b; c; d]) FIELD_TYPES = Ok tt
   <-> exists x y z s, a = CFloat x /\ b = CFloat y /\ c = CFloat z /\ d = CStr s)
  /\ (_check_input_fields_types (assorted [a; b; c; d]) FIELD_TYPES = Ok tt
      \/ exists msg, _check_input_fields_types (assorted [a; b; c; d]) FIELD_TYPES
                     = Raise (UnexpectedInputError msg))
  /\ (forall i, a = CInt i -> type_of_cell b = ty_float -> type_of_cell c = ty_float ->
        type_of_cell d = ty_str ->
        _check_input_fields_types (assorted [a; b; c; d]) FIELD_TYPES
        = Raise (UnexpectedInputError
                   (quotes "Input DB's field `current_session_snapshot.id` was recognized as type 'int', expected 'float'"))).
Proof.
  rewrite check_input_fields_types_row. cbn [flat_map fst snd].
  split; [|split].
  - split.
    + destruct (bool_decide_reflect (type_of_cell a = ty_float)) as [Ha|]; [|discriminate].
      destruct (bool_decide_reflect (type_of_cell b = ty_float)) as [Hb|]; [|discriminate].
      destruct (bool_decide_reflect (type_of_cell c = ty_float)) as [Hc|]; [|discriminate].
      destruct (bool_decide_reflect (type_of_cell d = ty_str)) as [Hd|]; [|discriminate].
      intros _. destruct a, b, c, d; try discriminate. eauto 10.
    + intros (x & y & z & s & -> & -> & -> & ->). reflexivity.
  - destruct (bool_decide (type_of_cell a = ty_float)),
             (bool_decide (type_of_cell b = ty_float)),
             (bool_decide (type_of_cell c = ty_float)),
             (bool_decide (type_of_cell d = ty_str)); cbn; eauto.
  - intros i -> Hb Hc Hd. rewrite Hb, Hc, Hd. reflexivity.
Qed.

Lemma check_input_fields_types_accepts_witness :
  _check_input_fields_types
    (assorted [CInt 1; CFloat (float_lit 1700000000000); CFloat (float_lit 2);
               CStr "[]"]) FIELD_TYPES
  = Raise (UnexpectedInputError
             (quotes "Input DB's field `current_session_snapshot.id` was recognized as type 'int', expected 'float'")).
Proof.
  apply (proj2 (proj2 (check_input_fields_types_accepts
                         (CInt 1) (CFloat (float_lit 1700000000000))
                         (CFloat (float_lit 2)) (CStr "[]"))) 1); reflexivity.
Defined.

Lemma guard_ok (c : bool) e : (if negb c then Raise e else Ok tt) = Ok tt -> c = true.
Proof. by destruct c. Qed.

Lemma keys_are_has d ks k : keys_are d ks = true -> (In k ks <-> In k (dict_keys d)).
Proof.
  unfold keys_are. intros [H1 H2]%andb_prop. rewrite forallb_forall in H1, H2. split.
  - intros Hk. by apply str_in_In, H2.
  - intros Hk. by apply str_in_In, H1.
Qed.

Lemma last_snoc_inv {A} (l : list A) x : last l = Some x -> exists l', l = l' ++ [x].
Proof.
  intros H. destruct (last_Some l x) as [H1 _]. exact (H1 H).
Qed.

(** X20. A row that the precheck of the session loader accepts holds an
    array of at least two elements, the two sentinels being different
    elements: a first mapping with the keys [type] and [node], a last one
    with the keys [type] and [time], the entries between them, and a declared
    length that is the number of elements. *)
Theorem session_precheck_shape float_of_str d :
  tabs_outliner_db._precheck_parsed_input_data float_of_str d = Ok tt ->
  exists first mid last,
    data d = JArr (first :: mid ++ [last])
    /\ middle (first :: mid ++ [last]) = mid
    /\ float_eq_int (op_array_len d) (Z.of_nat (length mid) + 2) = true
    /\ (exists m, first = JObj m /\ forall k, In k (dict_keys m) <-> In k ["type"; "node"])
    /\ (exists m, last = JObj m /\ forall k, In k (dict_keys m) <-> In k ["type"; "time"]).
Proof.
  intros H. destruct (session_precheck_ok_inv _ _ H) as [l Hl].
  unfold tabs_outliner_db._precheck_parsed_input_data in H.
  apply reraise_unexpected_ok in H.
  do 6 (apply bind_ok in H as (? & _ & H)).
  apply bind_ok in H as (n & Hn & H).
  apply bind_ok in H as ([] & Hlen%guard_ok & H).
  apply bind_ok in H as ([] & Hfirst%reraise_assertion_ok & H).
  apply bind_ok in H as ([] & Hlast%reraise_assertion_ok & _).
  rewrite Hl in Hn, Hfirst, Hlast. cbn [py_len] in Hn. injection Hn as <-.
  unfold first_sentinel in Hfirst.
  apply bind_ok in Hfirst as (dada0 & Hi & Hfirst).
  apply bind_ok in Hfirst as (d0 & Hm0 & Hfirst).
  apply bind_ok in Hfirst as ([] & Hk0%py_assert_ok & _).
  unfold last_sentinel in Hlast.
  apply bind_ok in Hlast as (dada_1 & Hi1 & Hlast).
  apply bind_ok in Hlast as (d1 & Hm1 & Hlast).
  apply bind_ok in Hlast as ([] & Hk1%py_assert_ok & _).
  destruct dada0; try discriminate. injection Hm0 as ->.
  destruct dada_1; try discriminate. injection Hm1 as ->.
  cbn [index] in Hi. destruct l as [|first l]; [discriminate|]. cbn in Hi. injection Hi as ->.
  cbn [index_last] in Hi1.
  destruct (last (JObj d0 :: l)) as [lst|] eqn:Hx; [|discriminate]. injection Hi1 as ->.
  destruct l as [|y l].
  { (* one element: it would have both sets of keys *)
    cbn in Hx. injection Hx as <-.
    pose proof (proj1 (keys_are_has _ _ "node" Hk0)) as Hnode.
    pose proof (proj2 (keys_are_has _ _ "node" Hk1)) as Htime.
    assert (Hin : In "node" ["type"; "time"]).
    { apply Htime, Hnode. cbn. tauto. }
    exfalso. destruct Hin as [?|[?|[]]]; discriminate. }
  change (last (JObj d0 :: y :: l)) with (last (y :: l)) in Hx.
  apply last_snoc_inv in Hx as [mid Hmid]. rewrite Hmid in *.
  exists (JObj d0), mid, (JObj d1). split; [done|]. split.
  { unfold middle. cbn [tail]. by rewrite removelast_last. }
  split.
  { rewrite <- Hlen. f_equal. cbn [length]. rewrite length_app. cbn. lia. }
  split.
  - exists d0. split; [done|]. intros k. symmetry. by apply keys_are_has.
  - exists d1. split; [done|]. intros k. symmetry. by apply keys_are_has.
Qed.

Lemma session_precheck_shape_witness :
  let l := [first_sentinel_of (JInt 5); tab_entry "https://a.example" "A";
            last_sentinel_of (JInt 1699999999000)] in
  exists first mid last,
    data (session_row l) = JArr (first :: mid ++ [last])
    /\ middle (first :: mid ++ [last]) = mid
    /\ float_eq_int (op_array_len (session_row l)) (Z.of_nat (length mid) + 2) = true
    /\ (exists m, first = JObj m /\ forall k, In k (dict_keys m) <-> In k ["type"; "node"])
    /\ (exists m, last = JObj m /\ forall k, In k (dict_keys m) <-> In k ["type"; "time"]).
Proof.
  intros l. apply (session_precheck_shape no_float_literal (session_row l)).
  vm_compute. reflexivity.
Defined.

(** X21. The empty payload: on a row whose declared length is zero and whose
    payload is the empty array (or the empty string), the precheck reaches
    [dada[0]], whose [IndexError] no clause catches, neither in the loader
    nor in [main]. *)
Theorem session_empty_payload float_of_str d now :
  SFeqb (id d) (float_lit 1) = true ->
  0 <= timestamp d ->
  (exists s, op_array_len d = S754_zero s) ->
  data d = JArr [] \/ data d = JStr EmptyString ->
  tabs_outliner_db.load_input_data float_of_str (Ok d) now = Raise IndexError
  /\ main_loading (Raise IndexError) = inr (inr IndexError).
Proof.
  intros Hid Hts [s Hz] Hdata. split; [|reflexivity].
  unfold tabs_outliner_db.load_input_data, tabs_outliner_db._precheck_parsed_input_data.
  cbn [mbind res_bind]. rewrite Hid. cbn [negb mbind res_bind].
  destruct (Z.leb_spec 0 (timestamp d)); [|lia]. cbn [negb mbind res_bind].
  rewrite Hz. destruct Hdata as [-> | ->]; destruct s; reflexivity.
Qed.

Lemma session_empty_payload_witness :
  tabs_outliner_db.load_input_data no_float_literal (Ok (session_row [])) 0
  = Raise IndexError
  /\ main_loading (Raise IndexError) = inr (inr IndexError).
Proof.
  apply (session_empty_payload no_float_literal (session_row []) 0).
  - reflexivity.
  - vm_compute. discriminate.
  - exists false. reflexivity.
  - left. reflexivity.
Defined.

Lemma convert_entry_checked entry i s :
  convert_entry entry i s
  = (ec ← reraise_unexpected (stopped_at_entry i) (checked_entry entry);
     if contributes ec then
       d ← dict_getitem ec "data";
       url ← getitem d "url";
       title ← getitem d "title";
       match url, title with
       | JStr url, JStr title => Ok (set_add (url, title) s)
       | _, _ => Raise TypeError
       end
     else Ok s).
Proof. reflexivity. Qed.

Lemma tab_data_has_strings m typ :
  check_keys (tab_required typ) (tab_optional typ) m = Ok tt ->
  exists url title,
    dict_get m "url" = Some (JStr url) /\ dict_get m "title" = Some (JStr title).
Proof.
  intros [Hreq Hpred]%check_keys_ok.
  destruct (Hreq "url") as [u Hu].
  { unfold tab_required, dict_keys. rewrite map_app. apply in_app_iff. left. cbn. tauto. }
  destruct (Hreq "title") as [t Ht].
  { unfold tab_required, dict_keys. rewrite map_app. apply in_app_iff. left. cbn. tauto. }
  destruct (Hpred _ _ Hu) as (p & Hp & Hpu).
  unfold tab_required in Hp. cbn in Hp. injection Hp as <-.
  destruct (Hpred _ _ Ht) as (q & Hq & Hqt).
  unfold tab_required in Hq. cbn in Hq. injection Hq as <-.
  destruct u; try discriminate. destruct t; try discriminate. eauto.
Qed.

Lemma checked_contents_data ec :
  _check_input_entry_contents ec = Ok tt ->
  contributes ec = true ->
  exists m url title,
    dict_get ec "data" = Some (JObj m)
    /\ dict_get m "url" = Some (JStr url) /\ dict_get m "title" = Some (JStr title).
Proof.
  unfold _check_input_entry_contents, contributes.
  intros ([] & _ & H)%bind_ok Hc.
  destruct (dict_get ec "data") as [subobj|]; [|discriminate].
  destruct subobj as [| | | | | |m]; try discriminate.
  cbn [_check_data_subobj] in H. apply reraise_unexpected_ok in H.
  assert (Htyp : match discriminator ec with Some t => Some (str_of t) | None => None end = None
                 \/ match discriminator ec with Some t => Some (str_of t) | None => None end
                    = Some "tab").
  { destruct (discriminator ec) as [t|]; [|by left]. right.
    destruct t; try discriminate. cbn in Hc. apply String.eqb_eq in Hc. by subst. }
  destruct Htyp as [Htyp|Htyp]; rewrite Htyp in H; cbn [bool_decide decide_rel orb] in H.
  - rewrite bool_decide_eq_true_2 in H by done. cbn [orb] in H.
    apply bind_ok in H as ([] & (url & title & ? & ?)%tab_data_has_strings & _). eauto 10.
  - rewrite (bool_decide_eq_true_2 (Some "tab" = Some "tab")) in H by done.
    rewrite orb_true_r in H.
    apply bind_ok in H as ([] & (url & title & ? & ?)%tab_data_has_strings & _). eauto 10.
Qed.

Lemma checked_entry_contents entry ec :
  checked_entry entry = Ok ec ->
  index entry 1 = Ok (JObj ec) /\ _check_input_entry_contents ec = Ok tt.
Proof.
  unfold checked_entry. intros Hval.
  apply bind_ok in Hval as (n & _ & Hval).
  apply bind_ok in Hval as (? & _ & Hval).
  apply bind_ok in Hval as (e0 & _ & Hval).
  apply bind_ok in Hval as (? & _ & Hval).
  apply bind_ok in Hval as (e1 & He1 & Hval).
  apply bind_ok in Hval as (ec' & Hec & Hval).
  apply bind_ok in Hval as (e2 & _ & Hval).
  apply bind_ok in Hval as (? & _ & Hval).
  apply bind_ok in Hval as (? & _ & Hval).
  apply bind_ok in Hval as ([] & Hc & Hval).
  injection Hval as ->.
  destruct e1; try discriminate. injection Hec as ->. done.
Qed.

Lemma convert_checked_entry entry i s ec :
  checked_entry entry = Ok ec -> convert_entry entry i s = Ok (add_tab s entry).
Proof.
  intros H. assert (exists s', convert_entry entry i s = Ok s') as [s' Hs'].
  { rewrite convert_entry_checked, H. cbn [reraise_unexpected mbind res_bind].
    destruct (checked_entry_contents _ _ H) as [_ Hc].
    destruct (contributes ec) eqn:Hcon; [|eauto].
    destruct (checked_contents_data _ Hc Hcon) as (m & url & title & Hd & Hu & Ht).
    rewrite dict_getitem_get, Hd. cbn [mbind res_bind].
    rewrite !getitem_obj, Hu, Ht. cbn [mbind res_bind]. eauto. }
  rewrite Hs'. f_equal. by apply convert_entry_ok in Hs'.
Qed.

Lemma convert_failing_entry entry i s e :
  checked_entry entry = Raise e ->
  convert_entry entry i s
  = Raise (match e with
           | AssertionError | UnexpectedInputError _ =>
               UnexpectedInputError (stopped_at_entry i e)
           | _ => e
           end).
Proof.
  intros H. rewrite convert_entry_checked, H. by destruct e.
Qed.

Lemma for_children_convert_all l : forall i s,
  (forall x, In x l -> is_ok (checked_entry x) = true) ->
  for_children convert_entry l i s = Ok (fold_left add_tab l s).
Proof.
  induction l as [|x l IH]; intros i s Hall; [done|]. cbn [for_children fold_left].
  destruct (checked_entry x) as [ec|] eqn:Hx; [|by specialize (Hall x (or_introl eq_refl)); rewrite Hx in Hall].
  rewrite (convert_checked_entry _ _ _ _ Hx). cbn [mbind res_bind].
  apply IH. intros y Hy. apply Hall. by right.
Qed.

Lemma for_children_convert_first before : forall entry rest i s e,
  (forall x, In x before -> is_ok (checked_entry x) = true) ->
  checked_entry entry = Raise e ->
  for_children convert_entry (before ++ entry :: rest) i s
  = Raise (match e with
           | AssertionError | UnexpectedInputError _ =>
               UnexpectedInputError (stopped_at_entry (i + Z.of_nat (length before)) e)
           | _ => e
           end).
Proof.
  induction before as [|x before IH]; intros entry rest i s e Hall He.
  - cbn [app for_children length Z.of_nat]. rewrite Z.add_0_r.
    rewrite (convert_failing_entry _ _ _ _ He). reflexivity.
  - cbn [app for_children].
    destruct (checked_entry x) as [ec|] eqn:Hx; [|by specialize (Hall x (or_introl eq_refl)); rewrite Hx in Hall].
    rewrite (convert_checked_entry _ _ _ _ Hx). cbn [mbind res_bind].
    rewrite (IH entry rest (i + 1) _ e); [|intros y Hy; apply Hall; by right|done].
    replace (i + 1 + Z.of_nat (length before)) with (i + Z.of_nat (length (x :: before)))
      by (cbn [length]; lia). done.
Qed.

(** X22. The session loader stops at the first entry that does not pass
    the checks and names it by its position in the array, the first entry
    after the sentinel being entry 1: an assertion that fails or an
    [UnexpectedInputError] is reported as [UnexpectedInputError] with that
    number, any other exception leaves the loader as it is.  When every
    entry passes, the loader returns the record of the tab entries. *)
Theorem first_failing_entry_is_located float_of_str d now l :
  tabs_outliner_db._precheck_parsed_input_data float_of_str d = Ok tt ->
  data d = JArr l ->
  (forall before entry rest e,
      middle l = before ++ entry :: rest ->
      (forall x, In x before -> is_ok (checked_entry x) = true) ->
      checked_entry entry = Raise e ->
      tabs_outliner_db.load_input_data float_of_str (Ok d) now
      = Raise (match e with
               | AssertionError | UnexpectedInputError _ =>
                   UnexpectedInputError
                     (stopped_at_entry (Z.of_nat (length before) + 1) e)
               | _ => e
               end))
  /\ ((forall x, In x (middle l) -> is_ok (checked_entry x) = true) ->
      tabs_outliner_db.load_input_data float_of_str (Ok d) now
      = Ok {| output_timestamp := now; entries_of := fold_left add_tab (middle l) [] |}).
Proof.
  intros Hpre Hl. unfold tabs_outliner_db.load_input_data. cbn [mbind res_bind].
  rewrite Hpre. cbn [mbind res_bind]. unfold tabs_outliner_db._convert_internal_data.
  rewrite Hl. split.
  - intros before entry rest e -> Hall He.
    rewrite (for_children_convert_first before entry rest 1 [] e Hall He).
    rewrite (Z.add_comm 1). by destruct e.
  - intros Hall. by rewrite (for_children_convert_all _ 1 [] Hall).
Qed.

Lemma first_failing_entry_is_located_witness :
  tabs_outliner_db.load_input_data no_float_literal
    (Ok (session_row [first_sentinel_of (JInt 5);
                      tab_entry "https://a.example" "A";
                      JArr [JInt 2001; JObj [("type", JStr "note")]; JArr []];
                      win_entry;
                      last_sentinel_of (JInt 1699999999000)])) 0
  = Raise (UnexpectedInputError
             (quotes "Input data has unexpected format (stopped at first failed entry 2): JSON entry contents has unknown type: `note`")).
Proof.
  apply (proj1 (first_failing_entry_is_located no_float_literal
                  (session_row [first_sentinel_of (JInt 5);
                                tab_entry "https://a.example" "A";
                                JArr [JInt 2001; JObj [("type", JStr "note")]; JArr []];
                                win_entry;
                                last_sentinel_of (JInt 1699999999000)]) 0 _
                  ltac:(vm_compute; reflexivity) eq_refl)
               [tab_entry "https://a.example" "A"]
               (JArr [JInt 2001; JObj [("type", JStr "note")]; JArr []])
               [win_entry]
               (UnexpectedInputError (quotes "JSON entry contents has unknown type: `note`"))).
  - reflexivity.
  - intros x [<-|[]]. vm_compute. reflexivity.
  - vm_compute. reflexivity.
Defined.

Lemma split_on_nonempty sep n cur s : split_on sep n cur s <> [].
Proof.
  revert n cur. induction s as [|c s IH]; intros n cur; cbn [split_on]; [done|].
  destruct n; [done|]. destruct (Ascii.eqb c sep); [done|apply IH].
Qed.

Lemma append_cons x (a b : string) : String x a +:+ b = String x (a +:+ b).
Proof. reflexivity. Qed.

Lemma append_assoc' (a b c : string) : (a +:+ b) +:+ c = a +:+ (b +:+ c).
Proof. induction a as [|x a IH]; [done|]. by rewrite !append_cons, IH. Qed.

Lemma append_nil_r (a : string) : a +:+ EmptyString = a.
Proof. induction a as [|x a IH]; [done|]. by rewrite append_cons, IH. Qed.

Lemma join_cons sep x l :
  l <> [] -> join sep (x :: l) = x +:+ sep +:+ join sep l.
Proof. by destruct l. Qed.

(** Joining the parts of a split on the separator gives the string back. *)
Lemma join_split_on sep s : forall n cur,
  join (String sep EmptyString) (split_on sep n cur s) = cur +:+ s.
Proof.
  induction s as [|c s IH]; intros n cur; cbn [split_on].
  - cbn. by rewrite append_nil_r.
  - destruct n; [done|]. destruct (Ascii.eqb_spec c sep) as [->|Hne].
    + rewrite join_cons by apply split_on_nonempty. rewrite IH. reflexivity.
    + rewrite IH. rewrite append_assoc'. reflexivity.
Qed.

Lemma forallb_undefined l :
  forallb (fun x => String.eqb x "undefined") l = true ->
  l = repeat "undefined" (length l).
Proof.
  induction l as [|x l IH]; [done|]. cbn [forallb length repeat].
  intros [->%String.eqb_eq H]%andb_prop. f_equal. by apply IH.
Qed.

(** X23. Splitting a string on the underscore and joining the parts with an
    underscore gives the string back, whatever the bound on the splits; so
    the [data] of a group entry passes exactly when its [rect] is the
    string [undefined_undefined_undefined_undefined]. *)
Theorem group_data_rect (m : list (string * json)) :
  (forall s n, join "_" (split_on "_" n EmptyString s) = s)
  /\ (_check_data_subobj (JObj m) (Some "group") = Ok tt
      <-> dict_get m "rect" = Some (JStr "undefined_undefined_undefined_undefined")).
Proof.
  split; [intros s n; exact (join_split_on "_" s n EmptyString)|].
  cbn [_check_data_subobj]. rewrite reraise_unexpected_ok.
  cbn [bool_decide decide_rel orb].
  rewrite (bool_decide_eq_false_2 (Some "group" = None)) by done.
  rewrite (bool_decide_eq_false_2 (Some "group" = Some "tab")) by done.
  rewrite (bool_decide_eq_false_2 (Some "group" = Some "savedwin")) by done.
  rewrite (bool_decide_eq_false_2 (Some "group" = Some "win")) by done.
  rewrite (bool_decide_eq_true_2 (Some "group" = Some "group")) by done.
  cbn [orb]. rewrite getitem_obj. unfold dict_has. split.
  - destruct (dict_get m "rect") as [rect|]; [|discriminate]. cbn [py_assert mbind res_bind].
    destruct rect as [| | | |s| |]; try discriminate. cbn [is_str py_assert mbind res_bind str_of].
    intros ([] & Hlen%py_assert_ok & Hall%py_assert_ok)%bind_ok.
    apply Nat.eqb_eq in Hlen. apply forallb_undefined in Hall. rewrite Hlen in Hall.
    pose proof (join_split_on "_" s 5%nat EmptyString) as Hj. rewrite Hall in Hj.
    change (EmptyString +:+ s) with s in Hj. rewrite <- Hj. reflexivity.
  - intros ->. reflexivity.
Qed.

Lemma split_on_no_sep sep s : forall n cur,
  (length (split_on sep n cur s) <= n)%nat ->
  ~ In sep (list_ascii_of_string cur) ->
  Forall (fun p => ~ In sep (list_ascii_of_string p)) (split_on sep n cur s).
Proof.
  induction s as [|c s IH]; intros n cur Hlen Hcur; cbn [split_on] in *.
  - by constructor.
  - destruct n as [|n]; [cbn in Hlen; lia|].
    destruct (Ascii.eqb_spec c sep) as [->|Hne].
    + cbn [length] in Hlen. constructor; [done|]. apply IH; [lia|]. by intros [].
    + apply IH; [done|]. intros Hin.
      assert (Happ : forall a b, list_ascii_of_string (a +:+ b)
                                 = list_ascii_of_string a ++ list_ascii_of_string b).
      { intros a b. induction a as [|x a IHa]; [done|].
        change (String x a +:+ b) with (String x (a +:+ b)).
        cbn [list_ascii_of_string]. by rewrite IHa. }
      rewrite Happ in Hin. apply in_app_iff in Hin as [?|[?|[]]]; [done|]. by subst.
Qed.

(** X24. The [data] of a window entry that passes: its [rect] is made of
    exactly four parts separated by three underscores, its [type] is
    [normal] or [popup], a [state] is there only under [win] and is
    [maximized], [crashDetectedDate] is there only under [savedwin], and
    there is no key outside the six that the check knows.  (How [int] reads
    the four parts is not part of the statement.) *)
Theorem window_data_rect m typ :
  typ = "win" \/ typ = "savedwin" ->
  _check_data_subobj (JObj m) (Some typ) = Ok tt ->
  exists a b c d ty,
    dict_get m "rect" = Some (JStr (join "_" [a; b; c; d]))
    /\ Forall (fun p => ~ In "_"%char (list_ascii_of_string p)) [a; b; c; d]
    /\ dict_get m "type" = Some (JStr ty) /\ (ty = "normal" \/ ty = "popup")
    /\ (forall st, dict_get m "state" = Some st -> typ = "win" /\ st = JStr "maximized")
    /\ (dict_has m "crashDetectedDate" = true -> typ = "savedwin")
    /\ (forall k, dict_has m k = true ->
          In k ["type"; "rect"; "id"; "focused"; "crashDetectedDate"; "state"]).
Proof.
  intros Htyp. cbn [_check_data_subobj]. rewrite reraise_unexpected_ok.
  assert (bool_decide (Some typ = None) || bool_decide (Some typ = Some "tab") = false) as ->.
  { destruct Htyp as [-> | ->]; reflexivity. }
  assert (bool_decide (Some typ = Some "savedwin") || bool_decide (Some typ = Some "win") = true)
    as ->.
  { destruct Htyp as [-> | ->]; reflexivity. }
  intros H. apply bind_ok in H as ([] & [Hreq Hpred]%check_keys_ok & H).
  destruct (Hreq "type") as [t Ht]; [cbn; tauto|].
  destruct (Hreq "rect") as [rect Hrect]; [cbn; tauto|].
  destruct (Hpred _ _ Ht) as (p & Hp & Hpt). cbn in Hp. injection Hp as <-.
  destruct (Hpred _ _ Hrect) as (q & Hq & Hqr). cbn in Hq. injection Hq as <-.
  destruct t as [| | | |ty| |]; try discriminate.
  destruct rect as [| | | |rect| |]; try discriminate.
  rewrite (getitem_obj m "type"), Ht in H. cbn [mbind res_bind str_of] in H.
  apply bind_ok in H as ([] & Hty%py_assert_ok & H).
  apply bind_ok in H as ([] & Hstate & H).
  rewrite (getitem_obj m "rect"), Hrect in H. cbn [mbind res_bind _parse_rect_record] in H.
  apply bind_ok in H as (rr & Hrr & _).
  apply bind_ok in Hrr as ([] & Hlen%py_assert_ok & _).
  apply Nat.eqb_eq in Hlen.
  pose proof (join_split_on "_" rect 5%nat EmptyString) as Hj.
  change (EmptyString +:+ rect) with rect in Hj.
  assert (Hparts : Forall (fun p => ~ In "_"%char (list_ascii_of_string p))
                          (split_on "_" 5 EmptyString rect)).
  { apply split_on_no_sep; [lia|]. by intros []. }
  destruct (split_on "_" 5 EmptyString rect) as [|a [|b [|c [|d [|]]]]]; try discriminate.
  exists a, b, c, d, ty. rewrite Hj. do 3 (split; [done|]).
  split; [|split; [|split]].
  - unfold str_in in Hty. cbn in Hty.
    destruct (String.eqb_spec ty "normal"); [by left|].
    destruct (String.eqb_spec ty "popup"); [by right|]. discriminate.
  - intros st Hst. destruct (Hpred _ _ Hst) as (p & Hp & Hps).
    unfold dict_has in Hstate. rewrite Hst in Hstate.
    rewrite (getitem_obj m "state"), Hst in Hstate. cbn [mbind res_bind] in Hstate.
    apply py_assert_ok in Hstate.
    destruct Htyp as [-> | ->]; [|vm_compute in Hp; discriminate]. split; [done|].
    vm_compute in Hp. injection Hp as <-. destruct st as [| | | |st| |]; try discriminate.
    cbn in Hstate. destruct (String.eqb_spec st "maximized"); [by subst|discriminate].
  - intros [v Hv]%dict_has_get. destruct (Hpred _ _ Hv) as (p & Hp & _).
    destruct Htyp as [-> | ->]; [vm_compute in Hp; discriminate|done].
  - intros k [v Hv]%dict_has_get. destruct (Hpred _ _ Hv) as (p & Hp & _).
    apply dict_get_In in Hp. apply (in_map fst) in Hp. cbn [fst] in Hp.
    destruct Htyp as [-> | ->]; vm_compute in Hp; cbn; tauto.
Qed.

Lemma window_data_rect_witness :
  let m := [("type", JStr "normal"); ("rect", JStr "0_0_100_100");
            ("state", JStr "maximized")] in
  exists a b c d ty,
    dict_get m "rect" = Some (JStr (join "_" [a; b; c; d]))
    /\ Forall (fun p => ~ In "_"%char (list_ascii_of_string p)) [a; b; c; d]
    /\ dict_get m "type" = Some (JStr ty) /\ (ty = "normal" \/ ty = "popup")
    /\ (forall st, dict_get m "state" = Some st -> "win" = "win" /\ st = JStr "maximized")
    /\ (dict_has m "crashDetectedDate" = true -> "win" = "savedwin")
    /\ (forall k, dict_has m k = true ->
          In k ["type"; "rect"; "id"; "focused"; "crashDetectedDate"; "state"]).
Proof.
  intros m. apply (window_data_rect m "win"); [left; reflexivity|vm_compute; reflexivity].
Defined.

Lemma tab_required_get typ k p :
  In (k, p) [ ("audible", is_bool); ("autoDiscardable", is_True); ("discarded", is_bool);
              ("mutedInfo", is_Mapping); ("title", is_str); ("url", is_str) ] ->
  dict_get (tab_required typ ++ tab_optional typ) k = Some p.
Proof.
  intros H. unfold tab_required.
  repeat (destruct H as [[= <- <-]|H]; [reflexivity|]). destruct H.
Qed.

(** X28. The [data] of an entry that contributes a pair (no discriminator,
    or [tab]) and passes: [url] and [title] are strings, [audible] and
    [discarded] booleans, [autoDiscardable] is [true], [mutedInfo] is a
    mapping whose [muted] is a boolean, with the reason [user] when it is
    [true]; a [status] is allowed only under [tab] and is [loading] or
    [unloaded]; under [tab] there is an [id], a positive integer. *)
Theorem tab_data_contents m typ :
  typ = None \/ typ = Some "tab" ->
  _check_data_subobj (JObj m) typ = Ok tt ->
  exists url title audible discarded mi muted,
    dict_get m "url" = Some (JStr url)
    /\ dict_get m "title" = Some (JStr title)
    /\ dict_get m "audible" = Some (JBool audible)
    /\ dict_get m "discarded" = Some (JBool discarded)
    /\ dict_get m "autoDiscardable" = Some (JBool true)
    /\ dict_get m "mutedInfo" = Some (JObj mi)
    /\ dict_get mi "muted" = Some (JBool muted)
    /\ (muted = true -> dict_get mi "reason" = Some (JStr "user"))
    /\ (forall status, dict_get m "status" = Some status ->
          typ = Some "tab" /\ (status = JStr "loading" \/ status = JStr "unloaded"))
    /\ (typ = Some "tab" ->
          exists i, dict_get m "id" = Some i /\ int_such_that (fun x => 0 <? x) i = true).
Proof.
  intros Htyp. cbn [_check_data_subobj]. rewrite reraise_unexpected_ok.
  assert (bool_decide (typ = None) || bool_decide (typ = Some "tab") = true) as ->.
  { destruct Htyp as [-> | ->]; reflexivity. }
  intros H. apply bind_ok in H as ([] & [Hreq Hpred]%check_keys_ok & H).
  assert (Hget : forall k p,
            In (k, p) [ ("audible", is_bool); ("autoDiscardable", is_True);
                        ("discarded", is_bool); ("mutedInfo", is_Mapping);
                        ("title", is_str); ("url", is_str) ] ->
            exists v, dict_get m k = Some v /\ p v = true).
  { intros k p Hk. destruct (Hreq k) as [v Hv].
    { unfold tab_required, dict_keys. rewrite map_app. apply in_app_iff. left.
      apply (in_map fst) in Hk. exact Hk. }
    exists v. split; [done|]. destruct (Hpred _ _ Hv) as (q & Hq & Hqv).
    rewrite (tab_required_get typ k p Hk) in Hq. by injection Hq as <-. }
  destruct (Hget "url" is_str) as (url & Hurl & Purl); [cbn; tauto|].
  destruct (Hget "title" is_str) as (title & Htitle & Ptitle); [cbn; tauto|].
  destruct (Hget "audible" is_bool) as (audible & Haud & Paud); [cbn; tauto|].
  destruct (Hget "discarded" is_bool) as (discarded & Hdis & Pdis); [cbn; tauto|].
  destruct (Hget "autoDiscardable" is_True) as (ad & Had & Pad); [cbn; tauto|].
  destruct (Hget "mutedInfo" is_Mapping) as (mi & Hmi & Pmi); [cbn; tauto|].
  destruct url as [| | | |url| |]; try discriminate.
  destruct title as [| | | |title| |]; try discriminate.
  destruct audible as [|audible| | | | |]; try discriminate.
  destruct discarded as [|discarded| | | | |]; try discriminate.
  destruct ad as [|[]| | | | |]; try discriminate. destruct mi as [| | | | | |mi]; try discriminate.
  apply bind_ok in H as ([] & Hstatus & H).
  rewrite (getitem_obj m "mutedInfo"), Hmi in H. cbn [mbind res_bind _assert_muted_info] in H.
  apply bind_ok in H as ([] & Hmuted%py_assert_ok & H).
  destruct (dict_get mi "muted") as [muted|] eqn:Hm; [|discriminate].
  destruct muted as [|muted| | | | |]; try discriminate.
  apply bind_ok in H as ([] & _ & H).
  rewrite (getitem_obj mi "muted"), Hm in H. cbn [mbind res_bind is_True] in H.
  exists url, title, audible, discarded, mi, muted.
  do 7 (split; [done|]). split; [|split].
  - intros ->. apply bind_ok in H as ([] & Hr%py_assert_ok & H).
    destruct (dict_get mi "reason") as [reason|] eqn:Hreason; [|discriminate].
    rewrite (getitem_obj mi "reason"), Hreason in H. cbn [mbind res_bind] in H.
    apply py_assert_ok in H. destruct reason; try discriminate.
    cbn in H. apply String.eqb_eq in H. by subst.
  - intros status Hs. destruct (Hpred _ _ Hs) as (q & Hq & Hqs).
    unfold dict_has in Hstatus. rewrite Hs in Hstatus.
    rewrite (getitem_obj m "status"), Hs in Hstatus. cbn [mbind res_bind] in Hstatus.
    apply py_assert_ok in Hstatus.
    destruct Htyp as [-> | ->]; [cbn in Hq; discriminate|]. split; [done|].
    cbn in Hq. injection Hq as <-. destruct status as [| | | |st| |]; try discriminate.
    cbn in Hstatus.
    destruct (String.eqb_spec st "loading"); [left; by subst|].
    destruct (String.eqb_spec st "unloaded"); [right; by subst|]. discriminate.
  - intros ->. destruct (Hreq "id") as [i Hi]; [vm_compute; tauto|].
    exists i. split; [done|]. destruct (Hpred _ _ Hi) as (q & Hq & Hqi).
    vm_compute in Hq. injection Hq as <-. exact Hqi.
Qed.

Lemma tab_data_contents_witness :
  let m := [ ("audible", JBool false); ("autoDiscardable", JBool true);
             ("discarded", JBool false); ("mutedInfo", JObj [("muted", JBool false)]);
             ("title", JStr "A"); ("url", JStr "https://a.example") ] in
  exists url title audible discarded mi muted,
    dict_get m "url" = Some (JStr url)
    /\ dict_get m "title" = Some (JStr title)
    /\ dict_get m "audible" = Some (JBool audible)
    /\ dict_get m "discarded" = Some (JBool discarded)
    /\ dict_get m "autoDiscardable" = Some (JBool true)
    /\ dict_get m "mutedInfo" = Some (JObj mi)
    /\ dict_get mi "muted" = Some (JBool muted)
    /\ (muted = true -> dict_get mi "reason" = Some (JStr "user"))
    /\ (forall status, dict_get m "status" = Some status ->
          @None string = Some "tab" /\ (status = JStr "loading" \/ status = JStr "unloaded"))
    /\ (@None string = Some "tab" ->
          exists i, dict_get m "id" = Some i /\ int_such_that (fun x => 0 <? x) i = true).
Proof.
  intros m. apply (tab_data_contents m None); [left; reflexivity|vm_compute; reflexivity].
Defined.

(** ** [commons.fun_project] and the parser of [hasty_ruby_coypu.py] *)


Lemma dict_get_setitem {V} (d : list (string * V)) k v k' :
  dict_get (dict_setitem d k v) k' = if String.eqb k k' then Some v else dict_get d k'.
Proof.
  induction d as [|[k0 v0] d IH]; cbn [dict_setitem dict_get].
  - reflexivity.
  - destruct (String.eqb_spec k0 k) as [->|Hne]; cbn [dict_get].
    + destruct (String.eqb_spec k k'); reflexivity.
    + rewrite IH. destruct (String.eqb_spec k0 k') as [->|]; [|done].
      destruct (String.eqb_spec k k'); congruence.
Qed.

Lemma fun_project_fold {V} (mapping : list (string * V)) keys k : forall d,
  dict_get (fold_left (fun d kv => dict_setitem d (fst kv) (snd kv))
              (flat_map (fun k => match dict_get mapping k with
                                  | Some v => [(k, v)]
                                  | None => []
                                  end) keys) d) k
  = match dict_get mapping k with
    | Some v => if bool_decide (k ∈ keys) then Some v else dict_get d k
    | None => dict_get d k
    end.
Proof.
  induction keys as [|k0 keys IH]; intros d; cbn [flat_map].
  - cbn. by destruct (dict_get mapping k).
  - rewrite fold_left_app, IH. 
    destruct (dict_get mapping k) as [v|] eqn:Hk.
    + destruct (bool_decide_reflect (k ∈ keys)) as [Hin|Hnin].
      * rewrite bool_decide_eq_true_2 by (by right). done.
      * destruct (dict_get mapping k0) as [v0|] eqn:Hk0; cbn [fold_left fst snd].
        -- rewrite dict_get_setitem. destruct (String.eqb_spec k0 k) as [->|Hne].
           ++ rewrite bool_decide_eq_true_2 by (by left). congruence.
           ++ rewrite bool_decide_eq_false_2; [done|].
              intros [?|?]%elem_of_cons; congruence.
        -- rewrite bool_decide_eq_false_2; [done|].
           intros [->|?]%elem_of_cons; congruence.
    + destruct (dict_get mapping k0) as [v0|] eqn:Hk0; cbn [fold_left fst snd]; [|done].
      rewrite dict_get_setitem. destruct (String.eqb_spec k0 k) as [->|Hne]; [congruence|done].
Qed.

Lemma fun_project_get {V} (mapping : list (string * V)) keys k :
  dict_get (fun_project mapping keys) k
  = if bool_decide (k ∈ keys) then dict_get mapping k else None.
Proof.
  unfold fun_project, dict_of_pairs. rewrite fun_project_fold. cbn [dict_get].
  destruct (dict_get mapping k), (bool_decide (k ∈ keys)); reflexivity.
Qed.

(** X25. [fun_project] projects: a key of the result is one of [keys] that
    the mapping has, with the value the mapping gives it; any other key is
    absent. *)
Theorem fun_project_lookup {V} (mapping : list (string * V)) keys k :
  (forall v, dict_get (fun_project mapping keys) k = Some v
             <-> k ∈ keys /\ dict_get mapping k = Some v)
  /\ (dict_get (fun_project mapping keys) k = None
      <-> k ∉ keys \/ dict_get mapping k = None).
Proof.
  rewrite fun_project_get.
  destruct (bool_decide_reflect (k ∈ keys)) as [Hin|Hnin]; split.
  - intros v. split; [done|by intros [_ ?]].
  - split; [by right|]. by intros [?|?].
  - intros v. split; [done|by intros [? _]].
  - split; [by left|done].
Qed.

(** X26. [ArgumentCustomParser] never enables the slash keys: the keys it
    projects the keyword arguments on are the characters of
    ['enable_slash_keys'], none of which is that name, so the flag is
    [False] whatever the keyword arguments are. *)
Theorem slash_keys_are_never_enabled {V} (truthy : V -> bool) kwargs :
  _enable_slash_keys truthy kwargs = false.
Proof.
  unfold _enable_slash_keys. rewrite fun_project_get.
  rewrite bool_decide_eq_false_2; [done|].
  vm_compute. intros H. repeat (apply elem_of_cons in H as [H|H]; [discriminate|]).
  by apply elem_of_nil in H.
Qed.


(** ** From the source to the store *)

Lemma bookmarks_record_elem data now od :
  chrome_bookmarks.load_input_data (Ok data) now = Ok od ->
  exists roots,
    getitem data "roots" = Ok (JObj roots)
    /\ forall e, e ∈ entries_of od <->
                 exists x, In x (forest roots) /\ is_url_node (fst (snd (snd x))) e.
Proof.
  intros H.
  assert (Hpre : chrome_bookmarks._precheck_parsed_input_data data = Ok tt).
  { unfold chrome_bookmarks.load_input_data in H. cbn [mbind res_bind] in H.
    by destruct (chrome_bookmarks._precheck_parsed_input_data data) as [[]|]. }
  destruct (precheck_ok_inv _ Hpre) as (m & roots & -> & Hroots).
  assert (Hr : getitem (JObj m) "roots" = Ok (JObj roots))
    by (by rewrite getitem_obj, Hroots).
  exists roots. split; [done|].
  rewrite (load_input_data_eq _ now _ Hpre Hr) in H.
  destruct (find root_fails (forest roots)); [discriminate|]. injection H as <-.
  intros e. cbn [entries_of]. rewrite fold_add_pair_elem. split.
  - intros [He|(x & (y & <- & Hy)%in_map_iff & Hx)]; [by apply elem_of_nil in He|].
    eauto.
  - intros (x & Hx & Hu). right. exists (snd (snd x)). split; [|done].
    apply in_map_iff. eauto.
Qed.

Lemma session_record_elem float_of_str d now od :
  tabs_outliner_db.load_input_data float_of_str (Ok d) now = Ok od ->
  exists l,
    data d = JArr l
    /\ forall e, e ∈ entries_of od <->
                 exists entry, In entry (middle l) /\ is_tab_entry entry e.
Proof.
  intros H. unfold tabs_outliner_db.load_input_data in H. cbn [mbind res_bind] in H.
  destruct (tabs_outliner_db._precheck_parsed_input_data float_of_str d)
    as [[]|] eqn:Hpre; [|discriminate].
  destruct (session_precheck_ok_inv _ _ Hpre) as [l Hl].
  exists l. split; [done|]. cbn [mbind res_bind] in H.
  unfold tabs_outliner_db._convert_internal_data in H. rewrite Hl in H.
  apply bind_ok in H as (entries & ->%for_children_convert_ok & [= <-]).
  intros e. cbn [entries_of]. rewrite fold_add_tab_elem. split.
  - intros [He|?]; [by apply elem_of_nil in He|done].
  - auto.
Qed.

Lemma main_success_inv verbose_errors rng loaded file d :
  main verbose_errors rng loaded file = (Ok SUCCESS, Some d) ->
  exists od, loaded = Ok od /\ store_output_data rng od file = (Done, d).
Proof.
  unfold main. destruct loaded as [data|e]; [|destruct e, verbose_errors; discriminate].
  destruct (store_output_data rng data file) as [[|e st] d'] eqn:Hs;
    [|destruct e, verbose_errors; discriminate].
  intros [= <-]. eauto.
Qed.

(** X29. From the source to the store: when [main] returns [SUCCESS], the
    (url, title) pairs of the rows of the output file are exactly the pairs
    that the file held before and the pairs of the nodes of the source, the
    nodes of type [url] of the bookmark document, or the entries of the
    session array without discriminator or with the discriminator [tab]. *)
Theorem main_stores_the_pairs_of_the_source verbose_errors rng now file d :
  (forall data,
      main verbose_errors rng (chrome_bookmarks.load_input_data (Ok data) now) file
      = (Ok SUCCESS, Some d) ->
      exists roots,
        getitem data "roots" = Ok (JObj roots)
        /\ forall e, e ∈ stored_pairs d <->
             (exists x, In x (forest roots) /\ is_url_node (fst (snd (snd x))) e)
             \/ (exists d0, file = Some d0 /\ e ∈ stored_pairs d0))
  /\ (forall float_of_str row,
      main verbose_errors rng (tabs_outliner_db.load_input_data float_of_str (Ok row) now)
           file
      = (Ok SUCCESS, Some d) ->
      exists l,
        data row = JArr l
        /\ forall e, e ∈ stored_pairs d <->
             (exists entry, In entry (middle l) /\ is_tab_entry entry e)
             \/ (exists d0, file = Some d0 /\ e ∈ stored_pairs d0)).
Proof.
  split.
  - intros data (od & Hload & Hstore)%main_success_inv.
    destruct (bookmarks_record_elem _ _ _ Hload) as (roots & Hroots & Helem).
    exists roots. split; [done|]. intros e.
    by rewrite (store_output_data_pairs_aux _ _ _ _ Hstore e), Helem.
  - intros float_of_str row (od & Hload & Hstore)%main_success_inv.
    destruct (session_record_elem _ _ _ _ Hload) as (l & Hl & Helem).
    exists l. split; [done|]. intros e.
    by rewrite (store_output_data_pairs_aux _ _ _ _ Hstore e), Helem.
Qed.

Lemma main_stores_the_pairs_of_the_source_witness :
  let now := 1700000000000000 in
  let d := snd (store_output_data rng_example
                  {| output_timestamp := now;
                     entries_of := [("https://a.example", "A"); ("https://b.example", "B")] |}
                  None) in
  exists roots,
    getitem document_with_a_repeated_bookmark "roots" = Ok (JObj roots)
    /\ forall e, e ∈ stored_pairs d <->
         (exists x, In x (forest roots) /\ is_url_node (fst (snd (snd x))) e)
         \/ (exists d0, @None database = Some d0 /\ e ∈ stored_pairs d0).
Proof.
  intros now d.
  apply (proj1 (main_stores_the_pairs_of_the_source false rng_example now None d)
           document_with_a_repeated_bookmark).
  vm_compute. reflexivity.
Defined.
